(** * FinHelper: rule-based categorisation, spend aggregation, budget status

    A shallow embedding of the classification / aggregation core of the
    FinHelper backend:

    - [app/services/categorizer.py]  ([AutoCategorizer])
    - [app/api/budgets.py]           (spend aggregation, budget status,
                                      the budget handlers, trend months)
    - [app/api/transactions.py]      (the transaction handlers, monthly
                                      analytics, the sheet synchronisation)
    - [app/api/reports.py]           (monthly and yearly report, the daily
                                      flow of the dashboard)
    - [app/services/gsheets_service.py] ([add_transaction])
    - [app/schemas.py]               (the [Budget] response schema)
    - [scripts/normalize_enums.py], [scripts/insert_account.py]

    Modelling conventions.

    - Python [str] is [string]; only the ASCII range is interpreted by
      [lower], [strip] and the regular-expression classes.
    - Python [float] amounts are exact rationals [Q].  Every statement below
      is about branch structure and the order of the arithmetic, not about
      binary rounding; comparisons at an exact tie and sums taken in
      another order than the code's can come out differently on floats.
    - Python dictionaries that are iterated ([self.rules]) are association
      lists in insertion order.
    - SQL tables are lists of rows in primary-key order; [.first()] is the
      head of the filtered list.  Queries and commits are taken to succeed.
      A row holds what the ORM loads from it.  A column declared
      [Enum(...)] stores the name of the member ([type_name]), which is
      what a query sees when it compares the column with a string; a
      stored value that names no member cannot be loaded and is not a row
      of the model.
    - Request bodies hold, for each optional field, a value or nothing; a
      field sent as an explicit null is not represented.
    - Exceptions are an explicit [result] type. *)

From Stdlib Require Import List Bool ZArith QArith Qround Ascii String Lia.
From Stdlib Require Import Permutation Lqa Sorted.
From Stdlib Require Import DecimalString DecimalPos.
Import ListNotations.

Set Implicit Arguments.

Local Open Scope string_scope.

(** ** Results of fallible code *)

Inductive exn : Type :=
| ReError            (* re.error: the pattern does not compile *)
| NotInterpreted     (* the pattern is outside the modelled part of [re] *)
| ValueError
| ZeroDivisionError
| AttributeError     (* attribute access on None *)
| OSError
| ValidationError    (* pydantic: a field of the response model is invalid *)
| HTTPException (status : Z).

Inductive result (A : Type) : Type :=
| Ok (a : A)
| Raise (e : exn).

Arguments Ok {A} a.
Arguments Raise {A} e.

Definition bind {A B : Type} (m : result A) (k : A -> result B) : result B :=
  match m with
  | Ok a => k a
  | Raise e => Raise e
  end.

Notation "x <- m ;; k" := (bind m (fun x => k))
  (at level 61, m at next level, right associativity).

(** ** Python strings *)

Module PyStr.

Definition is_upper (c : ascii) : bool :=
  (Ascii.leb "A" c && Ascii.leb c "Z")%char.

(** [str.lower] on one ASCII character. *)
Definition lower_char (c : ascii) : ascii :=
  if is_upper c then ascii_of_nat (nat_of_ascii c + 32) else c.

(** [str.lower()] *)
Fixpoint lower (s : string) : string :=
  match s with
  | EmptyString => EmptyString
  | String c s' => String (lower_char c) (lower s')
  end.

(** [str.isspace] on the ASCII range: TAB, LF, VT, FF, CR, FS, GS, RS, US
    and the space. *)
Definition isspace (c : ascii) : bool :=
  let n := nat_of_ascii c in
  ((9 <=? n) && (n <=? 13) || (28 <=? n) && (n <=? 32))%nat.

Fixpoint lstrip (s : string) : string :=
  match s with
  | EmptyString => EmptyString
  | String c s' => if isspace c then lstrip s' else s
  end.

Fixpoint rstrip (s : string) : string :=
  match s with
  | EmptyString => EmptyString
  | String c s' =>
      match rstrip s' with
      | EmptyString => if isspace c then EmptyString else String c EmptyString
      | r => String c r
      end
  end.

(** [str.strip()] *)
Definition strip (s : string) : string := rstrip (lstrip s).

Fixpoint startswith (p s : string) : bool :=
  match p, s with
  | EmptyString, _ => true
  | String a p', String b s' => Ascii.eqb a b && startswith p' s'
  | String _ _, EmptyString => false
  end.

(** [sub in s] *)
Fixpoint contains (sub s : string) : bool :=
  startswith sub s ||
  match s with
  | EmptyString => false
  | String _ s' => contains sub s'
  end.

(** Truth value of a string: [bool(s)]. *)
Definition truthy (s : string) : bool :=
  match s with
  | EmptyString => false
  | String _ _ => true
  end.

(** Truth value of an optional string ([None] and [''] are falsy). *)
Definition truthy_opt (o : option string) : bool :=
  match o with
  | None => false
  | Some s => truthy s
  end.

(** [o or ''] *)
Definition or_empty (o : option string) : string :=
  match o with
  | Some (String c s) => String c s
  | _ => EmptyString
  end.

(** Nothing but whitespace: [not s.strip()]. *)
Fixpoint is_blank (s : string) : bool :=
  match s with
  | EmptyString => true
  | String c s' => isspace c && is_blank s'
  end.

End PyStr.

(** ** A model of [re.search(pattern, text, re.IGNORECASE)]

    The interpreted fragment of the pattern syntax: literal characters, [.],
    the escapes [\d \D \s \S \w \W], escaped punctuation, the postfix
    operators [*], [+], [?] and alternation [|].  Every pattern of the built-in
    rule table lies in this fragment.  A pattern that starts with a postfix
    operator is rejected by [re] (nothing to repeat), and the model raises
    [ReError] for it.  On any other pattern outside the fragment (groups,
    brackets, anchors, other letter escapes, stacked postfix operators) the
    model answers [Raise NotInterpreted], whether [re] itself would reject
    the pattern or not; no statement speaks about what the code does with
    such a pattern. *)

Module Re.

Inductive cls : Type := Digit | Space | Word.

Inductive regex : Type :=
| Eps
| Lit (c : ascii)
| Dot
| Cls (positive : bool) (k : cls)
| Cat (r1 r2 : regex)
| Alt (r1 r2 : regex)
| Star (r : regex)
| Void.

Definition is_digit (c : ascii) : bool :=
  (Ascii.leb "0" c && Ascii.leb c "9")%char.

Definition is_alpha (c : ascii) : bool :=
  (Ascii.leb "a" c && Ascii.leb c "z" || Ascii.leb "A" c && Ascii.leb c "Z")%char.

Definition is_word (c : ascii) : bool :=
  (is_digit c || is_alpha c || Ascii.eqb c "_")%char.

Definition in_cls (k : cls) (c : ascii) : bool :=
  match k with
  | Digit => is_digit c
  | Space => PyStr.isspace c
  | Word => is_word c
  end.

(** The atom denoted by [\x]. *)
Definition escape (x : ascii) : option regex :=
  (if Ascii.eqb x "d" then Some (Cls true Digit)
   else if Ascii.eqb x "D" then Some (Cls false Digit)
   else if Ascii.eqb x "s" then Some (Cls true Space)
   else if Ascii.eqb x "S" then Some (Cls false Space)
   else if Ascii.eqb x "w" then Some (Cls true Word)
   else if Ascii.eqb x "W" then Some (Cls false Word)
   else if is_digit x || is_alpha x then None
   else Some (Lit x))%char.

Definition is_unsupported (c : ascii) : bool :=
  existsb (Ascii.eqb c) ["("; ")"; "["; "]"; "{"; "}"; "^"; "$"]%char.

(** Parser state: finished alternatives, the finished part of the current
    concatenation, and the last atom, to which a postfix operator may
    still apply. *)
Record pstate : Type := mkP {
  alts : option regex;
  seqn : regex;
  last : option regex
}.

Definition flush (st : pstate) : regex :=
  match last st with
  | Some a => Cat (seqn st) a
  | None => seqn st
  end.

Definition push (st : pstate) (a : regex) : pstate :=
  mkP (alts st) (flush st) (Some a).

Definition quantify (st : pstate) (q : regex -> regex) : option pstate :=
  match last st with
  | Some a => Some (mkP (alts st) (Cat (seqn st) (q a)) None)
  | None => None
  end.

Definition close_alt (st : pstate) : regex :=
  match alts st with
  | Some a => Alt a (flush st)
  | None => flush st
  end.

Fixpoint parse_from (s : string) (st : pstate) : option regex :=
  match s with
  | EmptyString => Some (close_alt st)
  | String c s' =>
      (if Ascii.eqb c "\" then
         match s' with
         | EmptyString => None
         | String x s'' =>
             match escape x with
             | Some a => parse_from s'' (push st a)
             | None => None
             end
         end
       else if Ascii.eqb c "." then parse_from s' (push st Dot)
       else if Ascii.eqb c "*" then
         match quantify st Star with
         | Some st' => parse_from s' st'
         | None => None
         end
       else if Ascii.eqb c "+" then
         match quantify st (fun a => Cat a (Star a)) with
         | Some st' => parse_from s' st'
         | None => None
         end
       else if Ascii.eqb c "?" then
         match quantify st (fun a => Alt Eps a) with
         | Some st' => parse_from s' st'
         | None => None
         end
       else if Ascii.eqb c "|" then
         parse_from s' (mkP (Some (close_alt st)) Eps None)
       else if is_unsupported c then None
       else parse_from s' (push st (Lit c)))%char
  end.

Definition parse (pattern : string) : option regex :=
  parse_from pattern (mkP None Eps None).

(** Does the atom accept character [c] under [re.IGNORECASE]? *)
Definition lit_matches (a c : ascii) : bool :=
  Ascii.eqb (PyStr.lower_char a) (PyStr.lower_char c).

Definition newline : ascii := ascii_of_nat 10.

Fixpoint nullable (r : regex) : bool :=
  match r with
  | Eps => true
  | Lit _ | Dot | Cls _ _ | Void => false
  | Cat r1 r2 => nullable r1 && nullable r2
  | Alt r1 r2 => nullable r1 || nullable r2
  | Star _ => true
  end.

(** Brzozowski derivative. *)
Fixpoint deriv (c : ascii) (r : regex) : regex :=
  match r with
  | Eps | Void => Void
  | Lit a => if lit_matches a c then Eps else Void
  | Dot => if Ascii.eqb c newline then Void else Eps
  | Cls pos k => if Bool.eqb (in_cls k c) pos then Eps else Void
  | Cat r1 r2 =>
      if nullable r1
      then Alt (Cat (deriv c r1) r2) (deriv c r2)
      else Cat (deriv c r1) r2
  | Alt r1 r2 => Alt (deriv c r1) (deriv c r2)
  | Star r1 => Cat (deriv c r1) (Star r1)
  end.

(** Some prefix of [s] is matched by [r]: [re.match]. *)
Fixpoint match_here (r : regex) (s : string) : bool :=
  nullable r ||
  match s with
  | EmptyString => false
  | String c s' => match_here (deriv c r) s'
  end.

(** Some substring of [s] is matched by [r]. *)
Fixpoint search_regex (r : regex) (s : string) : bool :=
  match_here r s ||
  match s with
  | EmptyString => false
  | String _ s' => search_regex r s'
  end.

(** A pattern that starts with a postfix operator. *)
Definition nothing_to_repeat (pattern : string) : bool :=
  match pattern with
  | String c _ => (Ascii.eqb c "*" || Ascii.eqb c "+" || Ascii.eqb c "?")%char
  | EmptyString => false
  end.

(** [bool(re.search(pattern, text, re.IGNORECASE))] *)
Definition search (pattern text : string) : result bool :=
  match parse pattern with
  | Some r => Ok (search_regex r text)
  | None =>
      if nothing_to_repeat pattern then Raise ReError
      else Raise NotInterpreted
  end.

End Re.

(** ** The ledger: [app/models.py]

    The columns [created_at] of accounts and transactions, which no
    modelled operation reads, and the tables [goals] and
    [recurring_transactions] are left out. *)

(** [datetime.datetime]: compared field by field, most significant first. *)
Record datetime : Type := mkDatetime {
  year : Z; month : Z; day : Z;
  hour : Z; minute : Z; second : Z; microsecond : Z
}.

Definition MINYEAR : Z := 1.
Definition MAXYEAR : Z := 9999.

Fixpoint lex_compare (xs ys : list Z) : comparison :=
  match xs, ys with
  | x :: xs', y :: ys' =>
      match Z.compare x y with
      | Eq => lex_compare xs' ys'
      | c => c
      end
  | [], [] => Eq
  | [], _ :: _ => Lt
  | _ :: _, [] => Gt
  end.

Definition dt_fields (d : datetime) : list Z :=
  [year d; month d; day d; hour d; minute d; second d; microsecond d].

Definition dt_compare (a b : datetime) : comparison :=
  lex_compare (dt_fields a) (dt_fields b).

(** [a < b] and [a >= b] on datetimes. *)
Definition dt_ltb (a b : datetime) : bool :=
  match dt_compare a b with Lt => true | _ => false end.

Definition dt_geb (a b : datetime) : bool := negb (dt_ltb a b).

Inductive AccountType : Type := BANK | E_WALLET | CASH | CREDIT_CARD.

Inductive TransactionType : Type := INCOME | EXPENSE | TRANSFER.

Inductive TransactionSource : Type := MANUAL | CSV_IMPORT | TELEGRAM_BOT.

(** [TransactionType.value] *)
Definition type_value (t : TransactionType) : string :=
  match t with
  | INCOME => "income"
  | EXPENSE => "expense"
  | TRANSFER => "transfer"
  end.

(** [TransactionType.name]: what a column declared [Enum(TransactionType)]
    stores for a member, and what it reads back into the member. *)
Definition type_name (t : TransactionType) : string :=
  match t with
  | INCOME => "INCOME"
  | EXPENSE => "EXPENSE"
  | TRANSFER => "TRANSFER"
  end.

Module Account.
Record t : Type := mk {
  id : Z;
  name : string;
  account_type : AccountType;
  currency : string;
  balance : Q;
  is_active : bool
}.
End Account.

Module Category.
Record t : Type := mk {
  id : Z;
  name : string;
  parent_id : option Z;
  icon : option string;
  color : option string;
  is_active : bool
}.
End Category.

Module Transaction.
Record t : Type := mk {
  id : Z;
  timestamp : datetime;
  account_id : Z;
  amount : Q;
  transaction_type : TransactionType;
  category_id : option Z;
  merchant : option string;
  description : option string;
  source : TransactionSource;
  reference_id : option string;
  is_synced_to_sheets : bool
}.
End Transaction.

Module Budget.
Record t : Type := mk {
  id : Z;
  category_id : Z;
  month : string;
  amount_limit : Q;
  amount_spent : Q;
  is_active : bool;
  alert_threshold : Q;
  created_at : datetime
}.
End Budget.

(** The database as seen through one SQLAlchemy [Session]. *)
Record Session : Type := mkSession {
  accounts : list Account.t;
  categories : list Category.t;
  transactions : list Transaction.t;
  budgets : list Budget.t
}.

(** Primary key handed out on insert: one more than the largest key of the
    table, [1] for an empty table. *)
Definition fresh_id (ids : list Z) : Z :=
  (fold_right Z.max 0 ids + 1)%Z.

(** ** [app/services/categorizer.py] *)

(** One entry of the rule table.  A missing ["keywords"] or ["patterns"] key
    reads as the empty list ([rule.get(k, [])]); a missing ["category_name"]
    reads as [None]. *)
Record Rule : Type := mkRule {
  keywords : list string;
  patterns : list string;
  category_name : option string;
  rule_transaction_type : option string
}.

(** [self.rules]: rule name to rule, in insertion order. *)
Definition RuleTable : Type := list (string * Rule).

Definition any_keyword (text : string) (kws : list string) : bool :=
  existsb (fun keyword => PyStr.contains (PyStr.lower keyword) text) kws.

Fixpoint any_pattern (text : string) (ps : list string) : result bool :=
  match ps with
  | [] => Ok false
  | pattern :: ps' =>
      m <- Re.search (PyStr.lower pattern) text ;;
      if m then Ok true else any_pattern text ps'
  end.

Definition _matches_rule (text : string) (rule : Rule) : result bool :=
  if any_keyword text (keywords rule) then Ok true
  else any_pattern text (patterns rule).

Definition insert_category (s : Session) (c : Category.t) : Session :=
  mkSession (accounts s) (categories s ++ [c]) (transactions s) (budgets s).

Definition category_by_name (category_name : string) (s : Session)
  : option Category.t :=
  find (fun c => String.eqb (Category.name c) category_name) (categories s).

(** The database calls are taken not to raise, so the [except] branch is
    never entered; [db = None] is the missing session of the first guard. *)
Definition _get_or_create_category (category_name : string) (db : option Session)
  : option Category.t * option Session :=
  match db with
  | None => (None, None)
  | Some s =>
      match category_by_name category_name s with
      | Some category => (Some category, Some s)
      | None =>
          let category :=
            Category.mk (fresh_id (map Category.id (categories s)))
                        category_name None None None true in
          (Some category, Some (insert_category s category))
      end
  end.

(** The [for rule_key, rule in self.rules.items()] loop. *)
Fixpoint categorize_loop (text : string) (rules : RuleTable) (db : option Session)
  : result (option Z * option Session) :=
  match rules with
  | [] => Ok (None, db)
  | (rule_key, rule) :: rest =>
      m <- _matches_rule text rule ;;
      if m then
        if PyStr.truthy_opt (category_name rule) then
          let '(category, db') :=
            _get_or_create_category (PyStr.or_empty (category_name rule)) db in
          match category with
          | Some c => Ok (Some (Category.id c), db')
          | None => categorize_loop text rest db'
          end
        else categorize_loop text rest db
      else categorize_loop text rest db
  end.

Definition text_to_analyze (merchant description : option string) : string :=
  PyStr.strip
    (PyStr.lower (PyStr.or_empty merchant ++ " " ++ PyStr.or_empty description)).

Definition categorize_transaction (rules : RuleTable)
    (merchant description : option string) (amount : Q) (db : option Session)
  : result (option Z * option Session) :=
  if negb (PyStr.truthy_opt merchant) && negb (PyStr.truthy_opt description)
  then Ok (None, db)
  else if negb (PyStr.truthy (text_to_analyze merchant description))
  then Ok (None, db)
  else categorize_loop (text_to_analyze merchant description) rules db.

(** The built-in rule table of [_load_rules], in source order. *)
Definition default_rules : RuleTable := [
  ("food_and_dining",
   mkRule ["grab"; "gojek"; "mcdonald"; "kfc"; "starbucks"; "restoran";
           "warung"; "bakso"; "nasi"; "ayam"]
          ["grab.*food"; "go.*food"; ".*restaurant.*"; ".*cafe.*"]
          (Some "Food & Dining") None);
  ("transportation",
   mkRule ["grab.*car"; "grab.*bike"; "gojek.*ride"; "uber"; "taxi"; "ojek";
           "angkot"; "transjakarta"; "mrt"; "krl"]
          ["grab.*ride"; "go.*ride"; ".*transport.*"; ".*taxi.*"]
          (Some "Transportation") None);
  ("shopping",
   mkRule ["tokopedia"; "shopee"; "lazada"; "blibli"; "amazon"; "mall";
           "supermarket"; "indomaret"; "alfamart"]
          [".*shop.*"; ".*market.*"; ".*store.*"]
          (Some "Shopping") None);
  ("utilities",
   mkRule ["pln"; "listrik"; "air"; "pdam"; "internet"; "wifi"; "telkom";
           "indihome"; "gas"; "pgas"]
          [".*electric.*"; ".*water.*"; ".*internet.*"; ".*gas.*"]
          (Some "Utilities") None);
  ("healthcare",
   mkRule ["hospital"; "rumah sakit"; "dokter"; "apotik"; "farmasi"; "obat";
           "medical"; "klinik"]
          [".*hospital.*"; ".*medical.*"; ".*pharmacy.*"]
          (Some "Healthcare") None);
  ("entertainment",
   mkRule ["netflix"; "spotify"; "cinema"; "bioskop"; "game"; "steam";
           "playstation"; "xbox"]
          [".*entertainment.*"; ".*movie.*"; ".*music.*"; ".*game.*"]
          (Some "Entertainment") None);
  ("education",
   mkRule ["sekolah"; "universitas"; "kursus"; "course"; "training";
           "seminar"; "buku"; "book"]
          [".*school.*"; ".*university.*"; ".*course.*"; ".*training.*"]
          (Some "Education") None);
  ("income_salary",
   mkRule ["gaji"; "salary"; "bonus"; "tunjangan"; "allowance"; "payroll"]
          [".*salary.*"; ".*payroll.*"; ".*income.*"]
          (Some "Salary") (Some "income"));
  ("income_investment",
   mkRule ["dividend"; "dividen"; "bunga"; "interest"; "profit";
           "keuntungan"; "return"]
          [".*dividend.*"; ".*interest.*"; ".*return.*"]
          (Some "Investment Return") (Some "income"))
].

Definition empty_session : Session := mkSession [] [] [] [].

(** ** The rule store: [self.rules] and its backing file *)

Module Dict.
Section Dict.
Variable V : Type.

(** [key in d] *)
Definition mem (key : string) (d : list (string * V)) : bool :=
  existsb (fun kv => String.eqb (fst kv) key) d.

Definition get (key : string) (d : list (string * V)) : option V :=
  option_map snd (find (fun kv => String.eqb (fst kv) key) d).

(** [d[key] = v]: an existing key keeps its position, a new key goes last. *)
Fixpoint set (key : string) (v : V) (d : list (string * V))
  : list (string * V) :=
  match d with
  | [] => [(key, v)]
  | (k, w) :: d' =>
      if String.eqb k key then (k, v) :: d' else (k, w) :: set key v d'
  end.

(** [del d[key]] for a key that is present. *)
Fixpoint del (key : string) (d : list (string * V)) : list (string * V) :=
  match d with
  | [] => []
  | (k, w) :: d' =>
      if String.eqb k key then d' else (k, w) :: del key d'
  end.

Fixpoint insert_sorted (kv : string * V) (d : list (string * V))
  : list (string * V) :=
  match d with
  | [] => [kv]
  | kw :: d' =>
      if String.leb (fst kv) (fst kw) then kv :: kw :: d'
      else kw :: insert_sorted kv d'
  end.

(** [sorted(d.items())] *)
Definition sorted_items (d : list (string * V)) : list (string * V) :=
  fold_right insert_sorted [] d.

End Dict.
End Dict.

(** What [config/categorization_rules.yaml] holds: no file, a file that
    [yaml.safe_load] cannot read, or a mapping from rule names to rule
    entries ([Doc []] is the empty document).  A file with a document of
    another shape, a scalar or a list say, is outside this type:
    [_load_rules] hands such a document on as the rule table, as it is. *)
Inductive FileState : Type :=
| Missing
| Malformed
| Doc (items : RuleTable).

(** [yaml.dump(rules, f, default_flow_style=False, allow_unicode=True)]:
    [sort_keys] is left at its default, so the mapping is written in key
    order. *)
Definition yaml_dump (rules : RuleTable) : FileState :=
  Doc (Dict.sorted_items rules).

(** The state an [AutoCategorizer] operates on: its rule table and the file
    behind it. *)
Record AutoCategorizer : Type := mkCategorizer {
  rules : RuleTable;
  rules_file : FileState
}.

(** What becomes of one [with open(self.rules_file, 'w') as f:
    yaml.dump(self.rules, f, ...)]: the dump is written; or [open] raises
    and the file is not touched; or something raises after [open] has
    emptied the file, which is then left with whatever part of the dump had
    reached it. *)
Inductive SaveOutcome : Type :=
| Saved
| NotOpened
| Interrupted (partial : FileState).

(** The guarded save of the three mutators; an exception is printed and
    swallowed. *)
Definition save_rules (outcome : SaveOutcome) (rs : RuleTable)
    (file : FileState) : FileState :=
  match outcome with
  | Saved => yaml_dump rs
  | NotOpened => file
  | Interrupted partial => partial
  end.

(** [__init__] / [_load_rules].  Neither [os.makedirs] nor the write of the
    default table is guarded; [write_ok] says whether both go through. *)
Definition _load_rules (file : FileState) (write_ok : bool)
  : result AutoCategorizer :=
  match file with
  | Doc (r :: rs) => Ok (mkCategorizer (r :: rs) file)
  | _ =>
      if write_ok then Ok (mkCategorizer default_rules (yaml_dump default_rules))
      else Raise OSError
  end.

Definition add_custom_rule (self : AutoCategorizer) (outcome : SaveOutcome)
    (rule_name : string) (kws pats : list string) (cat_name : string)
  : AutoCategorizer :=
  let rules' :=
    Dict.set rule_name (mkRule kws pats (Some cat_name) None) (rules self) in
  mkCategorizer rules' (save_rules outcome rules' (rules_file self)).

Definition get_all_rules (self : AutoCategorizer) : RuleTable := rules self.

(** The keys an [updated_rule] dictionary sets; [None] is a key it does not
    contain.  Keys other than these four are not represented. *)
Record RuleUpdate : Type := mkRuleUpdate {
  set_keywords : option (list string);
  set_patterns : option (list string);
  set_category_name : option string;
  set_transaction_type : option string
}.

(** [rule.update(updated_rule)] *)
Definition merge_rule (rule : Rule) (u : RuleUpdate) : Rule :=
  mkRule
    (match set_keywords u with Some v => v | None => keywords rule end)
    (match set_patterns u with Some v => v | None => patterns rule end)
    (match set_category_name u with
     | Some v => Some v
     | None => category_name rule
     end)
    (match set_transaction_type u with
     | Some v => Some v
     | None => rule_transaction_type rule
     end).

Definition update_rule (self : AutoCategorizer) (outcome : SaveOutcome)
    (rule_name : string) (updated_rule : RuleUpdate) : AutoCategorizer :=
  match Dict.get rule_name (rules self) with
  | Some rule =>
      let rules' :=
        Dict.set rule_name (merge_rule rule updated_rule) (rules self) in
      mkCategorizer rules' (save_rules outcome rules' (rules_file self))
  | None => self
  end.

Definition delete_rule (self : AutoCategorizer) (outcome : SaveOutcome)
    (rule_name : string) : AutoCategorizer :=
  if Dict.mem rule_name (rules self) then
    let rules' := Dict.del rule_name (rules self) in
    mkCategorizer rules' (save_rules outcome rules' (rules_file self))
  else self.

(** The file holds exactly the rule set of the table. *)
Definition in_sync (self : AutoCategorizer) : Prop :=
  rules_file self = yaml_dump (rules self).

(** ** Python numbers *)

(** [a > b], [a >= b] and [a != b] on amounts. *)
Definition Qgtb (a b : Q) : bool := negb (Qle_bool a b).
Definition Qgeb (a b : Q) : bool := Qle_bool b a.
Definition Qneb (a b : Q) : bool := negb (Qeq_bool a b).

(** [max(a, b)] *)
Definition py_max (a b : Q) : Q := if Qgtb b a then b else a.

(** [a / b] *)
Definition py_div (a b : Q) : result Q :=
  if Qeq_bool b 0 then Raise ZeroDivisionError else Ok (a / b)%Q.

(** Nearest integer, ties to the even neighbour. *)
Definition round_half_even (x : Q) : Z :=
  let f := Qfloor x in
  let r := (x - inject_Z f)%Q in
  if Qgtb (1 # 2) r then f
  else if Qgtb r (1 # 2) then (f + 1)%Z
  else if Z.even f then f else (f + 1)%Z.

(** [round(x, ndigits)], taken on the exact rational; Python rounds the
    binary value, which can fall on the other side of a tie. *)
Definition py_round (x : Q) (ndigits : nat) : Q :=
  let scale := inject_Z (10 ^ Z.of_nat ndigits) in
  (inject_Z (round_half_even (x * scale)) / scale)%Q.

(** [int(s)] for a non-empty string of ASCII digits.  The other spellings
    [int] accepts (surrounding blanks, a sign, underscores) are reported as
    [ValueError]; none of them occurs in a [YYYY-MM] string. *)
Fixpoint digits_value (s : string) (acc : Z) : option Z :=
  match s with
  | EmptyString => Some acc
  | String c s' =>
      if Re.is_digit c
      then digits_value s' (10 * acc + (Z.of_nat (nat_of_ascii c) - 48))%Z
      else None
  end.

Definition py_int (s : string) : result Z :=
  match s with
  | EmptyString => Raise ValueError
  | String _ _ =>
      match digits_value s 0 with
      | Some n => Ok n
      | None => Raise ValueError
      end
  end.

(** [s.split(sep)] for a one-character separator. *)
Fixpoint split (sep : ascii) (s : string) : list string :=
  match s with
  | EmptyString => [EmptyString]
  | String c s' =>
      if Ascii.eqb c sep then EmptyString :: split sep s'
      else
        match split sep s' with
        | part :: parts => String c part :: parts
        | [] => [String c EmptyString]
        end
  end.

(** [datetime(year, month, 1)] *)
Definition first_of_month (y m : Z) : result datetime :=
  if ((MINYEAR <=? y) && (y <=? MAXYEAR) && (1 <=? m) && (m <=? 12))%Z
  then Ok (mkDatetime y m 1 0 0 0 0)
  else Raise ValueError.

(** ** [app/api/budgets.py] *)

(** [year, month_num = map(int, month.split('-'))] *)
Definition parse_month (month : string) : result (Z * Z) :=
  match split "-" month with
  | [a; b] =>
      y <- py_int a ;;
      m <- py_int b ;;
      Ok (y, m)
  | _ => Raise ValueError
  end.

(** The date range of [_calculate_current_spending]. *)
Definition month_range (month : string) : result (datetime * datetime) :=
  ym <- parse_month month ;;
  let '(y, month_num) := ym in
  start_date <- first_of_month y month_num ;;
  end_date <- (if (month_num =? 12)%Z then first_of_month (y + 1) 1
               else first_of_month y (month_num + 1)) ;;
  Ok (start_date, end_date).

Definition opt_Z_eqb (o : option Z) (z : Z) : bool :=
  match o with
  | Some x => (x =? z)%Z
  | None => false
  end.

Definition is_expense (t : TransactionType) : bool :=
  String.eqb (type_value t) "expense".

Definition is_income (t : TransactionType) : bool :=
  String.eqb (type_value t) "income".

(** [Transaction.transaction_type == literal] inside a query.  A string
    that names no member of the enumeration is handed to the database as it
    is, and the database compares it with what the row stores, which is the
    name of the member.  This is not the test on [.value] that the handlers
    make on a loaded row. *)
Definition type_column_equals (literal : string) (t : TransactionType)
  : bool :=
  String.eqb (type_name t) literal.

(** The [filter(...)] of the spending query. *)
Definition spending_row (category_id : Z) (start_date end_date : datetime)
    (tx : Transaction.t) : bool :=
  opt_Z_eqb (Transaction.category_id tx) category_id
  && type_column_equals "expense" (Transaction.transaction_type tx)
  && dt_geb (Transaction.timestamp tx) start_date
  && dt_ltb (Transaction.timestamp tx) end_date.

(** [func.sum(...)...scalar()]: [None] over no rows. *)
Definition sql_sum (xs : list Q) : option Q :=
  match xs with
  | [] => None
  | x :: xs' => Some (fold_left Qplus xs' x)
  end.

(** [spending or 0.0] *)
Definition or_zero (spending : option Q) : Q :=
  match spending with
  | Some q => if Qeq_bool q 0 then 0%Q else q
  | None => 0%Q
  end.

Definition _calculate_current_spending (db : Session) (category_id : Z)
    (month : string) : Q :=
  match month_range month with
  | Ok (start_date, end_date) =>
      or_zero
        (sql_sum
           (map Transaction.amount
                (filter (spending_row category_id start_date end_date)
                        (transactions db))))
  | Raise _ => 0%Q
  end.

Inductive BudgetStatus : Type := on_track | near_limit | over_budget.

(** [percentage_used] of [get_current_budget_status]. *)
Definition percentage_used (current_spending amount_limit : Q) : result Q :=
  if Qgtb amount_limit 0 then
    q <- py_div current_spending amount_limit ;;
    Ok (q * 100)%Q
  else Ok 0%Q.

Definition status_of (percentage alert_threshold : Q) : BudgetStatus :=
  if Qgtb percentage 100 then over_budget
  else if Qgeb percentage (alert_threshold * 100)%Q then near_limit
  else on_track.

Record BudgetInfo : Type := mkBudgetInfo {
  info_id : Z;
  info_category : string;
  info_budget_limit : Q;
  info_amount_spent : Q;
  info_remaining : Q;
  info_percentage_used : Q;   (* rounded to one digit *)
  info_status : BudgetStatus
}.

Definition category_label (db : Session) (category_id : Z) : string :=
  match find (fun c => (Category.id c =? category_id)%Z) (categories db) with
  | Some c => Category.name c
  | None => "Unknown"
  end.

(** One turn of the loop of [get_current_budget_status]: percentage,
    remaining amount and status of one budget, and its exact percentage. *)
Definition evaluate_budget (db : Session) (budget : Budget.t)
    (current_spending : Q) : result (BudgetInfo * Q) :=
  pct <- percentage_used current_spending (Budget.amount_limit budget) ;;
  let remaining := (Budget.amount_limit budget - current_spending)%Q in
  let status := status_of pct (Budget.alert_threshold budget) in
  Ok (mkBudgetInfo (Budget.id budget)
                   (category_label db (Budget.category_id budget))
                   (Budget.amount_limit budget)
                   current_spending remaining (py_round pct 1) status,
      pct).

Definition set_amount_spent (b : Budget.t) (v : Q) : Budget.t :=
  Budget.mk (Budget.id b) (Budget.category_id b) (Budget.month b)
            (Budget.amount_limit b) v (Budget.is_active b)
            (Budget.alert_threshold b) (Budget.created_at b).

Record Alert : Type := mkAlert {
  alert_category : string;
  alert_message : string;
  alert_percentage : Q;
  alert_amount_over : Q
}.

Record StatusReport : Type := mkStatusReport {
  report_month : string;
  total_budget : Q;
  total_spent : Q;
  report_budgets : list BudgetInfo;
  report_alerts : list Alert
}.

(** [status.replace('_', ' ')] *)
Definition status_words (s : BudgetStatus) : string :=
  match s with
  | on_track => "on track"
  | near_limit => "near limit"
  | over_budget => "over budget"
  end.

Definition alert_of (info : BudgetInfo) (pct : Q) : list Alert :=
  match info_status info with
  | on_track => []
  | st =>
      [mkAlert (info_category info)
               ("Budget " ++ status_words st ++ " for " ++ info_category info)
               (py_round pct 1)
               (py_max 0 (info_amount_spent info - info_budget_limit info))]
  end.

Fixpoint status_loop (db : Session) (bs : list Budget.t) (acc : StatusReport)
  : result StatusReport :=
  match bs with
  | [] => Ok acc
  | budget :: rest =>
      let current_spending :=
        _calculate_current_spending db (Budget.category_id budget)
                                    (Budget.month budget) in
      e <- evaluate_budget db budget current_spending ;;
      let '(info, pct) := e in
      status_loop db rest
        (mkStatusReport (report_month acc)
           (total_budget acc + Budget.amount_limit budget)%Q
           (total_spent acc + current_spending)%Q
           (report_budgets acc ++ [info])
           (report_alerts acc ++ alert_of info pct))
  end.

(** [total_remaining], [overall_percentage] and [budget_count] of the
    returned dictionary. *)
Definition total_remaining (r : StatusReport) : Q :=
  (total_budget r - total_spent r)%Q.

Definition overall_percentage (r : StatusReport) : result Q :=
  if Qgtb (total_budget r) 0 then
    q <- py_div (total_spent r) (total_budget r) ;;
    Ok (py_round (q * 100) 1)
  else Ok 0%Q.


(** *** The budget read endpoints *)

Definition budget_filter (month : option string) (category_id : option Z)
    (active_only : bool) (b : Budget.t) : bool :=
  (if PyStr.truthy_opt month
   then String.eqb (Budget.month b) (PyStr.or_empty month) else true)
  && match category_id with
     | Some c => if (c =? 0)%Z then true else (Budget.category_id b =? c)%Z
     | None => true
     end
  && (if active_only then Budget.is_active b else true).

(** [order_by(Budget.month.desc(), Budget.created_at.desc())] *)
Definition budget_before (a b : Budget.t) : bool :=
  match String.compare (Budget.month a) (Budget.month b) with
  | Gt => true
  | Lt => false
  | Eq => dt_geb (Budget.created_at a) (Budget.created_at b)
  end.

Fixpoint insert_budget (b : Budget.t) (bs : list Budget.t) : list Budget.t :=
  match bs with
  | [] => [b]
  | c :: bs' =>
      if budget_before b c then b :: c :: bs' else c :: insert_budget b bs'
  end.

Definition order_budgets (bs : list Budget.t) : list Budget.t :=
  fold_right insert_budget [] bs.

(** [if budget.amount_spent != current_spending:
       budget.amount_spent = current_spending] *)
Definition refresh_budget (db : Session) (budget : Budget.t) : Budget.t :=
  let current_spending :=
    _calculate_current_spending db (Budget.category_id budget)
                                (Budget.month budget) in
  if Qneb (Budget.amount_spent budget) current_spending
  then set_amount_spent budget current_spending
  else budget.

(** [db.commit()]: the rows of the refreshed objects are written back. *)
Definition commit_budgets (db : Session) (bs : list Budget.t) : Session :=
  mkSession (accounts db) (categories db) (transactions db)
    (map (fun row =>
            match find (fun b => (Budget.id b =? Budget.id row)%Z) bs with
            | Some b => b
            | None => row
            end) (budgets db)).

(** [get_current_budget_status]; [current_month] is
    [datetime.now().strftime("%Y-%m")].  Every budget of the month gets its
    [amount_spent] overwritten; the commit follows the loop. *)
Definition get_current_budget_status (db : Session) (current_month : string)
  : result (StatusReport * Session) :=
  let found :=
    filter (fun b => String.eqb (Budget.month b) current_month
                     && Budget.is_active b) (budgets db) in
  report <- status_loop db found (mkStatusReport current_month 0 0 [] []) ;;
  Ok (report,
      commit_budgets db
        (map (fun b =>
                set_amount_spent b
                  (_calculate_current_spending db (Budget.category_id b)
                                               (Budget.month b)))
             found)).

Definition get_budgets (db : Session) (month : option string)
    (category_id : option Z) (active_only : bool)
  : list Budget.t * Session :=
  let found :=
    order_budgets (filter (budget_filter month category_id active_only)
                          (budgets db)) in
  let refreshed := map (refresh_budget db) found in
  (refreshed, commit_budgets db refreshed).

Definition get_budget (db : Session) (budget_id : Z)
  : result (Budget.t * Session) :=
  match find (fun b => (Budget.id b =? budget_id)%Z) (budgets db) with
  | None => Raise (HTTPException 404)
  | Some budget =>
      let b' := refresh_budget db budget in
      Ok (b', commit_budgets db [b'])
  end.

(** ** [app/schemas.py]: the [Budget] response model *)

Module schemas.

Record Category : Type := mkCategory {
  cat_name : string;
  cat_parent_id : option Z;
  cat_icon : option string;
  cat_color : option string;
  cat_id : Z;
  cat_is_active : bool
}.

Record Budget : Type := mkBudget {
  category_id : Z;
  month : string;
  amount_limit : Q;
  alert_threshold : Q;
  id : Z;
  amount_spent : Q;
  is_active : bool;
  created_at : datetime;
  category : option Category
}.

Definition is_hex (c : ascii) : bool :=
  (Re.is_digit c || Ascii.leb "a" c && Ascii.leb c "f"
   || Ascii.leb "A" c && Ascii.leb c "F")%char.

Fixpoint all_chars (p : ascii -> bool) (s : string) : bool :=
  match s with
  | EmptyString => true
  | String c s' => p c && all_chars p s'
  end.

(** [pattern="^#[0-9A-Fa-f]{6}$"] *)
Definition is_color (s : string) : bool :=
  match s with
  | String "#" rest => (String.length rest =? 6)%nat && all_chars is_hex rest
  | _ => false
  end.

(** The pattern [^\d{4}-\d{2}$] of [BudgetBase.month]. *)
Definition is_year_month (s : string) : bool :=
  match s with
  | String a (String b (String c (String d (String "-"
      (String e (String f EmptyString)))))) =>
      forallb Re.is_digit [a; b; c; d; e; f]
  | _ => false
  end.

Definition opt_ok (p : string -> bool) (o : option string) : bool :=
  match o with
  | Some s => p s
  | None => true
  end.

Definition validate_Category (c : Category.t) : result Category :=
  if opt_ok (fun s => (String.length s <=? 50)%nat) (Category.icon c)
     && opt_ok (fun s => (String.length s <=? 7)%nat && is_color s)
               (Category.color c)
  then Ok (mkCategory (Category.name c) (Category.parent_id c)
                      (Category.icon c) (Category.color c)
                      (Category.id c) (Category.is_active c))
  else Raise ValidationError.

(** The validator of [amount_spent].  [values_amount_limit] is
    [values['amount_limit']] when that field has passed its own check,
    [None] when it is not in [values]. *)
Definition calculate_spent_percentage (v : Q) (values_amount_limit : option Q)
  : result Q :=
  match values_amount_limit with
  | Some limit =>
      q <- py_div v limit ;;
      Ok (py_round (q * 100) 2)
  | None => Ok 0%Q
  end.

(** Validation of one ORM budget against the response model; [cat] is the
    row behind [budget.category]. *)
Definition validate_Budget (b : Budget.t) (cat : option Category.t)
  : result Budget :=
  let month_ok := is_year_month (Budget.month b) in
  let limit_ok := Qgtb (Budget.amount_limit b) 0 in
  let threshold_ok :=
    Qgeb (Budget.alert_threshold b) (1 # 10)
    && Qle_bool (Budget.alert_threshold b) 1 in
  spent <- calculate_spent_percentage (Budget.amount_spent b)
             (if limit_ok then Some (Budget.amount_limit b) else None) ;;
  category <- match cat with
              | Some c => c' <- validate_Category c ;; Ok (Some c')
              | None => Ok None
              end ;;
  if month_ok && limit_ok && threshold_ok
  then Ok (mkBudget (Budget.category_id b) (Budget.month b)
                    (Budget.amount_limit b) (Budget.alert_threshold b)
                    (Budget.id b) spent (Budget.is_active b)
                    (Budget.created_at b) category)
  else Raise ValidationError.

End schemas.

Definition category_of (db : Session) (b : Budget.t) : option Category.t :=
  find (fun c => (Category.id c =? Budget.category_id b)%Z) (categories db).


Fixpoint validate_all (db : Session) (bs : list Budget.t)
  : result (list schemas.Budget) :=
  match bs with
  | [] => Ok []
  | b :: bs' =>
      o <- schemas.validate_Budget b (category_of db b) ;;
      os <- validate_all db bs' ;;
      Ok (o :: os)
  end.

(** What a client of [GET /api/budgets/] receives. *)
Definition get_budgets_response (db : Session) (month : option string)
    (category_id : option Z) (active_only : bool)
  : result (list schemas.Budget) :=
  let r := get_budgets db month category_id active_only in
  validate_all (snd r) (fst r).

(** ** [app/api/transactions.py]: balance effects *)

(** The fields a [TransactionUpdate] request sets ([exclude_unset=True]);
    [None] is a field the request does not mention.  Explicit nulls are not
    represented. *)
Record TransactionUpdate : Type := mkTransactionUpdate {
  upd_timestamp : option datetime;
  upd_amount : option Q;
  upd_transaction_type : option TransactionType;
  upd_category_id : option Z;
  upd_merchant : option string;
  upd_description : option string
}.

Definition or_else {A : Type} (o : option A) (d : A) : A :=
  match o with
  | Some a => a
  | None => d
  end.

Definition or_keep {A : Type} (o : option A) (d : option A) : option A :=
  match o with
  | Some a => Some a
  | None => d
  end.

(** [for field, value in update_data.items(): setattr(db_transaction, ...)],
    followed by [is_synced_to_sheets = False].  The row is the object the
    handler goes on to read.  When the request sets the type, what the
    commit stores for it is the value of the request's own enumeration,
    which the column cannot read back into a member; the row of the model
    keeps the member. *)
Definition apply_update (tx : Transaction.t) (u : TransactionUpdate)
  : Transaction.t :=
  Transaction.mk (Transaction.id tx)
    (or_else (upd_timestamp u) (Transaction.timestamp tx))
    (Transaction.account_id tx)
    (or_else (upd_amount u) (Transaction.amount tx))
    (or_else (upd_transaction_type u) (Transaction.transaction_type tx))
    (or_keep (upd_category_id u) (Transaction.category_id tx))
    (or_keep (upd_merchant u) (Transaction.merchant tx))
    (or_keep (upd_description u) (Transaction.description tx))
    (Transaction.source tx)
    (Transaction.reference_id tx)
    false.

Definition set_balance (a : Account.t) (v : Q) : Account.t :=
  Account.mk (Account.id a) (Account.name a) (Account.account_type a)
             (Account.currency a) v (Account.is_active a).

(** [account.balance = f(account.balance)]; the account may be [None]. *)
Definition on_balance (account : option Account.t) (f : Q -> Q)
  : result (option Account.t) :=
  match account with
  | Some a => Ok (Some (set_balance a (f (Account.balance a))))
  | None => Raise AttributeError
  end.

(** "Reverse old transaction effect" *)
Definition reverse_effect (account : option Account.t)
    (old_type : TransactionType) (old_amount : Q) : result (option Account.t) :=
  if is_income old_type then on_balance account (fun b => b - old_amount)%Q
  else if is_expense old_type then on_balance account (fun b => b + old_amount)%Q
  else Ok account.

(** "Apply new transaction effect" *)
Definition apply_effect (account : option Account.t)
    (new_type : TransactionType) (new_amount : Q) : result (option Account.t) :=
  if is_income new_type then on_balance account (fun b => b + new_amount)%Q
  else if is_expense new_type then on_balance account (fun b => b - new_amount)%Q
  else Ok account.

Definition find_transaction (db : Session) (transaction_id : Z)
  : option Transaction.t :=
  find (fun t => (Transaction.id t =? transaction_id)%Z) (transactions db).

Definition find_account (db : Session) (account_id : Z) : option Account.t :=
  find (fun a => (Account.id a =? account_id)%Z) (accounts db).

(** Write one changed row back: the first row that satisfies [p]. *)
Fixpoint replace_first {A : Type} (p : A -> bool) (x : A) (l : list A)
  : list A :=
  match l with
  | [] => []
  | y :: l' => if p y then x :: l' else y :: replace_first p x l'
  end.

Fixpoint remove_first {A : Type} (p : A -> bool) (l : list A) : list A :=
  match l with
  | [] => []
  | y :: l' => if p y then l' else y :: remove_first p l'
  end.

Definition store_transaction (db : Session) (tx : Transaction.t) : Session :=
  mkSession (accounts db) (categories db)
    (replace_first (fun t => (Transaction.id t =? Transaction.id tx)%Z) tx
                   (transactions db))
    (budgets db).

Definition store_account (db : Session) (account : option Account.t)
  : Session :=
  match account with
  | Some a =>
      mkSession
        (replace_first (fun b => (Account.id b =? Account.id a)%Z) a
                       (accounts db))
        (categories db) (transactions db) (budgets db)
  | None => db
  end.

Definition is_some {A : Type} (o : option A) : bool :=
  match o with
  | Some _ => true
  | None => false
  end.

(** [except Exception as e: db.rollback(); raise HTTPException(500, ...)] *)
Definition or_500 {A : Type} (m : result A) : result A :=
  match m with
  | Ok a => Ok a
  | Raise _ => Raise (HTTPException 500)
  end.

(** [update_transaction].  Every exception, the 404 included, is caught by
    the handler's [except Exception], rolled back and re-raised as a 500; a
    raised result therefore stands for the unchanged database. *)
Definition update_transaction (db : Session) (transaction_id : Z)
    (transaction_update : TransactionUpdate) : result Session :=
  or_500
    match find_transaction db transaction_id with
    | None => Raise (HTTPException 404)
    | Some db_transaction =>
        let old_amount := Transaction.amount db_transaction in
        let old_type := Transaction.transaction_type db_transaction in
        let updated := apply_update db_transaction transaction_update in
        if is_some (upd_amount transaction_update)
           || is_some (upd_transaction_type transaction_update)
        then
          let account := find_account db (Transaction.account_id updated) in
          reversed <- reverse_effect account old_type old_amount ;;
          applied <- apply_effect reversed
                       (Transaction.transaction_type updated)
                       (Transaction.amount updated) ;;
          Ok (store_account (store_transaction db updated) applied)
        else Ok (store_transaction db updated)
    end.

(** [delete_transaction]: here the 404 is caught and re-raised as a 500 as
    well. *)
Definition delete_transaction (db : Session) (transaction_id : Z)
  : result Session :=
  or_500
    match find_transaction db transaction_id with
    | None => Raise (HTTPException 404)
    | Some db_transaction =>
        let account :=
          find_account db (Transaction.account_id db_transaction) in
        reversed <- reverse_effect account
                      (Transaction.transaction_type db_transaction)
                      (Transaction.amount db_transaction) ;;
        let db1 := store_account db reversed in
        Ok (mkSession (accounts db1) (categories db1)
              (remove_first
                 (fun t => (Transaction.id t =? transaction_id)%Z)
                 (transactions db1))
              (budgets db1))
    end.

Definition balance_of (db : Session) (account_id : Z) : option Q :=
  option_map Account.balance (find_account db account_id).

(** *** [suggest_categories_for_merchant] *)

(** [category_name not in suggestions] *)
Definition not_in (name : string) (suggestions : list string) : bool :=
  negb (existsb (String.eqb name) suggestions).

Fixpoint suggest_loop (text : string) (rules : RuleTable)
    (suggestions : list string) : result (list string) :=
  match rules with
  | [] => Ok suggestions
  | (rule_key, rule) :: rest =>
      m <- _matches_rule text rule ;;
      if m then
        if PyStr.truthy_opt (category_name rule)
           && not_in (PyStr.or_empty (category_name rule)) suggestions
        then suggest_loop text rest
               (suggestions ++ [PyStr.or_empty (category_name rule)])
        else suggest_loop text rest suggestions
      else suggest_loop text rest suggestions
  end.

Definition suggest_categories_for_merchant (rules : RuleTable)
    (merchant : string) : result (list string) :=
  if negb (PyStr.truthy merchant) then Ok []
  else suggest_loop (PyStr.lower merchant) rules [].

(** *** [create_transaction], up to the commit *)

(** The body of a [TransactionCreate] request. *)
Record TransactionCreate : Type := mkTransactionCreate {
  new_timestamp : datetime;
  new_account_id : Z;
  new_amount : Q;
  new_transaction_type : TransactionType;
  new_category_id : option Z;
  new_merchant : option string;
  new_description : option string;
  new_source : TransactionSource
}.

(** Truth value of an optional id: [None] and [0] are falsy. *)
Definition truthy_id (o : option Z) : bool :=
  match o with
  | Some z => negb (z =? 0)%Z
  | None => false
  end.

Definition insert_transaction (db : Session) (tx : Transaction.t) : Session :=
  mkSession (accounts db) (categories db) (transactions db ++ [tx]) (budgets db).

(** The "Auto-categorize if no category provided" block: the category id the
    new row gets and the database after the classifier has run.  An
    exception of the classifier is logged and swallowed. *)
Definition infer_category (rules : RuleTable) (db : Session)
    (transaction : TransactionCreate) : option Z * Session :=
  if truthy_id (new_category_id transaction)
  then (new_category_id transaction, db)
  else
    match categorize_transaction rules (new_merchant transaction)
            (new_description transaction) (new_amount transaction) (Some db)
    with
    | Ok (inferred_category_id, Some db') =>
        (if truthy_id inferred_category_id then inferred_category_id
         else new_category_id transaction, db')
    | _ => (new_category_id transaction, db)
    end.

(** [create_transaction] from the account check to [db.refresh(tx)]: the
    row that is committed and the database that holds it.  [rules] is the
    table of the module's [categorizer].  The mirroring to the sheet and the
    rendering of the response, which follow the commit, are not part of the
    model. *)
Definition create_transaction (rules : RuleTable) (db : Session)
    (transaction : TransactionCreate) : result (Transaction.t * Session) :=
  match find_account db (new_account_id transaction) with
  | None => Raise (HTTPException 404)
  | Some account =>
      let '(category_id, db1) := infer_category rules db transaction in
      let tx :=
        Transaction.mk (fresh_id (map Transaction.id (transactions db1)))
          (new_timestamp transaction) (new_account_id transaction)
          (new_amount transaction) (new_transaction_type transaction)
          category_id (new_merchant transaction)
          (new_description transaction) (new_source transaction)
          None false in
      Ok (tx, insert_transaction db1 tx)
  end.

(** *** The budget write endpoints *)

(** The body of a [BudgetCreate] request. *)
Record BudgetCreate : Type := mkBudgetCreate {
  bc_category_id : Z;
  bc_month : string;
  bc_amount_limit : Q;
  bc_alert_threshold : Q
}.

(** The fields a [BudgetUpdate] request sets; [None] is a field the request
    does not mention.  Explicit nulls are not represented. *)
Record BudgetUpdate : Type := mkBudgetUpdate {
  bu_amount_limit : option Q;
  bu_alert_threshold : option Q;
  bu_is_active : option bool
}.

Definition same_category_month (category_id : Z) (month : string)
    (b : Budget.t) : bool :=
  (Budget.category_id b =? category_id)%Z && String.eqb (Budget.month b) month.

Definition add_budget (db : Session) (b : Budget.t) : Session :=
  mkSession (accounts db) (categories db) (transactions db) (budgets db ++ [b]).

(** [create_budget]; [now] is the [datetime.utcnow()] that fills
    [created_at].  The two [HTTPException]s pass through the handler
    unchanged.  The value returned is the id of the new budget. *)
Definition create_budget (db : Session) (now : datetime) (budget : BudgetCreate)
  : result (Z * Session) :=
  match find (same_category_month (bc_category_id budget) (bc_month budget))
             (budgets db) with
  | Some existing_budget => Raise (HTTPException 400)
  | None =>
      match find (fun c => (Category.id c =? bc_category_id budget)%Z)
                 (categories db) with
      | None => Raise (HTTPException 404)
      | Some category =>
          let current_spending :=
            _calculate_current_spending db (bc_category_id budget)
                                        (bc_month budget) in
          let db_budget :=
            Budget.mk (fresh_id (map Budget.id (budgets db)))
                      (bc_category_id budget) (bc_month budget)
                      (bc_amount_limit budget) current_spending true
                      (bc_alert_threshold budget) now in
          Ok (Budget.id db_budget, add_budget db db_budget)
      end
  end.

Definition find_budget (db : Session) (budget_id : Z) : option Budget.t :=
  find (fun b => (Budget.id b =? budget_id)%Z) (budgets db).




(** [delete_budget]: the handler has no [except HTTPException] clause, so
    its own 404 is caught by [except Exception] and re-raised as a 500. *)
Definition delete_budget (db : Session) (budget_id : Z) : result Session :=
  or_500
    match find_budget db budget_id with
    | None => Raise (HTTPException 404)
    | Some db_budget =>
        Ok (mkSession (accounts db) (categories db) (transactions db)
              (remove_first (fun b => (Budget.id b =? budget_id)%Z)
                            (budgets db)))
    end.




(** ** Reports over the ledger *)

(** [sum(...)] of a generator: the amounts are added to 0 from the left.
    Over binary floats the result depends on this order. *)
Definition py_sum (xs : list Q) : Q := fold_left Qplus xs 0%Q.

(** [str(n)], which is also how an f-string writes an integer. *)
Definition py_str (n : Z) : string := NilZero.string_of_int (Z.to_int n).

(** [f"{n:0{width}d}"] for [n >= 0]: zeros in front up to the width. *)
Definition zero_pad (width : nat) (n : Z) : string :=
  string_of_list_ascii
    (repeat "0"%char (width - String.length (py_str n)))
  ++ py_str n.

(** [f"{year}-{month:02d}"] *)
Definition year_month_label (y m : Z) : string :=
  py_str y ++ "-" ++ zero_pad 2 m.

(** [date.isoformat()] *)
Definition isoformat (y m d : Z) : string :=
  zero_pad 4 y ++ "-" ++ zero_pad 2 m ++ "-" ++ zero_pad 2 d.

(** [t.category]: the row the foreign key points at, if any. *)
Definition transaction_category (db : Session) (t : Transaction.t)
  : option Category.t :=
  match Transaction.category_id t with
  | Some c => find (fun row => (Category.id row =? c)%Z) (categories db)
  | None => None
  end.

(** [start_date = datetime(year, month, 1)] and the first day of the month
    after it. *)
Definition calendar_range (y m : Z) : result (datetime * datetime) :=
  start_date <- first_of_month y m ;;
  end_date <- (if (m =? 12)%Z then first_of_month (y + 1) 1
               else first_of_month y (m + 1)) ;;
  Ok (start_date, end_date).

(** [filter(Transaction.timestamp >= start_date,
            Transaction.timestamp < end_date)] *)
Definition in_range (start_date end_date : datetime) (t : Transaction.t)
  : bool :=
  dt_geb (Transaction.timestamp t) start_date
  && dt_ltb (Transaction.timestamp t) end_date.

(** [sum(t.amount for t in transactions
         if t.transaction_type.value == "income")] and its twin. *)
Definition income_of (ts : list Transaction.t) : Q :=
  py_sum (map Transaction.amount
              (filter (fun t => is_income (Transaction.transaction_type t)) ts)).

Definition expenses_of (ts : list Transaction.t) : Q :=
  py_sum (map Transaction.amount
              (filter (fun t => is_expense (Transaction.transaction_type t)) ts)).

(** [d.get(key, 0)] *)
Definition get_or_zero (key : string) (d : list (string * Q)) : Q :=
  match Dict.get key d with
  | Some v => v
  | None => 0%Q
  end.

(** The grouping loop of [get_monthly_analytics]:
    [category_expenses[cat_name] = category_expenses.get(cat_name, 0)
                                   + t.amount]
    for the expenses that have a category. *)
Fixpoint category_expenses_loop (db : Session) (ts : list Transaction.t)
    (category_expenses : list (string * Q)) : list (string * Q) :=
  match ts with
  | [] => category_expenses
  | t :: rest =>
      category_expenses_loop db rest
        (if is_expense (Transaction.transaction_type t) then
           match transaction_category db t with
           | Some category =>
               let cat_name := Category.name category in
               Dict.set cat_name
                 (get_or_zero cat_name category_expenses
                  + Transaction.amount t)%Q
                 category_expenses
           | None => category_expenses
           end
         else category_expenses)
  end.

Record MonthlyAnalytics : Type := mkMonthlyAnalytics {
  ma_month : string;
  ma_income : Q;
  ma_expenses : Q;
  ma_savings : Q;
  ma_category_breakdown : list (string * Q);
  ma_transaction_count : nat
}.

(** [get_monthly_analytics] of [app/api/transactions.py]; [now] is
    [datetime.now()].  The handler has no [try]: the [ValueError] of
    [datetime(...)] leaves it as it is. *)
Definition get_monthly_analytics (db : Session) (now : datetime)
    (year_arg month_arg : option Z) : result MonthlyAnalytics :=
  let '(y, m) :=
    match year_arg, month_arg with
    | Some y, Some m =>
        if (y =? 0)%Z || (m =? 0)%Z then (year now, month now) else (y, m)
    | _, _ => (year now, month now)
    end in
  r <- calendar_range y m ;;
  let '(start_date, end_date) := r in
  let found := filter (in_range start_date end_date) (transactions db) in
  let income := income_of found in
  let expenses := expenses_of found in
  Ok (mkMonthlyAnalytics (year_month_label y m) income expenses
        (income - expenses)%Q
        (category_expenses_loop db found [])
        (List.length found)).

(** *** [app/api/reports.py] *)

(** [calendar.isleap] and [calendar.monthrange(year, month)[1]] *)
Definition isleap (y : Z) : bool :=
  ((y mod 4 =? 0) && (negb (y mod 100 =? 0) || (y mod 400 =? 0)))%Z.

Definition days_in_month (y m : Z) : Z :=
  if (m =? 2)%Z then (if isleap y then 29%Z else 28%Z)
  else if ((m =? 4) || (m =? 6) || (m =? 9) || (m =? 11))%Z then 30%Z
  else 31%Z.

(** [list.sort(key=..., reverse=True)] and [sorted(..., reverse=True)]: the
    largest key first, entries of equal key in their original order. *)
Fixpoint insert_desc {A : Type} (key : A -> Q) (x : A) (l : list A) : list A :=
  match l with
  | [] => [x]
  | y :: l' =>
      if Qgtb (key y) (key x) then y :: insert_desc key x l'
      else x :: y :: l'
  end.

Definition sort_desc {A : Type} (key : A -> Q) (l : list A) : list A :=
  fold_right (insert_desc key) [] l.

(** The grouping loop of [get_monthly_report]: per category name the pair
    [("income", "expenses")]; whatever is not an income is added to
    ["expenses"]. *)
Fixpoint category_totals_loop (db : Session) (ts : list Transaction.t)
    (category_totals : list (string * (Q * Q))) : list (string * (Q * Q)) :=
  match ts with
  | [] => category_totals
  | t :: rest =>
      category_totals_loop db rest
        match transaction_category db t with
        | Some category =>
            let cat_name := Category.name category in
            let amounts :=
              match Dict.get cat_name category_totals with
              | Some a => a
              | None => (0%Q, 0%Q)
              end in
            Dict.set cat_name
              (if is_income (Transaction.transaction_type t)
               then ((fst amounts + Transaction.amount t)%Q, snd amounts)
               else (fst amounts, (snd amounts + Transaction.amount t)%Q))
              category_totals
        | None => category_totals
        end
  end.

Record CategoryTotal : Type := mkCategoryTotal {
  ct_category : string;
  ct_income : Q;
  ct_expenses : Q;
  ct_total : Q
}.

Definition category_total (entry : string * (Q * Q)) : CategoryTotal :=
  let '(category, (income, expenses)) := entry in
  mkCategoryTotal category income expenses (expenses + income)%Q.

Record DayFlow : Type := mkDayFlow {
  df_date : string;
  df_income : Q;
  df_expenses : Q;
  df_net : Q
}.

(** [t.timestamp.date() == day_date.date()] *)
Definition on_day (y m d : Z) (t : Transaction.t) : bool :=
  ((year (Transaction.timestamp t) =? y)
   && (month (Transaction.timestamp t) =? m)
   && (day (Transaction.timestamp t) =? d))%Z.

(** One turn of the [daily_flow] loop. *)
Definition day_flow (y m : Z) (ts : list Transaction.t) (d : Z) : DayFlow :=
  let day_transactions := filter (on_day y m d) ts in
  let day_income := income_of day_transactions in
  let day_expenses := expenses_of day_transactions in
  mkDayFlow (isoformat y m d) day_income day_expenses
            (day_income - day_expenses)%Q.

(** [range(1, n + 1)] *)
Definition range_from_1 (n : Z) : list Z :=
  map Z.of_nat (seq 1 (Z.to_nat n)).

Record MonthlyReport : Type := mkMonthlyReport {
  mr_month : string;
  mr_income : Q;
  mr_expenses : Q;
  mr_savings : Q;
  mr_top_categories : list CategoryTotal;
  mr_daily_flow : list DayFlow
}.

(** [get_monthly_report].  The handler's [except Exception] also catches
    its own [HTTPException(400)], so every failure leaves as a 500. *)
Definition get_monthly_report (db : Session) (y m : Z)
  : result MonthlyReport :=
  or_500
    (if (m <? 1)%Z || (m >? 12)%Z then Raise (HTTPException 400)
     else
       r <- calendar_range y m ;;
       let '(start_date, end_date) := r in
       let found := filter (in_range start_date end_date) (transactions db) in
       let income := income_of found in
       let expenses := expenses_of found in
       let savings := (income - expenses)%Q in
       let top_categories :=
         firstn 10
           (sort_desc ct_total
              (map category_total (category_totals_loop db found []))) in
       let daily_flow :=
         map (day_flow y m found) (range_from_1 (days_in_month y m)) in
       Ok (mkMonthlyReport (year_month_label y m) income expenses savings
             top_categories daily_flow)).

Record MonthData : Type := mkMonthData {
  md_income : Q;
  md_expenses : Q;
  md_savings : Q
}.

(** [monthly_data[month][...] += amount]; [None] is the [KeyError] of a
    month number that is no key. *)
Fixpoint update_month (m : Z) (f : MonthData -> MonthData)
    (monthly_data : list (Z * MonthData)) : option (list (Z * MonthData)) :=
  match monthly_data with
  | [] => None
  | (k, v) :: rest =>
      if (k =? m)%Z then Some ((k, f v) :: rest)
      else option_map (cons (k, v)) (update_month m f rest)
  end.

Definition add_to_month (t : Transaction.t) (v : MonthData) : MonthData :=
  if is_income (Transaction.transaction_type t)
  then mkMonthData (md_income v + Transaction.amount t)%Q (md_expenses v)
                   (md_savings v)
  else mkMonthData (md_income v) (md_expenses v + Transaction.amount t)%Q
                   (md_savings v).

Fixpoint monthly_data_loop (ts : list Transaction.t)
    (monthly_data : list (Z * MonthData)) : option (list (Z * MonthData)) :=
  match ts with
  | [] => Some monthly_data
  | t :: rest =>
      match update_month (month (Transaction.timestamp t)) (add_to_month t)
                         monthly_data with
      | Some d => monthly_data_loop rest d
      | None => None
      end
  end.

(** [monthly_data[month]["savings"] = income - expenses] *)
Definition set_savings (v : MonthData) : MonthData :=
  mkMonthData (md_income v) (md_expenses v) (md_income v - md_expenses v)%Q.

(** [calendar.month_name[month]] *)
Definition month_name (m : Z) : string :=
  nth (Z.to_nat m)
      [""; "January"; "February"; "March"; "April"; "May"; "June"; "July";
       "August"; "September"; "October"; "November"; "December"] "".

Record MonthRow : Type := mkMonthRow {
  row_month : string;
  row_month_name : string;
  row_income : Q;
  row_expenses : Q;
  row_savings : Q
}.

Definition month_row (y : Z) (entry : Z * MonthData) : MonthRow :=
  mkMonthRow (year_month_label y (fst entry)) (month_name (fst entry))
             (md_income (snd entry)) (md_expenses (snd entry))
             (md_savings (snd entry)).

Record CategoryActivity : Type := mkCategoryActivity {
  ca_category : string;
  ca_income : Q;
  ca_expenses : Q;
  ca_total_activity : Q;
  ca_transaction_count : nat
}.

(** The [category_analysis] loop of [get_yearly_report]. *)
Fixpoint category_analysis_loop (db : Session) (ts : list Transaction.t)
    (category_analysis : list (string * (Q * Q * nat)))
  : list (string * (Q * Q * nat)) :=
  match ts with
  | [] => category_analysis
  | t :: rest =>
      category_analysis_loop db rest
        match transaction_category db t with
        | Some category =>
            let cat_name := Category.name category in
            let '(income, expenses, count) :=
              match Dict.get cat_name category_analysis with
              | Some a => a
              | None => (0%Q, 0%Q, 0%nat)
              end in
            Dict.set cat_name
              (if is_income (Transaction.transaction_type t)
               then ((income + Transaction.amount t)%Q, expenses, S count)
               else (income, (expenses + Transaction.amount t)%Q, S count))
              category_analysis
        | None => category_analysis
        end
  end.

Definition category_activity (entry : string * (Q * Q * nat))
  : CategoryActivity :=
  let '(category, (income, expenses, count)) := entry in
  mkCategoryActivity category income expenses (income + expenses)%Q count.

Record YearlyReport : Type := mkYearlyReport {
  yr_year : Z;
  yr_total_income : Q;
  yr_total_expenses : Q;
  yr_total_savings : Q;
  yr_savings_rate : Q;
  yr_transaction_count : nat;
  yr_monthly_breakdown : list MonthRow;
  yr_top_categories : list CategoryActivity
}.

(** [get_yearly_report]: every exception leaves the handler as a 500. *)
Definition get_yearly_report (db : Session) (y : Z) : result YearlyReport :=
  or_500
    (start_date <- first_of_month y 1 ;;
     end_date <- first_of_month (y + 1) 1 ;;
     let found := filter (in_range start_date end_date) (transactions db) in
     let yearly_income := income_of found in
     let yearly_expenses := expenses_of found in
     let yearly_savings := (yearly_income - yearly_expenses)%Q in
     match monthly_data_loop found
             (map (fun m => (m, mkMonthData 0 0 0)) (range_from_1 12)) with
     | None => Raise (HTTPException 500)
     | Some monthly_data =>
         let monthly_data :=
           map (fun entry => (fst entry, set_savings (snd entry)))
               monthly_data in
         let sorted_categories :=
           sort_desc (fun entry => (fst (fst (snd entry))
                                    + snd (fst (snd entry)))%Q)
                     (category_analysis_loop db found []) in
         savings_rate <-
           (if Qgtb yearly_income 0 then
              q <- py_div yearly_savings yearly_income ;;
              Ok (q * 100)%Q
            else Ok 0%Q) ;;
         Ok (mkYearlyReport y yearly_income yearly_expenses yearly_savings
               savings_rate (List.length found)
               (map (month_row y) monthly_data)
               (map category_activity (firstn 15 sorted_categories)))
     end).


(** ** [scripts/normalize_enums.py] and [scripts/insert_account.py] *)

(** A column of a table: one value per row, [None] for SQL [NULL]. *)
Definition Column : Type := list (option string).

Definition value_eqb (a b : option string) : bool :=
  match a, b with
  | Some s, Some t => String.eqb s t
  | None, None => true
  | _, _ => false
  end.

(** [SELECT DISTINCT column FROM table]: every value once, here in the
    order of first appearance. *)
Fixpoint distinct (col : Column) : Column :=
  match col with
  | [] => []
  | v :: rest =>
      v :: filter (fun x => negb (value_eqb x v)) (distinct rest)
  end.

(** [UPDATE table SET column = new WHERE column = old]: the column after
    the statement and [cur.rowcount]. *)
Definition sql_update (old new : string) (col : Column) : Column * nat :=
  (map (fun x => if value_eqb x (Some old) then Some new else x) col,
   List.length (filter (fun x => value_eqb x (Some old)) col)).

(** The loop both scripts run over the distinct values; [key_of] is
    [str(v).strip().lower()] in one and [old.lower()] in the other. *)
Fixpoint normalize_loop (key_of : string -> string)
    (mapping : list (string * string)) (rows : Column) (col : Column)
    (updated : nat) : Column * nat :=
  match rows with
  | [] => (col, updated)
  | None :: rest => normalize_loop key_of mapping rest col updated
  | Some v :: rest =>
      match Dict.get (key_of v) mapping with
      | Some target =>
          if negb (String.eqb v target) then
            let '(col', rowcount) := sql_update v target col in
            normalize_loop key_of mapping rest col' (updated + rowcount)
          else normalize_loop key_of mapping rest col updated
      | None => normalize_loop key_of mapping rest col updated
      end
  end.

Definition TRANSACTION_TYPE_MAP : list (string * string) :=
  [("income", "INCOME"); ("expense", "EXPENSE"); ("transfer", "TRANSFER")].

Definition SOURCE_MAP : list (string * string) :=
  [("manual", "MANUAL"); ("csv_import", "CSV_IMPORT");
   ("csv-import", "CSV_IMPORT"); ("csv", "CSV_IMPORT");
   ("telegram_bot", "TELEGRAM_BOT"); ("telegram", "TELEGRAM_BOT")].

(** [normalize_column(table, column, mapping)] of [normalize_enums.py], on
    the column it names: the column afterwards and the count it returns. *)
Definition normalize_column (mapping : list (string * string)) (col : Column)
  : Column * nat :=
  normalize_loop (fun v => PyStr.lower (PyStr.strip v)) mapping
                 (distinct col) col 0.

(** [MAPPING] and the update loop of [insert_account.py]. *)
Definition MAPPING : list (string * string) :=
  [("cash", "CASH"); ("bank", "BANK"); ("e_wallet", "E_WALLET");
   ("ewallet", "E_WALLET"); ("credit_card", "CREDIT_CARD");
   ("creditcard", "CREDIT_CARD")].

Definition update_account_types (col : Column) : Column * nat :=
  normalize_loop PyStr.lower MAPPING (distinct col) col 0.


(** ** [AutoCategorizer.bulk_categorize_transactions] and
       [get_categorization_stats] *)

(** [Transaction.category_id.is_(None)] *)
Definition is_uncategorized (t : Transaction.t) : bool :=
  match Transaction.category_id t with
  | None => true
  | Some _ => false
  end.

(** [transaction.category_id = category_id] *)
Definition set_category_id (t : Transaction.t) (category_id : Z)
  : Transaction.t :=
  Transaction.mk (Transaction.id t) (Transaction.timestamp t)
    (Transaction.account_id t) (Transaction.amount t)
    (Transaction.transaction_type t) (Some category_id)
    (Transaction.merchant t) (Transaction.description t)
    (Transaction.source t) (Transaction.reference_id t)
    (Transaction.is_synced_to_sheets t).

(** The loop of [bulk_categorize_transactions].  [current] is what the
    session sees, [committed] what the database holds: creating a category
    commits the session, pending assignments included, and the handler's
    [except] rolls back to the last commit and answers 0.  The classifier is
    always given a session and hands one back. *)
Fixpoint bulk_loop (rules : RuleTable) (ts : list Transaction.t)
    (committed current : Session) (categorized_count : nat) : nat * Session :=
  match ts with
  | [] =>
      if (0 <? categorized_count)%nat then (categorized_count, current)
      else (categorized_count, committed)
  | transaction :: rest =>
      match categorize_transaction rules (Transaction.merchant transaction)
              (Transaction.description transaction)
              (Transaction.amount transaction) (Some current) with
      | Ok (category_id, Some seen) =>
          let committed' :=
            if (List.length (categories current)
                <? List.length (categories seen))%nat
            then seen else committed in
          match category_id with
          | Some c =>
              if (c =? 0)%Z then
                bulk_loop rules rest committed' seen categorized_count
              else
                bulk_loop rules rest committed'
                  (store_transaction seen (set_category_id transaction c))
                  (S categorized_count)
          | None => bulk_loop rules rest committed' seen categorized_count
          end
      | _ => (0%nat, committed)
      end
  end.

(** [bulk_categorize_transactions]: the count it returns and the database
    afterwards; [limit] is taken to be non-negative. *)
Definition bulk_categorize_transactions (rules : RuleTable) (db : Session)
    (limit : nat) : nat * Session :=
  bulk_loop rules
    (firstn limit (filter is_uncategorized (transactions db))) db db 0.

Record CategorizationStats : Type := mkCategorizationStats {
  total_transactions : nat;
  categorized_transactions : nat;
  uncategorized_transactions : nat;
  coverage_percentage : Q
}.

(** [get_categorization_stats], the queries taken to succeed. *)
Definition get_categorization_stats (db : Session) : CategorizationStats :=
  let total := List.length (transactions db) in
  let categorized :=
    List.length (filter (fun t => negb (is_uncategorized t))
                        (transactions db)) in
  let coverage :=
    if (0 <? total)%nat
    then (inject_Z (Z.of_nat categorized) / inject_Z (Z.of_nat total) * 100)%Q
    else 0%Q in
  mkCategorizationStats total categorized (total - categorized)
                        (py_round coverage 2).


(** ** Mirroring to the sheet: [GoogleSheetsService.add_transaction] and
       [sync_transactions_to_sheets] *)

(** The sheet service as the handlers see it: whether a client and a
    spreadsheet were obtained, whether the remote call that appends the row
    of a transaction goes through, and the rows of the Transactions sheet,
    each standing for the transaction it was written from. *)
Record SheetsService : Type := mkSheetsService {
  client : bool;
  spreadsheet : bool;
  accepts : Transaction.t -> bool;
  sheet_rows : list Transaction.t
}.

(** [add_transaction]: [True] and the sheet with the new row, or [False].
    [initialize()] answers [True] at once for a service that has a client
    and catches whatever goes wrong otherwise; a missing spreadsheet and a
    failing remote call raise inside the [try], whose [except Exception]
    answers [False].  No path raises. *)
Definition add_transaction (self : SheetsService) (transaction : Transaction.t)
  : result (bool * SheetsService) :=
  if client self && spreadsheet self && accepts self transaction then
    Ok (true,
        mkSheetsService (client self) (spreadsheet self) (accepts self)
                        (sheet_rows self ++ [transaction]))
  else Ok (false, self).

(** [transaction.is_synced_to_sheets = True] *)
Definition mark_synced (t : Transaction.t) : Transaction.t :=
  Transaction.mk (Transaction.id t) (Transaction.timestamp t)
    (Transaction.account_id t) (Transaction.amount t)
    (Transaction.transaction_type t) (Transaction.category_id t)
    (Transaction.merchant t) (Transaction.description t)
    (Transaction.source t) (Transaction.reference_id t) true.

Record SyncState : Type := mkSyncState {
  sync_service : SheetsService;
  sync_db : Session;
  synced_count : nat;
  failed_count : nat;
  errors : list Z           (* the ids of the [errors] entries *)
}.

(** The loop of [sync_transactions_to_sheets]: the value that
    [add_transaction] returns is not looked at. *)
Fixpoint sync_loop (ts : list Transaction.t) (st : SyncState) : SyncState :=
  match ts with
  | [] => st
  | transaction :: rest =>
      match add_transaction (sync_service st) transaction with
      | Ok (_, service) =>
          sync_loop rest
            (mkSyncState service
               (store_transaction (sync_db st) (mark_synced transaction))
               (S (synced_count st)) (failed_count st) (errors st))
      | Raise e =>
          sync_loop rest
            (mkSyncState (sync_service st) (sync_db st) (synced_count st)
               (S (failed_count st))
               (errors st ++ [Transaction.id transaction]))
      end
  end.

Record SyncResponse : Type := mkSyncResponse {
  sync_success : bool;
  data_synced_count : nat;
  data_failed_count : nat;
  data_errors : list Z
}.

(** [sync_transactions_to_sheets]: the response, the service and the
    database afterwards; [None] is a service that was never set up. *)
Definition sync_transactions_to_sheets (db : Session) (force_all : bool)
    (sheets_service : option SheetsService)
  : result (SyncResponse * option SheetsService * Session) :=
  or_500
    match sheets_service with
    | None => Ok (mkSyncResponse false 0 0 [], None, db)
    | Some service =>
        if negb (client service)
        then Ok (mkSyncResponse false 0 0 [], Some service, db)
        else
          let found :=
            if force_all then transactions db
            else filter (fun t => negb (Transaction.is_synced_to_sheets t))
                        (transactions db) in
          let st := sync_loop found (mkSyncState service db 0 0 []) in
          Ok (mkSyncResponse (0 <? synced_count st)%nat (synced_count st)
                (failed_count st) (firstn 5 (errors st)),
              Some (sync_service st), sync_db st)
    end.


(** ** [get_budget_trends]: the months it reports on *)

(** [d - timedelta(days=1)]; [None] is the [OverflowError] of a date before
    year 1. *)
Definition prev_day (d : datetime) : option datetime :=
  if (1 <? day d)%Z then
    Some (mkDatetime (year d) (month d) (day d - 1)
                     (hour d) (minute d) (second d) (microsecond d))
  else if (1 <? month d)%Z then
    Some (mkDatetime (year d) (month d - 1)
                     (days_in_month (year d) (month d - 1))
                     (hour d) (minute d) (second d) (microsecond d))
  else if (MINYEAR <? year d)%Z then
    Some (mkDatetime (year d - 1) 12 31
                     (hour d) (minute d) (second d) (microsecond d))
  else None.

(** [d - timedelta(days=n)] *)
Fixpoint minus_days (d : datetime) (n : nat) : option datetime :=
  match n with
  | O => Some d
  | S n' =>
      match prev_day d with
      | Some d' => minus_days d' n'
      | None => None
      end
  end.

(** [current_date.replace(day=1)] *)
Definition replace_day_1 (d : datetime) : datetime :=
  mkDatetime (year d) (month d) 1 (hour d) (minute d) (second d)
             (microsecond d).

(** [month_date.strftime("%Y-%m")], the year written with four digits, as
    it is for the years from 1000 on; how a smaller year is padded is left
    to the C library. *)
Definition strftime_ym (d : datetime) : string :=
  zero_pad 4 (year d) ++ "-" ++ zero_pad 2 (month d).

(** [for i in range(months): month_list.append(...)] *)
Fixpoint month_loop (first : datetime) (indices : list nat)
    (month_list : list string) : option (list string) :=
  match indices with
  | [] => Some month_list
  | i :: rest =>
      match minus_days first (i * 30) with
      | Some month_date =>
          month_loop first rest (month_list ++ [strftime_ym month_date])
      | None => None
      end
  end.

(** The ["months"] entry of what [get_budget_trends] returns:
    [month_list] after [month_list.reverse()].  A date that cannot be
    formed leaves the handler as a 500. *)
Definition month_list (current_date : datetime) (months : nat)
  : result (list string) :=
  match month_loop (replace_day_1 current_date) (seq 0 months) [] with
  | Some l => Ok (rev l)
  | None => Raise (HTTPException 500)
  end.


(** ** [get_dashboard_summary]: the daily flow of the past 30 days *)

Record DailyFlow : Type := mkDailyFlow {
  flow_date : string;
  flow_income : Q;
  flow_expenses : Q
}.

(** [datetime.combine(date, datetime.min.time())] and
    [datetime.combine(date, datetime.max.time())] *)
Definition day_start (date : datetime) : datetime :=
  mkDatetime (year date) (month date) (day date) 0 0 0 0.

Definition day_end (date : datetime) : datetime :=
  mkDatetime (year date) (month date) (day date) 23 59 59 999999.

(** [day_start <= t.timestamp <= day_end] *)
Definition within_day (date : datetime) (t : Transaction.t) : bool :=
  dt_geb (Transaction.timestamp t) (day_start date)
  && dt_geb (day_end date) (Transaction.timestamp t).

(** One turn of the loop: the entry of [date], read off the transactions
    of the current month. *)
Definition daily_flow_entry (monthly_transactions : list Transaction.t)
    (date : datetime) : DailyFlow :=
  let day_transactions := filter (within_day date) monthly_transactions in
  mkDailyFlow (isoformat (year date) (month date) (day date))
              (income_of day_transactions) (expenses_of day_transactions).

(** [for i in range(30): date = (now - timedelta(days=29-i)).date() ...];
    [None] is the [OverflowError] of a date before year 1. *)
Fixpoint daily_flow_loop (now : datetime)
    (monthly_transactions : list Transaction.t) (indices : list nat)
  : option (list DailyFlow) :=
  match indices with
  | [] => Some []
  | i :: rest =>
      match minus_days now (29 - i) with
      | Some date =>
          option_map (cons (daily_flow_entry monthly_transactions date))
                     (daily_flow_loop now monthly_transactions rest)
      | None => None
      end
  end.

(** The [daily_flow] entry of [get_dashboard_summary]: the month range, the
    transactions of the current month and the loop over the past 30 days.
    Whatever is raised leaves the handler as a 500. *)
Definition dashboard_daily_flow (db : Session) (now : datetime)
  : result (list DailyFlow) :=
  or_500
    (r <- calendar_range (year now) (month now) ;;
     let '(start_of_month, end_of_month) := r in
     let monthly_transactions :=
       filter (in_range start_of_month end_of_month) (transactions db) in
     match daily_flow_loop now monthly_transactions (seq 0 30) with
     | Some daily_flow => Ok daily_flow
     | None => Raise (HTTPException 500)
     end).


(** ** Vocabulary of the statements and sample data *)

Definition result_map {A B : Type} (f : A -> B) (r : result A) : result B :=
  match r with
  | Ok a => Ok (f a)
  | Raise e => Raise e
  end.

Definition noon (y m d : Z) : datetime := mkDatetime y m d 12 0 0 0.

(** A budget of 1000 with the default alert threshold of 80%. *)
Definition budget_1000 : Budget.t :=
  Budget.mk 1 1 "2024-02" 1000 0 true (8 # 10) (noon 2024 2 1).

Definition budget_zero_limit : Budget.t :=
  Budget.mk 2 1 "2024-02" 0 0 true (8 # 10) (noon 2024 2 1).

(** One cash account holding 1000 and one stored expense of 100 on it. *)
Definition expense_100 : Transaction.t :=
  Transaction.mk 1 (noon 2024 2 10) 7 100 EXPENSE None (Some "Warung") None
                 MANUAL None true.

Definition wallet_1000 : Account.t := Account.mk 7 "Wallet" CASH "IDR" 1000 true.

Definition ledger_one_expense : Session :=
  mkSession [wallet_1000] [] [expense_100] [].

Definition to_income_150 : TransactionUpdate :=
  mkTransactionUpdate None (Some 150%Q) (Some INCOME) None None None.

(** A table whose first rule for "grab" names no category. *)
Definition rules_unnamed_first : RuleTable := [
  ("ride_hailing", mkRule ["grab"] [] None None);
  ("transportation", mkRule ["grab"; "taxi"] [] (Some "Transportation") None)
].

(** A table whose first rule has no keyword for "grab" and a pattern that
    [re] cannot compile (nothing to repeat). *)
Definition rules_broken_first : RuleTable := [
  ("broken", mkRule ["gojek"] ["*abc"] (Some "Other") None);
  ("transportation", mkRule ["grab"; "taxi"] [] (Some "Transportation") None)
].

(** Rules whose pattern uses an upper-case class escape. *)
Definition non_digit_rule : Rule := mkRule [] ["\D"] (Some "Other") None.

Definition non_space_rule : Rule :=
  mkRule [] ["uber\S"] (Some "Transportation") None.

Definition session_with_food : Session :=
  mkSession [] [Category.mk 4 "Food & Dining" None None None true] [] [].

(** A rule the loop passes over: it does not match, or it matches but names
    no category. *)
Definition passed_over (text : string) (rule : Rule) : Prop :=
  _matches_rule text rule = Ok false
  \/ (_matches_rule text rule = Ok true
      /\ PyStr.truthy_opt (category_name rule) = false).

(** Number of category rows carrying a given name. *)
Definition rows_named (n : string) (s : Session) : nat :=
  List.length
    (filter (fun c => String.eqb (Category.name c) n) (categories s)).

Definition two_rules : RuleTable := [
  ("shopping", mkRule ["mall"] [".*shop.*"] (Some "Shopping") None);
  ("education", mkRule ["book"] [] (Some "Education") None)
].

(** *** The monthly total as the specification words it *)

(** The month that follows [(y, m)]; December rolls into the next year. *)
Definition next_month (y m : Z) : Z * Z :=
  if (m =? 12)%Z then ((y + 1)%Z, 1%Z) else (y, (m + 1)%Z).

(** Midnight of the first day of month [(y, m)]. *)
Definition month_start (ym : Z * Z) : datetime :=
  mkDatetime (fst ym) (snd ym) 1 0 0 0 0.

(** [a <= b] on datetimes. *)
Definition dt_leb (a b : datetime) : bool :=
  match dt_compare a b with Gt => false | _ => true end.

(** An expense of the category, stamped in
    [[first day of the month, first day of the next month)]. *)
Definition counted (category_id y m : Z) (tx : Transaction.t) : bool :=
  match Transaction.category_id tx, Transaction.transaction_type tx with
  | Some c, EXPENSE =>
      (c =? category_id)%Z
      && dt_leb (month_start (y, m)) (Transaction.timestamp tx)
      && dt_ltb (Transaction.timestamp tx) (month_start (next_month y m))
  | _, _ => false
  end.

Definition monthly_expense_total (db : Session) (category_id y m : Z) : Q :=
  fold_right Qplus 0%Q
    (map Transaction.amount (filter (counted category_id y m) (transactions db))).

(** Year and month number denote a calendar month of the years 1 to 9999. *)
Definition is_calendar_month (y m : Z) : bool :=
  ((1 <=? y) && (y <=? 9999) && (1 <=? m) && (m <=? 12))%Z.

(** The calendar months up to 9999-11: the month that follows is still a
    calendar month. *)
Definition representable (y m : Z) : bool :=
  is_calendar_month y m && negb ((y =? 9999) && (m =? 12))%Z.

(** Category 1 with expenses around the end of February 2024, one of them
    at the first instant of March, and an income inside February. *)
Definition ledger_feb_2024 : Session :=
  mkSession []
    [Category.mk 1 "Food & Dining" None None None true]
    [Transaction.mk 1 (noon 2024 2 1) 7 30 EXPENSE (Some 1%Z) None None
                    MANUAL None true;
     Transaction.mk 2 (mkDatetime 2024 2 29 23 59 59 999999) 7 12 EXPENSE
                    (Some 1%Z) None None MANUAL None true;
     Transaction.mk 3 (mkDatetime 2024 3 1 0 0 0 0) 7 500 EXPENSE (Some 1%Z)
                    None None MANUAL None true;
     Transaction.mk 4 (noon 2024 2 14) 7 900 INCOME (Some 1%Z) None None
                    MANUAL None true;
     Transaction.mk 5 (noon 2024 2 14) 7 70 EXPENSE (Some 2%Z) None None
                    MANUAL None true]
    [].


(** A budget of 200 for category 1 in February 2024, cached spend 0. *)
Definition budget_200 : Budget.t :=
  Budget.mk 1 1 "2024-02" 200 0 true (8 # 10) (noon 2024 1 31).

Definition ledger_with_budget : Session :=
  mkSession (accounts ledger_feb_2024) (categories ledger_feb_2024)
            (transactions ledger_feb_2024) [budget_200].

(** [budget_200] as the endpoints serve it: its spend is refreshed to what
    the aggregation returns, 0, which is 0 percent of the limit. *)
Definition served_budget_200 : schemas.Budget :=
  schemas.mkBudget 1 "2024-02" 200 (8 # 10) 1 (0 # 100) true
    (noon 2024 1 31)
    (Some (schemas.mkCategory "Food & Dining" None None None 1 true)).

(** *** Rule tables as dictionaries *)

(** The rule names of a table, in iteration order. *)
Definition rule_names (rs : RuleTable) : list string := map fst rs.

(** Order of two entries by rule name. *)
Definition name_le (a b : string * Rule) : Prop :=
  String.leb (fst a) (fst b) = true.

(** Table and file hold the same entries, in whatever order. *)
Definition agrees (self : AutoCategorizer) : Prop :=
  exists items, rules_file self = Doc items /\ Permutation items (rules self).

Definition type_hint_rule : Rule :=
  mkRule ["gaji"] [".*salary.*"] (Some "Salary") (Some "income").

Definition hinted_rules : RuleTable := [
  ("shopping", mkRule ["mall"] [".*shop.*"] (Some "Shopping") None);
  ("income_salary", type_hint_rule);
  ("education", mkRule ["book"] [] (Some "Education") None)
].

(** *** Suggestions *)

(** Some rule of the table matches the text and names the category [n]. *)
Definition named_by_match (text : string) (rules : RuleTable) (n : string)
  : Prop :=
  exists key rule,
    In (key, rule) rules
    /\ category_name rule = Some n
    /\ n <> EmptyString
    /\ _matches_rule text rule = Ok true.

(** What classification answers when [suggestions] are the suggestions for
    the same text: nothing if there are none, otherwise the category that
    get-or-create resolves for the first of them. *)
Definition resolve_first (suggestions : list string) (s : Session)
  : option Z * option Session :=
  match suggestions with
  | [] => (None, Some s)
  | name :: _ =>
      (option_map Category.id (fst (_get_or_create_category name (Some s))),
       snd (_get_or_create_category name (Some s)))
  end.

(** [s'] is [s] with at most one category appended; an appended category
    has id [r] and a name no category of [s] carried. *)
Definition adds_at_most_one (s s' : Session) (r : option Z) : Prop :=
  accounts s' = accounts s
  /\ transactions s' = transactions s
  /\ budgets s' = budgets s
  /\ (categories s' = categories s
      \/ exists c,
           categories s' = (categories s ++ [c])%list
           /\ r = Some (Category.id c)
           /\ category_by_name (Category.name c) s = None).

(** *** Balance effects *)

(** What a transaction of the given type and amount is worth to its
    account: [+amount] for an income, [-amount] for an expense, nothing for
    a transfer. *)
Definition signed_effect (t : TransactionType) (a : Q) : Q :=
  match t with
  | INCOME => a
  | EXPENSE => (- a)%Q
  | TRANSFER => 0%Q
  end.

(** A request for an expense of 25 at "Uber" on account 7. *)
Definition uber_request : TransactionCreate :=
  mkTransactionCreate (noon 2024 2 11) 7 25 EXPENSE None (Some "Uber") None
                      MANUAL.

Definition to_amount_40 : TransactionUpdate :=
  mkTransactionUpdate None (Some 40%Q) None None None None.

(** *** Budgets *)

(** The (category, month) pairs of the budgets, in table order. *)
Definition budget_keys (db : Session) : list (Z * string) :=
  map (fun b => (Budget.category_id b, Budget.month b)) (budgets db).

Definition budget_ids (db : Session) : list Z := map Budget.id (budgets db).


Definition raise_limit_to_500 : BudgetUpdate :=
  mkBudgetUpdate (Some 500%Q) None None.


(** *** Budget tables and status reports *)

(** A budget with a stale cached spend, next to [budget_200]'s category. *)
Definition ledger_two_budgets : Session :=
  mkSession (accounts ledger_feb_2024) (categories ledger_feb_2024)
            (transactions ledger_feb_2024)
            [budget_200;
             Budget.mk 2 2 "2024-02" 50 0 true (8 # 10) (noon 2024 1 31);
             Budget.mk 3 1 "2024-03" 400 7 false (8 # 10) (noon 2024 1 31)].

(** The February ledger with two budgets for category 1 and 2: the first
    carries a cached spend of 42, and the limit of the second, 40, is below
    the 70 the ledger holds as expenses of category 2 in February. *)
Definition ledger_stale_budgets : Session :=
  mkSession (accounts ledger_feb_2024) (categories ledger_feb_2024)
            (transactions ledger_feb_2024)
            [Budget.mk 1 1 "2024-02" 200 42 true (8 # 10) (noon 2024 1 31);
             Budget.mk 2 2 "2024-02" 40 0 true (8 # 10) (noon 2024 1 31)].


(** The entries of a status report that are not on track. *)
Definition off_track (info : BudgetInfo) : bool :=
  match info_status info with
  | on_track => false
  | _ => true
  end.


(** *** Reports *)

(** Sum of a list of amounts, from the right. *)
Definition Qsum (xs : list Q) : Q := fold_right Qplus 0%Q xs.

(** A February expense of a category whose row is missing, next to the
    rows of [ledger_feb_2024]. *)
Definition ledger_two_categories : Session :=
  mkSession []
    [Category.mk 1 "Food & Dining" None None None true;
     Category.mk 2 "Transportation" None None None true]
    (transactions ledger_feb_2024
     ++ [Transaction.mk 6 (noon 2024 2 20) 7 15 TRANSFER (Some 2%Z) None None
                        MANUAL None true;
         Transaction.mk 7 (noon 2024 2 21) 7 8 EXPENSE None None None
                        MANUAL None true])
    [].


(** A datetime that Python can construct. *)
Definition is_datetime (d : datetime) : bool :=
  ((MINYEAR <=? year d) && (year d <=? MAXYEAR)
   && (1 <=? month d) && (month d <=? 12)
   && (1 <=? day d) && (day d <=? days_in_month (year d) (month d))
   && (0 <=? hour d) && (hour d <=? 23)
   && (0 <=? minute d) && (minute d <=? 59)
   && (0 <=? second d) && (second d <=? 59)
   && (0 <=? microsecond d) && (microsecond d <=? 999999))%Z.

(** Every transaction of the ledger carries such a timestamp. *)
Definition stamped (db : Session) : Prop :=
  Forall (fun t => is_datetime (Transaction.timestamp t) = true)
         (transactions db).

(** The transactions of a calendar month, and of a calendar year. *)
Definition month_transactions (db : Session) (y m : Z) : list Transaction.t :=
  filter (in_range (month_start (y, m)) (month_start (next_month y m)))
         (transactions db).

Definition year_transactions (db : Session) (y : Z) : list Transaction.t :=
  filter (in_range (month_start (y, 1%Z)) (month_start ((y + 1)%Z, 1%Z)))
         (transactions db).

Definition type_eqb (a b : TransactionType) : bool :=
  match a, b with
  | INCOME, INCOME | EXPENSE, EXPENSE | TRANSFER, TRANSFER => true
  | _, _ => false
  end.

(** The amounts of the transactions of one type. *)
Definition typed_amounts (ty : TransactionType) (ts : list Transaction.t)
  : list Q :=
  map Transaction.amount
      (filter (fun t => type_eqb (Transaction.transaction_type t) ty) ts).

(** The month an analytics request is about: the one it names, or the
    current one when year or month is missing or 0. *)
Definition requested_month (now : datetime) (year_arg month_arg : option Z)
  : Z * Z :=
  match year_arg, month_arg with
  | Some y, Some m =>
      if (y =? 0)%Z || (m =? 0)%Z then (year now, month now) else (y, m)
  | _, _ => (year now, month now)
  end.

(** The amounts of the transactions stamped in month number [m] that are
    incomes ([income = true]) or are not ([income = false]). *)
Definition month_amounts (income : bool) (m : Z) (ts : list Transaction.t)
  : list Q :=
  map Transaction.amount
      (filter (fun t =>
                 (month (Transaction.timestamp t) =? m)%Z
                 && Bool.eqb (is_income (Transaction.transaction_type t))
                             income) ts).

(** The entry of a month once the amounts of [ts] have been added to it. *)
Definition month_total (ts : list Transaction.t) (entry : Z * MonthData)
  : Z * MonthData :=
  (fst entry,
   mkMonthData
     (fold_left Qplus (month_amounts true (fst entry) ts)
                (md_income (snd entry)))
     (fold_left Qplus (month_amounts false (fst entry) ts)
                (md_expenses (snd entry)))
     (md_savings (snd entry))).

(** The transactions whose category row carries a given name. *)
Definition in_category (db : Session) (name : string) (t : Transaction.t)
  : bool :=
  match transaction_category db t with
  | Some c => String.eqb (Category.name c) name
  | None => false
  end.


(** *** Canonical spellings *)

(** The spelling a value is meant to end up with. *)
Definition canonical (key_of : string -> string)
    (mapping : list (string * string)) (x : option string) : option string :=
  match x with
  | Some v =>
      match Dict.get (key_of v) mapping with
      | Some target => Some target
      | None => Some v
      end
  | None => None
  end.

(** Every spelling the mapping produces is mapped to itself. *)
Definition targets_fixed (key_of : string -> string)
    (mapping : list (string * string)) : Prop :=
  forall k target,
    Dict.get k mapping = Some target ->
    Dict.get (key_of target) mapping = Some target.

(** The rows whose value is not spelled canonically. *)
Definition misspelled (key_of : string -> string)
    (mapping : list (string * string)) (col : Column) : Column :=
  filter (fun x => negb (value_eqb x (canonical key_of mapping x))) col.

Definition strip_lower (v : string) : string := PyStr.lower (PyStr.strip v).

Definition type_column : Column :=
  [Some "income"; Some " Expense "; None; Some "EXPENSE"; Some "income";
   Some "refund"; Some "TRANSFER"].


(** *** Bulk classification *)

(** Every pattern of the table compiles. *)
Definition compilable (rules : RuleTable) : bool :=
  forallb (fun entry =>
             forallb (fun pattern => is_some (Re.parse (PyStr.lower pattern)))
                     (patterns (snd entry)))
          rules.

Definition uncategorized (db : Session) : list Transaction.t :=
  filter is_uncategorized (transactions db).

(** Three transactions without a category, the second of which no rule
    claims, and one with a category. *)
Definition ledger_uncategorized : Session :=
  mkSession []
    [Category.mk 1 "Food & Dining" None None None true]
    [Transaction.mk 1 (noon 2024 2 1) 7 30 EXPENSE None (Some "Uber") None
                    MANUAL None true;
     Transaction.mk 2 (noon 2024 2 2) 7 12 EXPENSE None (Some "zzz") None
                    MANUAL None true;
     Transaction.mk 3 (noon 2024 2 3) 7 50 EXPENSE (Some 1%Z) (Some "Uber")
                    None MANUAL None true;
     Transaction.mk 4 (noon 2024 2 4) 7 70 EXPENSE None (Some "KFC") None
                    MANUAL None true]
    [].


(** *** Mirroring *)

(** The transactions a sync request selects. *)
Definition sync_selection (db : Session) (force_all : bool)
  : list Transaction.t :=
  if force_all then transactions db
  else filter (fun t => negb (Transaction.is_synced_to_sheets t))
              (transactions db).

(** A service whose remote call fails for every amount above 50. *)
Definition flaky_service : SheetsService :=
  mkSheetsService true true
    (fun t => Qle_bool (Transaction.amount t) 50) [].

Definition ledger_unsynced : Session :=
  mkSession [] []
    [Transaction.mk 1 (noon 2024 2 1) 7 30 EXPENSE None None None MANUAL None
                    false;
     Transaction.mk 2 (noon 2024 2 2) 7 80 EXPENSE None None None MANUAL None
                    false;
     Transaction.mk 3 (noon 2024 2 3) 7 10 INCOME None None None MANUAL None
                    true]
    [].


(** *** Trend months *)

(** The label of month [m] of year [y]. *)
Definition month_label (y m : Z) : string :=
  strftime_ym (month_start (y, m)).

(** * Properties *)

(** ** Amount comparisons *)

Lemma Qgtb_true (a b : Q) : Qgtb a b = true <-> (b < a)%Q.
Proof.
  unfold Qgtb. rewrite negb_true_iff.
  split; intro H.
  - apply Qnot_le_lt. intro L. apply Qle_bool_iff in L. congruence.
  - destruct (Qle_bool a b) eqn:E; [|reflexivity].
    apply Qle_bool_iff in E. exfalso. exact (Qlt_not_le _ _ H E).
Qed.

Lemma Qgtb_false (a b : Q) : Qgtb a b = false <-> (a <= b)%Q.
Proof.
  unfold Qgtb. rewrite negb_false_iff. apply Qle_bool_iff.
Qed.

Lemma Qgeb_true (a b : Q) : Qgeb a b = true <-> (b <= a)%Q.
Proof. unfold Qgeb. apply Qle_bool_iff. Qed.

Lemma Qgeb_false (a b : Q) : Qgeb a b = false <-> (a < b)%Q.
Proof.
  unfold Qgeb. split; intro H.
  - apply Qnot_le_lt. intro L. apply Qle_bool_iff in L. congruence.
  - destruct (Qle_bool b a) eqn:E; [|reflexivity].
    apply Qle_bool_iff in E. exfalso. exact (Qlt_not_le _ _ H E).
Qed.

Lemma py_div_pos (a b : Q) : (0 < b)%Q -> py_div a b = Ok (a / b)%Q.
Proof.
  intro H. unfold py_div.
  destruct (Qeq_bool b 0) eqn:E; [|reflexivity].
  apply Qeq_bool_iff in E. rewrite E in H. exfalso. exact (Qlt_irrefl _ H).
Qed.

(** ** Budget evaluation *)

Lemma percentage_used_pos (spend limit : Q) :
  (0 < limit)%Q -> percentage_used spend limit = Ok (spend / limit * 100)%Q.
Proof.
  intro H. unfold percentage_used.
  assert (G : Qgtb limit 0 = true) by (apply Qgtb_true; exact H).
  rewrite G, (py_div_pos spend H). reflexivity.
Qed.

Lemma percentage_used_nonpos (spend limit : Q) :
  (limit <= 0)%Q -> percentage_used spend limit = Ok 0%Q.
Proof.
  intro H. unfold percentage_used.
  assert (G : Qgtb limit 0 = false) by (apply Qgtb_false; exact H).
  rewrite G. reflexivity.
Qed.

(** The guard makes the percentage total: the division is only reached with
    a positive divisor. *)
Lemma percentage_used_total (spend limit : Q) :
  exists p, percentage_used spend limit = Ok p.
Proof.
  destruct (Qlt_le_dec 0 limit) as [H|H].
  - eexists. apply percentage_used_pos. exact H.
  - eexists. apply percentage_used_nonpos. exact H.
Qed.

Lemma status_of_over (p t : Q) : (100 < p)%Q -> status_of p t = over_budget.
Proof.
  intro H. unfold status_of.
  assert (G : Qgtb p 100 = true) by (apply Qgtb_true; exact H).
  rewrite G. reflexivity.
Qed.

Lemma status_of_near (p t : Q) :
  (p <= 100)%Q -> (t * 100 <= p)%Q -> status_of p t = near_limit.
Proof.
  intros H1 H2. unfold status_of.
  assert (G1 : Qgtb p 100 = false) by (apply Qgtb_false; exact H1).
  assert (G2 : Qgeb p (t * 100) = true) by (apply Qgeb_true; exact H2).
  rewrite G1, G2. reflexivity.
Qed.

Lemma status_of_on_track (p t : Q) :
  (p <= 100)%Q -> (p < t * 100)%Q -> status_of p t = on_track.
Proof.
  intros H1 H2. unfold status_of.
  assert (G1 : Qgtb p 100 = false) by (apply Qgtb_false; exact H1).
  assert (G2 : Qgeb p (t * 100) = false) by (apply Qgeb_false; exact H2).
  rewrite G1, G2. reflexivity.
Qed.

Lemma evaluate_budget_pos (db : Session) (b : Budget.t) (spend : Q) :
  (0 < Budget.amount_limit b)%Q ->
  exists info,
    evaluate_budget db b spend
    = Ok (info, (spend / Budget.amount_limit b * 100)%Q)
    /\ info_status info
       = status_of (spend / Budget.amount_limit b * 100)%Q
                   (Budget.alert_threshold b)
    /\ info_remaining info = (Budget.amount_limit b - spend)%Q.
Proof.
  intro H. unfold evaluate_budget.
  rewrite (percentage_used_pos spend H). simpl.
  eexists. split; [reflexivity|]. split; reflexivity.
Qed.

(** C1, the boundary as the claim states it: with spend equal to the limit
    the percentage is exactly 100, [100 > 100] is false, and the status is
    [near_limit], not [over_budget]. *)
Lemma at_limit_is_near_limit :
  result_map (fun e => info_status (fst e))
             (evaluate_budget empty_session budget_1000 1000)
  = Ok near_limit
  /\ result_map (fun e => info_status (fst e))
                (evaluate_budget empty_session budget_1000 1000)
     <> Ok over_budget.
Proof.
  assert (E : result_map (fun e => info_status (fst e))
                (evaluate_budget empty_session budget_1000 1000)
              = Ok near_limit) by (vm_compute; reflexivity).
  split; [exact E|]. rewrite E. discriminate.
Qed.

(** C1, amended: for a budget with a positive limit and a threshold in
    [0.1, 1.0] the evaluation yields percentage [spend / limit * 100]; the
    status is [over_budget] when the percentage is strictly above 100,
    [near_limit] when it is at most 100 and at least [threshold * 100],
    [on_track] otherwise; a budget spent exactly to its limit is
    [near_limit]. *)
Theorem budget_status_derivation (db : Session) (b : Budget.t) (spend : Q) :
  (0 < Budget.amount_limit b)%Q ->
  (1 # 10 <= Budget.alert_threshold b)%Q ->
  (Budget.alert_threshold b <= 1)%Q ->
  exists info pct,
    evaluate_budget db b spend = Ok (info, pct)
    /\ pct = (spend / Budget.amount_limit b * 100)%Q
    /\ ((100 < pct)%Q -> info_status info = over_budget)
    /\ ((pct <= 100)%Q -> (Budget.alert_threshold b * 100 <= pct)%Q ->
        info_status info = near_limit)
    /\ ((pct <= 100)%Q -> (pct < Budget.alert_threshold b * 100)%Q ->
        info_status info = on_track)
    /\ ((spend == Budget.amount_limit b)%Q -> info_status info = near_limit).
Proof.
  intros Hl Ht1 Ht2.
  destruct (evaluate_budget_pos db b spend Hl) as (info & E & St & _).
  exists info, (spend / Budget.amount_limit b * 100)%Q.
  split; [exact E|]. split; [reflexivity|].
  rewrite St.
  split; [apply status_of_over|].
  split; [apply status_of_near|].
  split; [apply status_of_on_track|].
  intro Heq.
  assert (P : (spend / Budget.amount_limit b * 100 == 100)%Q).
  { rewrite Heq. field. intro Z. rewrite Z in Hl. exact (Qlt_irrefl _ Hl). }
  apply status_of_near.
  - rewrite P. apply Qle_refl.
  - rewrite P.
    apply Qle_trans with (1 * 100)%Q; [|apply Qle_refl].
    apply Qmult_le_compat_r; [exact Ht2|discriminate].
Qed.

Lemma budget_status_derivation_witness :
  exists info pct,
    evaluate_budget empty_session budget_1000 800 = Ok (info, pct)
    /\ pct = (800 / Budget.amount_limit budget_1000 * 100)%Q
    /\ ((100 < pct)%Q -> info_status info = over_budget)
    /\ ((pct <= 100)%Q -> (Budget.alert_threshold budget_1000 * 100 <= pct)%Q ->
        info_status info = near_limit)
    /\ ((pct <= 100)%Q -> (pct < Budget.alert_threshold budget_1000 * 100)%Q ->
        info_status info = on_track)
    /\ ((800 == Budget.amount_limit budget_1000)%Q ->
        info_status info = near_limit).
Proof.
  apply (budget_status_derivation empty_session budget_1000 800);
    simpl; unfold Qlt, Qle; simpl; lia.
Defined.

(** C8: with a limit that is zero or negative the evaluation does not raise,
    the percentage is 0 whatever was spent, and the status is derived from
    that 0: it is never [over_budget]. *)
Theorem nonpositive_limit_is_guarded (db : Session) (b : Budget.t) (spend : Q) :
  (Budget.amount_limit b <= 0)%Q ->
  exists info,
    evaluate_budget db b spend = Ok (info, 0%Q)
    /\ (info_percentage_used info == 0)%Q
    /\ info_status info = status_of 0 (Budget.alert_threshold b)
    /\ info_status info <> over_budget.
Proof.
  intro H. unfold evaluate_budget.
  rewrite (percentage_used_nonpos spend H). simpl.
  eexists. split; [reflexivity|]. simpl.
  split; [vm_compute; reflexivity|].
  split; [reflexivity|].
  unfold status_of. simpl.
  destruct (Qgeb 0 (Budget.alert_threshold b * 100)); discriminate.
Qed.

Lemma nonpositive_limit_is_guarded_witness :
  exists info,
    evaluate_budget empty_session budget_zero_limit 50 = Ok (info, 0%Q)
    /\ (info_percentage_used info == 0)%Q
    /\ info_status info = status_of 0 (Budget.alert_threshold budget_zero_limit)
    /\ info_status info <> over_budget.
Proof.
  apply (nonpositive_limit_is_guarded empty_session budget_zero_limit 50).
  simpl. unfold Qle. simpl. lia.
Defined.

(** ** Balance effects of an edit *)

Lemma find_replace_first {A : Type} (p q : A -> bool) (x a : A) (l : list A) :
  find p l = Some a ->
  (forall y, q y = p y) ->
  p x = true ->
  find p (replace_first q x l) = Some x.
Proof.
  intros F Hq Hx. induction l as [|y l IH]; simpl in *.
  - discriminate.
  - rewrite Hq. destruct (p y) eqn:E.
    + simpl. rewrite Hx. reflexivity.
    + simpl. rewrite E. apply IH. exact F.
Qed.

Lemma find_account_id (db : Session) (aid : Z) (a : Account.t) :
  find_account db aid = Some a -> Account.id a = aid.
Proof.
  intro F. apply find_some in F. destruct F as [_ E].
  apply Z.eqb_eq in E. exact E.
Qed.

Lemma find_transaction_id (db : Session) (tid : Z) (t : Transaction.t) :
  find_transaction db tid = Some t -> Transaction.id t = tid.
Proof.
  intro F. apply find_some in F. destruct F as [_ E].
  apply Z.eqb_eq in E. exact E.
Qed.

Lemma find_account_stored (db : Session) (aid : Z) (a a' : Account.t) :
  find_account db aid = Some a ->
  Account.id a' = aid ->
  find_account (store_account db (Some a')) aid = Some a'.
Proof.
  intros F E. unfold find_account, store_account. simpl.
  apply find_replace_first with (a := a).
  - exact F.
  - intro y. rewrite E. reflexivity.
  - rewrite E. apply Z.eqb_refl.
Qed.

Lemma find_transaction_stored (db : Session) (tid : Z) (t t' : Transaction.t) :
  find_transaction db tid = Some t ->
  Transaction.id t' = tid ->
  find_transaction (store_transaction db t') tid = Some t'.
Proof.
  intros F E. unfold find_transaction, store_transaction. simpl.
  apply find_replace_first with (a := t).
  - exact F.
  - intro y. rewrite E. reflexivity.
  - rewrite E. apply Z.eqb_refl.
Qed.



Example edit_expense_100_to_income_150 :
  result_map (fun db' => balance_of db' 7)
             (update_transaction ledger_one_expense 1 to_income_150)
  = Ok (Some (1000 + 100 + 150)%Q).
Proof. reflexivity. Qed.

(** ** Text normalisation *)

Lemma isspace_lower_char (c : ascii) :
  PyStr.isspace (PyStr.lower_char c) = PyStr.isspace c.
Proof.
  destruct c as [[] [] [] [] [] [] [] []]; reflexivity.
Qed.

Lemma is_blank_lower (s : string) :
  PyStr.is_blank (PyStr.lower s) = PyStr.is_blank s.
Proof.
  induction s as [|c s IH]; simpl.
  - reflexivity.
  - rewrite isspace_lower_char, IH. reflexivity.
Qed.

Lemma is_blank_append (a b : string) :
  PyStr.is_blank (a ++ b) = PyStr.is_blank a && PyStr.is_blank b.
Proof.
  induction a as [|c a IH]; simpl.
  - reflexivity.
  - rewrite IH. apply andb_assoc.
Qed.

Lemma lstrip_blank (s : string) :
  PyStr.is_blank s = true -> PyStr.lstrip s = EmptyString.
Proof.
  induction s as [|c s IH]; simpl; intro H.
  - reflexivity.
  - apply andb_true_iff in H. destruct H as [Hc Hs].
    rewrite Hc. apply IH. exact Hs.
Qed.

Lemma strip_blank (s : string) :
  PyStr.is_blank s = true -> PyStr.strip s = EmptyString.
Proof.
  intro H. unfold PyStr.strip. rewrite (lstrip_blank s H). reflexivity.
Qed.

Lemma text_to_analyze_blank (merchant description : option string) :
  PyStr.is_blank (PyStr.or_empty merchant) = true ->
  PyStr.is_blank (PyStr.or_empty description) = true ->
  text_to_analyze merchant description = EmptyString.
Proof.
  intros Hm Hd. unfold text_to_analyze. apply strip_blank.
  rewrite is_blank_lower, !is_blank_append, Hm, Hd. reflexivity.
Qed.

(** ** Classification *)

(** C9: when merchant and description are each absent, empty or made of
    whitespace only, classification returns no category and leaves the
    database as it was, for every rule table, amount and session. *)
Theorem blank_text_is_never_classified
    (rules : RuleTable) (merchant description : option string) (amount : Q)
    (db : option Session) :
  PyStr.is_blank (PyStr.or_empty merchant) = true ->
  PyStr.is_blank (PyStr.or_empty description) = true ->
  categorize_transaction rules merchant description amount db = Ok (None, db).
Proof.
  intros Hm Hd. unfold categorize_transaction.
  rewrite (text_to_analyze_blank merchant description Hm Hd). simpl.
  destruct (negb (PyStr.truthy_opt merchant)
            && negb (PyStr.truthy_opt description)); reflexivity.
Qed.

Lemma blank_text_is_never_classified_witness :
  categorize_transaction default_rules (Some "   ") None 100
    (Some empty_session)
  = Ok (None, Some empty_session).
Proof.
  apply (blank_text_is_never_classified default_rules (Some "   ") None 100
           (Some empty_session)); reflexivity.
Defined.

Example classify_empty_strings :
  categorize_transaction default_rules (Some "") (Some "") 100
    (Some empty_session)
  = Ok (None, Some empty_session).
Proof. reflexivity. Qed.

Lemma categorize_loop_skip (text : string) (pre rest : RuleTable)
    (db : option Session) :
  Forall (fun kr => passed_over text (snd kr)) pre ->
  categorize_loop text (pre ++ rest)%list db = categorize_loop text rest db.
Proof.
  induction 1 as [|[k r] pre [H|[H1 H2]] _ IH]; simpl in *.
  - reflexivity.
  - rewrite H. simpl. exact IH.
  - rewrite H1. simpl. rewrite H2. exact IH.
Qed.

Lemma find_app_none {A : Type} (p : A -> bool) (l1 l2 : list A) :
  find p l1 = None -> find p (l1 ++ l2) = find p l2.
Proof.
  induction l1 as [|x l1 IH]; simpl; intro H.
  - reflexivity.
  - destruct (p x); [discriminate|]. apply IH. exact H.
Qed.

Lemma category_by_name_name (n : string) (s : Session) (c : Category.t) :
  category_by_name n s = Some c -> Category.name c = n.
Proof.
  intro F. apply find_some in F. destruct F as [_ E].
  apply String.eqb_eq in E. exact E.
Qed.

Lemma get_or_create_returns (n : string) (s : Session) :
  exists c s',
    _get_or_create_category n (Some s) = (Some c, Some s')
    /\ Category.name c = n
    /\ category_by_name n s' = Some c.
Proof.
  unfold _get_or_create_category.
  destruct (category_by_name n s) as [c|] eqn:F.
  - exists c, s. split; [reflexivity|]. split; [|exact F].
    exact (category_by_name_name _ _ F).
  - eexists. eexists. split; [reflexivity|]. split; [reflexivity|].
    unfold category_by_name, insert_category in *. simpl.
    rewrite (find_app_none _ _ _ F). simpl. rewrite String.eqb_refl. reflexivity.
Qed.

Lemma text_nonempty_guard (merchant description : option string) :
  text_to_analyze merchant description <> EmptyString ->
  negb (PyStr.truthy_opt merchant) && negb (PyStr.truthy_opt description)
  = false.
Proof.
  intro H.
  destruct merchant as [[|a m]|]; destruct description as [[|b d]|];
    try reflexivity; exfalso; apply H; reflexivity.
Qed.

(** C2, the claim as stated fails in two ways.  The first rule that matches
    "grab" names no category: the loop goes on, and the id returned is that
    of the category of the second rule.  And a rule before the first match
    whose keywords do not match and whose pattern does not compile makes
    the classification raise instead of returning the category of the
    rule that matches. *)
Lemma later_rule_category_returned :
  (_matches_rule (text_to_analyze (Some "Grab") None)
                 (mkRule ["grab"] [] None None) = Ok true
   /\ categorize_transaction rules_unnamed_first (Some "Grab") None 10
        (Some empty_session)
      = Ok (Some 1%Z,
            Some (mkSession []
                    [Category.mk 1 "Transportation" None None None true]
                    [] [])))
  /\ (_matches_rule (text_to_analyze (Some "Grab") None)
                    (mkRule ["grab"; "taxi"] [] (Some "Transportation") None)
      = Ok true
      /\ categorize_transaction rules_broken_first (Some "Grab") None 10
           (Some empty_session)
         = Raise ReError).
Proof. repeat split. Qed.

(** Every rule is passed over, or matches and names a category, or cannot
    be evaluated. *)
Lemma rule_outcome (text : string) (rule : Rule) :
  passed_over text rule
  \/ (exists n, _matches_rule text rule = Ok true
                /\ category_name rule = Some n /\ n <> EmptyString)
  \/ (exists e, _matches_rule text rule = Raise e).
Proof.
  unfold passed_over.
  destruct (_matches_rule text rule) as [[|]|e].
  - destruct (category_name rule) as [[|c n]|].
    + left. right. split; reflexivity.
    + right. left. eexists. split; [reflexivity|].
      split; [reflexivity|discriminate].
    + left. right. split; reflexivity.
  - left. left. reflexivity.
  - right. right. exists e. reflexivity.
Qed.

(** Every table is passed over as a whole, or has a first rule that is
    not. *)
Lemma first_decisive_rule (text : string) (rules : RuleTable) :
  Forall (fun kr => passed_over text (snd kr)) rules
  \/ exists pre key rule post,
       rules = (pre ++ (key, rule) :: post)%list
       /\ Forall (fun kr => passed_over text (snd kr)) pre
       /\ ((exists n, _matches_rule text rule = Ok true
                      /\ category_name rule = Some n /\ n <> EmptyString)
           \/ (exists e, _matches_rule text rule = Raise e)).
Proof.
  induction rules as [|[key rule] rules IH].
  - left. constructor.
  - destruct (rule_outcome text rule) as [P|D].
    + destruct IH as [A|(pre & k & r & post & E & Hp & D)].
      * left. constructor; assumption.
      * right. exists ((key, rule) :: pre), k, r, post.
        split; [rewrite E; reflexivity|].
        split; [constructor; assumption|exact D].
    + right. exists [], key, rule, rules.
      split; [reflexivity|]. split; [constructor|exact D].
Qed.

(** C2, amended: given a database session and a non-empty classification
    text, the rules are consulted in table order, and a rule that does not
    match the text, or that matches it but has no category name or an empty
    one, is passed over.  The first rule that is not passed over decides:
    when it matches, the classification returns the id of the category
    resolved from its category name, and no later rule is consulted; when
    evaluating it raises [re.error], because none of its keywords matches
    and a pattern reached does not compile, the classification raises
    [re.error].  When every rule is passed over, no category is returned.
    Every rule table is of one of these kinds, or its first rule that is
    not passed over has a pattern the model does not interpret. *)
Theorem first_named_match_wins
    (rules : RuleTable) (merchant description : option string) (amount : Q)
    (s : Session) :
  text_to_analyze merchant description <> EmptyString ->
  let text := text_to_analyze merchant description in
  let result :=
    categorize_transaction rules merchant description amount (Some s) in
  (forall pre key rule post,
      rules = (pre ++ (key, rule) :: post)%list ->
      Forall (fun kr => passed_over text (snd kr)) pre ->
      (forall n,
          _matches_rule text rule = Ok true ->
          category_name rule = Some n ->
          n <> EmptyString ->
          exists c s',
            _get_or_create_category n (Some s) = (Some c, Some s')
            /\ Category.name c = n
            /\ result = Ok (Some (Category.id c), Some s'))
      /\ (_matches_rule text rule = Raise ReError ->
          result = Raise ReError))
  /\ (Forall (fun kr => passed_over text (snd kr)) rules ->
      result = Ok (None, Some s))
  /\ (Forall (fun kr => passed_over text (snd kr)) rules
      \/ exists pre key rule post,
           rules = (pre ++ (key, rule) :: post)%list
           /\ Forall (fun kr => passed_over text (snd kr)) pre
           /\ ((exists n, _matches_rule text rule = Ok true
                          /\ category_name rule = Some n
                          /\ n <> EmptyString)
               \/ (exists e, _matches_rule text rule = Raise e))).
Proof.
  intros Ht text result.
  assert (L : result = categorize_loop text rules (Some s)).
  { unfold result, categorize_transaction.
    rewrite (text_nonempty_guard _ _ Ht). fold text.
    destruct text as [|t0 ts] eqn:T; [contradiction|]. reflexivity. }
  split; [|split].
  - intros pre key rule post Hr Hpre.
    rewrite L, Hr, (categorize_loop_skip _ _ Hpre).
    cbn [categorize_loop]. split.
    + intros n Hm Hn Hne.
      destruct (get_or_create_returns n s) as (c & s' & G & Nm & _).
      exists c, s'. split; [exact G|]. split; [exact Nm|].
      rewrite Hm. cbn [bind]. rewrite Hn.
      destruct n as [|n0 n']; [contradiction|].
      cbn [PyStr.truthy_opt PyStr.truthy PyStr.or_empty].
      rewrite G. reflexivity.
    + intro He. rewrite He. reflexivity.
  - intro Hall. rewrite L.
    rewrite <- (app_nil_r rules), (categorize_loop_skip _ _ Hall).
    reflexivity.
  - apply first_decisive_rule.
Qed.

Lemma first_named_match_wins_witness :
  exists c s',
    _get_or_create_category "Transportation" (Some empty_session)
    = (Some c, Some s')
    /\ Category.name c = "Transportation"
    /\ categorize_transaction rules_unnamed_first (Some "Grab") None 10
         (Some empty_session)
       = Ok (Some (Category.id c), Some s').
Proof.
  assert (Ht : text_to_analyze (Some "Grab") None <> EmptyString)
    by discriminate.
  destruct (@first_named_match_wins rules_unnamed_first (Some "Grab") None 10
              empty_session Ht) as [First _].
  destruct (First [("ride_hailing", mkRule ["grab"] [] None None)]
              "transportation"
              (mkRule ["grab"; "taxi"] [] (Some "Transportation") None) [])
    as [Named _].
  - reflexivity.
  - constructor; [right; split; reflexivity|constructor].
  - apply (Named "Transportation"); [reflexivity|reflexivity|discriminate].
Defined.

(** C5, evaluated: the pattern is lower-cased before it is compiled, so the
    class escape [\D] (any non-digit) is searched as [\d] (a digit) and
    [\S] as [\s].  The patterns as configured find a match in the text; the
    rules do not match. *)
Lemma lowercased_pattern_changes_class :
  Re.search "\D" "abc" = Ok true
  /\ _matches_rule "abc" non_digit_rule = Ok false
  /\ Re.search "uber\S" "uber-trip" = Ok true
  /\ _matches_rule "uber-trip" non_space_rule = Ok false.
Proof. repeat split; reflexivity. Qed.

(** ** Category get-or-create *)

Local Open Scope list_scope.

Lemma find_none_filter {A : Type} (p : A -> bool) (l : list A) :
  find p l = None -> filter p l = [].
Proof.
  induction l as [|x l IH]; simpl; intro H.
  - reflexivity.
  - destruct (p x); [discriminate|]. apply IH. exact H.
Qed.

Lemma find_some_filter {A : Type} (p : A -> bool) (l : list A) (a : A) :
  find p l = Some a -> (1 <= List.length (filter p l))%nat.
Proof.
  induction l as [|x l IH]; simpl; intro H.
  - discriminate.
  - destruct (p x); simpl; [lia|]. apply IH. exact H.
Qed.

(** C6: two calls in sequence with the same name return the same category,
    hence the same id; the second call finds the row and leaves the table
    as the first call left it; afterwards exactly one row carries the name,
    provided at most one did before. *)
Theorem get_or_create_twice (n : string) (s : Session) :
  (rows_named n s <= 1)%nat ->
  exists c1 s1 c2 s2,
    _get_or_create_category n (Some s) = (Some c1, Some s1)
    /\ _get_or_create_category n (Some s1) = (Some c2, Some s2)
    /\ Category.id c1 = Category.id c2
    /\ Category.name c1 = n
    /\ s2 = s1
    /\ rows_named n s2 = 1%nat.
Proof.
  intro Hle.
  destruct (get_or_create_returns n s) as (c1 & s1 & G1 & Nm & F1).
  exists c1, s1, c1, s1.
  split; [exact G1|].
  split; [unfold _get_or_create_category; rewrite F1; reflexivity|].
  split; [reflexivity|]. split; [exact Nm|]. split; [reflexivity|].
  unfold _get_or_create_category in G1.
  destruct (category_by_name n s) as [c|] eqn:F.
  - inversion G1; subst c1 s1.
    pose proof (find_some_filter _ _ F) as Hge.
    unfold rows_named in *. lia.
  - inversion G1; subst c1 s1.
    unfold rows_named, insert_category. simpl.
    rewrite filter_app, (find_none_filter _ _ F). simpl.
    rewrite String.eqb_refl. reflexivity.
Qed.

Lemma get_or_create_twice_witness :
  exists c1 s1 c2 s2,
    _get_or_create_category "Salary" (Some session_with_food)
    = (Some c1, Some s1)
    /\ _get_or_create_category "Salary" (Some s1) = (Some c2, Some s2)
    /\ Category.id c1 = Category.id c2
    /\ Category.name c1 = "Salary"
    /\ s2 = s1
    /\ rows_named "Salary" s2 = 1%nat.
Proof.
  apply (get_or_create_twice "Salary" session_with_food).
  vm_compute. lia.
Defined.

Example get_or_create_fresh_id :
  fst (_get_or_create_category "Salary" (Some session_with_food))
  = Some (Category.mk 5 "Salary" None None None true).
Proof. reflexivity. Qed.

(** ** The rule store *)

Lemma dict_set_new {V : Type} (key : string) (v : V) (d : list (string * V)) :
  Dict.mem key d = false -> Dict.set key v d = d ++ [(key, v)].
Proof.
  induction d as [|[k w] d IH]; simpl; intro H.
  - reflexivity.
  - apply orb_false_iff in H. destruct H as [Hk Hd].
    rewrite Hk, (IH Hd). reflexivity.
Qed.

Lemma dict_mem_last {V : Type} (key : string) (v : V) (d : list (string * V)) :
  Dict.mem key (d ++ [(key, v)]) = true.
Proof.
  unfold Dict.mem. rewrite existsb_app. simpl.
  rewrite String.eqb_refl. apply orb_true_iff. right. reflexivity.
Qed.

Lemma dict_del_last {V : Type} (key : string) (v : V) (d : list (string * V)) :
  Dict.mem key d = false -> Dict.del key (d ++ [(key, v)]) = d.
Proof.
  induction d as [|[k w] d IH]; simpl; intro H.
  - rewrite String.eqb_refl. reflexivity.
  - apply orb_false_iff in H. destruct H as [Hk Hd].
    rewrite Hk, (IH Hd). reflexivity.
Qed.

Lemma insert_sorted_perm {V : Type} (kv : string * V) (d : list (string * V)) :
  Permutation (Dict.insert_sorted kv d) (kv :: d).
Proof.
  induction d as [|kw d IH]; simpl.
  - apply Permutation_refl.
  - destruct (String.leb (fst kv) (fst kw)).
    + apply Permutation_refl.
    + apply perm_trans with (kw :: kv :: d).
      * apply perm_skip. exact IH.
      * apply perm_swap.
Qed.

Lemma sorted_items_perm {V : Type} (d : list (string * V)) :
  Permutation (Dict.sorted_items d) d.
Proof.
  induction d as [|kv d IH]; simpl.
  - apply perm_nil.
  - apply perm_trans with (kv :: Dict.sorted_items d).
    + apply insert_sorted_perm.
    + apply perm_skip. exact IH.
Qed.

(** C7, the claim as stated fails for the backing file.  A file that lists
    the two rules in another order than their names is rewritten in name
    order: the table is back, the file is not the file it was.  And when
    the file cannot be opened for the save of the delete, the failure is
    swallowed: the table is back, the file still holds the added rule, so
    it does not hold the rule set it held before the add. *)
Lemma add_then_delete_changes_file :
  let self := mkCategorizer two_rules (Doc two_rules) in
  let coffee := mkRule ["kopi"] [] (Some "Food & Dining") None in
  let added := add_custom_rule self Saved "coffee" ["kopi"] [] "Food & Dining" in
  (rules (delete_rule added Saved "coffee") = rules self
   /\ rules_file (delete_rule added Saved "coffee") <> rules_file self)
  /\ (rules (delete_rule added NotOpened "coffee") = rules self
      /\ rules_file (delete_rule added NotOpened "coffee")
         = yaml_dump (two_rules ++ [("coffee", coffee)])
      /\ ~ agrees (delete_rule added NotOpened "coffee")).
Proof.
  cbv zeta. split; [split; [reflexivity|discriminate]|].
  split; [reflexivity|]. split; [reflexivity|].
  intros [items [E P]]. vm_compute in E. inversion E; subst items.
  apply Permutation_length in P. discriminate P.
Qed.

(** C7, amended: for a name that is not in the table, adding a rule under
    that name and deleting it again gives back the in-memory table exactly,
    order included, whatever the saves do; in between the table lists the
    new rule last.  The file follows only as far as the saves go.  When the
    save of the delete succeeds the file holds the dump of the original
    table, which lists the rules by name: a file that held that rule set
    before the add holds the same rule set afterwards, and a store whose
    file was the dump of its table is restored as a whole.  When the file
    cannot be opened for the save of the delete, it stays as the add left
    it. *)
Theorem add_then_delete_restores
    (self : AutoCategorizer) (ok1 ok2 : SaveOutcome) (rule_name : string)
    (kws pats : list string) (cat_name : string) :
  Dict.mem rule_name (rules self) = false ->
  let added := add_custom_rule self ok1 rule_name kws pats cat_name in
  let after := delete_rule added ok2 rule_name in
  get_all_rules added
  = rules self ++ [(rule_name, mkRule kws pats (Some cat_name) None)]
  /\ get_all_rules after = rules self
  /\ (ok2 = Saved ->
      rules_file after = yaml_dump (rules self)
      /\ (forall items,
            rules_file self = Doc items -> Permutation items (rules self) ->
            exists items',
              rules_file after = Doc items' /\ Permutation items' items)
      /\ (in_sync self -> after = self))
  /\ (ok2 = NotOpened -> rules_file after = rules_file added)
  /\ (ok1 = Saved -> rules_file added = yaml_dump (rules added)).
Proof.
  intros Hn added after.
  assert (Ea : rules added
               = rules self
                 ++ [(rule_name, mkRule kws pats (Some cat_name) None)]).
  { unfold added, add_custom_rule. simpl. apply dict_set_new. exact Hn. }
  assert (Ef : after
               = mkCategorizer (rules self)
                   (save_rules ok2 (rules self) (rules_file added))).
  { unfold after, delete_rule. rewrite Ea, dict_mem_last.
    rewrite (dict_del_last _ _ _ Hn). reflexivity. }
  split; [exact Ea|].
  rewrite Ef. cbn [get_all_rules rules rules_file].
  split; [reflexivity|]. split; [|split].
  - intro H2. subst ok2. cbn [save_rules].
    split; [reflexivity|]. split.
    + intros items _ Hp. eexists. split; [reflexivity|].
      apply perm_trans with (rules self).
      * apply sorted_items_perm.
      * apply Permutation_sym. exact Hp.
    + intro Hs. unfold in_sync in Hs. destruct self as [rs f]. simpl in *.
      rewrite Hs. reflexivity.
  - intro H2. subst ok2. reflexivity.
  - intro H1. subst ok1. reflexivity.
Qed.

Lemma add_then_delete_restores_witness :
  let self := mkCategorizer two_rules (yaml_dump two_rules) in
  let added := add_custom_rule self Saved "coffee" ["kopi"] [] "Food & Dining" in
  let after := delete_rule added Saved "coffee" in
  get_all_rules added
  = rules self ++ [("coffee", mkRule ["kopi"] [] (Some "Food & Dining") None)]
  /\ get_all_rules after = rules self
  /\ after = self.
Proof.
  destruct (@add_then_delete_restores
              (mkCategorizer two_rules (yaml_dump two_rules))
              Saved Saved "coffee" ["kopi"] [] "Food & Dining")
    as (A & B & C & _).
  - reflexivity.
  - cbv zeta. split; [exact A|]. split; [exact B|].
    destruct (C eq_refl) as (_ & _ & S). apply S. reflexivity.
Defined.

(** A save that is interrupted after the file was opened leaves what had
    reached the file, here nothing: the table is restored, the file is
    empty, and the next start falls back to the built-in rules. *)
Example interrupted_second_save :
  let self := mkCategorizer two_rules (yaml_dump two_rules) in
  let after :=
    delete_rule
      (add_custom_rule self Saved "coffee" ["kopi"] [] "Food & Dining")
      (Interrupted (Doc [])) "coffee" in
  rules after = two_rules
  /\ rules_file after = Doc []
  /\ exists c, _load_rules (rules_file after) true = Ok c
               /\ rules c = default_rules.
Proof.
  cbv zeta. split; [reflexivity|]. split; [reflexivity|].
  eexists. split; reflexivity.
Qed.

(** ** Spend aggregation *)

Lemma month_range_representable (mstr : string) (y m : Z) :
  parse_month mstr = Ok (y, m) ->
  representable y m = true ->
  month_range mstr = Ok (month_start (y, m), month_start (next_month y m)).
Proof.
  intros P R. unfold month_range. rewrite P. cbn [bind].
  unfold representable, is_calendar_month in R.
  repeat (apply andb_true_iff in R; destruct R as [R ?]).
  apply negb_true_iff in H.
  unfold first_of_month, next_month, MINYEAR, MAXYEAR, month_start.
  rewrite R, H2, H1, H0. cbn [andb bind].
  destruct (m =? 12)%Z eqn:E.
  - rewrite andb_true_r in H. apply Z.eqb_neq in H.
    apply Z.leb_le in R, H2.
    replace (1 <=? y + 1)%Z with true by (symmetry; apply Z.leb_le; lia).
    replace (y + 1 <=? 9999)%Z with true by (symmetry; apply Z.leb_le; lia).
    reflexivity.
  - apply Z.eqb_neq in E. apply Z.leb_le in H1, H0.
    replace (1 <=? m + 1)%Z with true by (symmetry; apply Z.leb_le; lia).
    replace (m + 1 <=? 12)%Z with true by (symmetry; apply Z.leb_le; lia).
    reflexivity.
Qed.

Lemma month_range_no_month (mstr : string) (y m : Z) :
  parse_month mstr = Ok (y, m) ->
  is_calendar_month y m = false ->
  month_range mstr = Raise ValueError.
Proof.
  intros P R. unfold month_range. rewrite P. cbn [bind].
  unfold first_of_month, MINYEAR, MAXYEAR.
  unfold is_calendar_month in R. rewrite R. reflexivity.
Qed.

Lemma fold_left_Qplus (xs : list Q) (a : Q) :
  (fold_left Qplus xs a == a + fold_right Qplus 0 xs)%Q.
Proof.
  revert a. induction xs as [|x xs IH]; intro a; simpl.
  - ring.
  - rewrite IH. ring.
Qed.

Lemma filter_all_false {A : Type} (p : A -> bool) (l : list A) :
  (forall x, In x l -> p x = false) -> filter p l = [].
Proof.
  induction l as [|x l IH]; simpl; intro H.
  - reflexivity.
  - rewrite (H x (or_introl eq_refl)). apply IH.
    intros z Hz. apply H. right. exact Hz.
Qed.

Lemma digit_not_dash (c : ascii) :
  Re.is_digit c = true -> Ascii.eqb c "-" = false.
Proof.
  destruct c as [[] [] [] [] [] [] [] []]; intro H;
    try reflexivity; discriminate H.
Qed.

(** No row of a ledger passes the filter of the spending query: the name
    a row stores is never the string ["expense"]. *)
Lemma spending_row_never (category_id : Z) (start_date end_date : datetime)
    (tx : Transaction.t) :
  spending_row category_id start_date end_date tx = false.
Proof.
  unfold spending_row, type_column_equals.
  destruct (Transaction.transaction_type tx); cbn [type_name String.eqb];
    rewrite andb_false_r; reflexivity.
Qed.

Lemma calculate_current_spending_zero (db : Session) (category_id : Z)
    (month : string) :
  _calculate_current_spending db category_id month = 0%Q.
Proof.
  unfold _calculate_current_spending.
  destruct (month_range month) as [[start_date end_date]|e]; [|reflexivity].
  rewrite (filter_all_false _ _
             (fun tx _ => spending_row_never category_id start_date end_date
                            tx)).
  reflexivity.
Qed.

(** C3: the aggregation does not return the expenses of the month.  The
    query compares the type column with the string ["expense"], while the
    column stores the member name ["EXPENSE"]; no row is selected, the sum
    over no rows is [None], and [spending or 0.0] is 0.  So the function
    returns 0 for every ledger, category and month string.  On the ledger
    [ledger_feb_2024], category 1 has the expenses 30 and 12 stamped in
    February 2024 (and one of 500 at the first instant of March, one
    income, and one expense of another category): the total the month
    holds is 42, the function returns 0. *)
Theorem stored_expenses_are_not_aggregated :
  (forall db category_id month,
      _calculate_current_spending db category_id month = 0%Q)
  /\ (monthly_expense_total ledger_feb_2024 1 2024 2 == 42)%Q
  /\ _calculate_current_spending ledger_feb_2024 1 "2024-02" = 0%Q
  /\ ~ (_calculate_current_spending ledger_feb_2024 1 "2024-02"
        == monthly_expense_total ledger_feb_2024 1 2024 2)%Q.
Proof.
  split; [exact calculate_current_spending_zero|].
  split; [vm_compute; reflexivity|].
  split; [apply calculate_current_spending_zero|].
  rewrite calculate_current_spending_zero. vm_compute. discriminate.
Qed.

(** The handlers' test on a loaded row and the query's test on the stored
    column disagree on every expense. *)
Example value_test_and_column_test :
  is_expense EXPENSE = true
  /\ type_column_equals "expense" EXPENSE = false
  /\ type_column_equals "EXPENSE" EXPENSE = true.
Proof. repeat split. Qed.

(** ** The budget response model *)






(** The validator turns a row of limit 200 that carries a spend of 42 into
    [amount_spent] 21.  Through the endpoint the same budget is served with
    [amount_spent] 0: the spend is refreshed first, to the 0 that the
    aggregation returns. *)
Example budget_200_served_as_percentage :
  (exists o,
      schemas.validate_Budget (set_amount_spent budget_200 42)
        (Some (Category.mk 1 "Food & Dining" None None None true)) = Ok o
      /\ (schemas.amount_spent o == 21)%Q)
  /\ get_budgets_response ledger_with_budget (Some "2024-02") None true
     = Ok [served_budget_200]
  /\ (schemas.amount_spent served_budget_200 == 0)%Q
  /\ _calculate_current_spending ledger_with_budget 1 "2024-02" = 0%Q.
Proof.
  split; [eexists; split; [vm_compute; reflexivity|vm_compute; reflexivity]|].
  vm_compute. repeat split.
Qed.

(** ** The model evaluated on concrete inputs *)

Example re_grab_food : Re.search "grab.*food" "order grabfood 12" = Ok true.
Proof. reflexivity. Qed.

Example re_no_digit : Re.search "\d" "abc" = Ok false.
Proof. reflexivity. Qed.

Example re_non_digit : Re.search "\D" "abc" = Ok true.
Proof. reflexivity. Qed.

Example re_group_unsupported :
  Re.search "(a)" "a" = Raise NotInterpreted
  /\ Re.search "*abc" "abc" = Raise ReError.
Proof. split; reflexivity. Qed.

Example strip_ex : PyStr.strip "  Ab c  " = "Ab c".
Proof. reflexivity. Qed.

Example lower_ex : PyStr.lower "GrabFood 12" = "grabfood 12".
Proof. reflexivity. Qed.

Example categorize_default_uber :
  categorize_transaction default_rules (Some "Uber") (Some "Trip home") 25
    (Some empty_session)
  = Ok (Some 1%Z,
        Some (mkSession [] [Category.mk 1 "Transportation" None None None true]
                        [] [])).
Proof. vm_compute. reflexivity. Qed.

Example categorize_default_pharmacy :
  categorize_transaction default_rules None (Some "City Pharmacy") 25
    (Some empty_session)
  = Ok (Some 1%Z,
        Some (mkSession [] [Category.mk 1 "Healthcare" None None None true]
                        [] [])).
Proof. vm_compute. reflexivity. Qed.

Example default_dump_order :
  match yaml_dump default_rules with
  | Doc items => map fst items
  | _ => []
  end
  = ["education"; "entertainment"; "food_and_dining"; "healthcare";
     "income_investment"; "income_salary"; "shopping"; "transportation";
     "utilities"].
Proof. vm_compute. reflexivity. Qed.

Example status_near_limit :
  status_of 80 (8 # 10) = near_limit.
Proof. reflexivity. Qed.

Example round_ties_to_even :
  (py_round (5 # 2) 0 == 2)%Q /\ (py_round (7 # 2) 0 == 4)%Q
  /\ (py_round (1 # 3) 2 == 33 # 100)%Q.
Proof. vm_compute. repeat split. Qed.

Example parse_month_ex : parse_month "2024-02" = Ok (2024%Z, 2%Z).
Proof. reflexivity. Qed.

Example month_range_december :
  month_range "2024-12"
  = Ok (mkDatetime 2024 12 1 0 0 0 0, mkDatetime 2025 1 1 0 0 0 0).
Proof. reflexivity. Qed.

Example month_range_last : month_range "9999-12" = Raise ValueError.
Proof. reflexivity. Qed.

(** ** The status endpoint never raises *)

Lemma evaluate_budget_total (db : Session) (b : Budget.t) (spend : Q) :
  exists e, evaluate_budget db b spend = Ok e.
Proof.
  unfold evaluate_budget.
  destruct (percentage_used_total spend (Budget.amount_limit b)) as [p E].
  rewrite E. cbn [bind]. eexists. reflexivity.
Qed.

Lemma status_loop_total (db : Session) (bs : list Budget.t) (acc : StatusReport) :
  exists r, status_loop db bs acc = Ok r.
Proof.
  revert acc. induction bs as [|b bs IH]; intro acc; cbn [status_loop].
  - eexists. reflexivity.
  - destruct (evaluate_budget_total db b
                (_calculate_current_spending db (Budget.category_id b)
                   (Budget.month b))) as [[info pct] E].
    rewrite E. cbn [bind]. apply IH.
Qed.

Lemma get_current_budget_status_total (db : Session) (current_month : string) :
  exists r, get_current_budget_status db current_month = Ok r.
Proof.
  unfold get_current_budget_status.
  match goal with
  | |- context [status_loop db ?bs ?acc] =>
      destruct (status_loop_total db bs acc) as [r E]; rewrite E
  end.
  cbn [bind]. eexists. reflexivity.
Qed.

(** "Grab car" is claimed by the first rule of the table, whose keyword
    "grab" it contains, although the transportation rule matches as well. *)
Example categorize_grab_car :
  categorize_transaction default_rules (Some "Grab car") None 10
    (Some empty_session)
  = Ok (Some 1%Z,
        Some (mkSession [] [Category.mk 1 "Food & Dining" None None None true]
                        [] []))
  /\ _matches_rule "grab car"
       (mkRule ["grab.*car"; "taxi"] ["grab.*ride"; ".*taxi.*"; "grab.*car"]
               (Some "Transportation") None)
     = Ok true.
Proof. vm_compute. split; reflexivity. Qed.

(** ** Further facts about the matcher and the resolver *)

(** The type hint of a rule plays no part in matching. *)
Lemma matches_rule_ignores_type_hint
    (text : string) (kws pats : list string) (cat : option string)
    (t1 t2 : option string) :
  _matches_rule text (mkRule kws pats cat t1)
  = _matches_rule text (mkRule kws pats cat t2).
Proof. reflexivity. Qed.

(** A keyword whose lower-case form occurs in the text decides the match
    before any pattern is compiled. *)
Lemma matches_rule_keyword (text keyword : string) (rule : Rule) :
  In keyword (keywords rule) ->
  PyStr.contains (PyStr.lower keyword) text = true ->
  _matches_rule text rule = Ok true.
Proof.
  intros Hin Hc. unfold _matches_rule, any_keyword.
  assert (E : existsb
                (fun k => PyStr.contains (PyStr.lower k) text)
                (keywords rule) = true).
  { apply existsb_exists. exists keyword. split; assumption. }
  rewrite E. reflexivity.
Qed.

(** Without a keyword hit the answer is that of the patterns, lower-cased
    and tried in order. *)
Lemma matches_rule_patterns (text : string) (rule : Rule) :
  any_keyword text (keywords rule) = false ->
  _matches_rule text rule = any_pattern text (patterns rule).
Proof.
  intro H. unfold _matches_rule. rewrite H. reflexivity.
Qed.

(** Without a session nothing is looked up or created. *)
Example get_or_create_without_session :
  _get_or_create_category "Salary" None = (None, None)
  /\ categorize_transaction default_rules (Some "Uber") None 10 None
     = Ok (None, None).
Proof. split; reflexivity. Qed.

(** * Further properties of the modelled code *)

(** ** The rule table as a dictionary *)

Lemma dict_mem_In {V : Type} (key : string) (d : list (string * V)) :
  Dict.mem key d = true <-> In key (map fst d).
Proof.
  unfold Dict.mem. rewrite existsb_exists. split.
  - intros [[k v] [Hin E]]. simpl in E. apply String.eqb_eq in E. subst k.
    apply in_map_iff. exists (key, v). split; [reflexivity|exact Hin].
  - intro Hin. apply in_map_iff in Hin. destruct Hin as [[k v] [E Hin]].
    simpl in E. subst k. exists (key, v). split; [exact Hin|].
    simpl. apply String.eqb_refl.
Qed.

Lemma dict_mem_false {V : Type} (key : string) (d : list (string * V)) :
  Dict.mem key d = false <-> ~ In key (map fst d).
Proof.
  rewrite <- dict_mem_In. destruct (Dict.mem key d); split; intro H;
    try reflexivity; try discriminate; try congruence.
Qed.

Lemma dict_set_names_present {V : Type} (key : string) (v : V)
    (d : list (string * V)) :
  Dict.mem key d = true -> map fst (Dict.set key v d) = map fst d.
Proof.
  induction d as [|[k w] d IH]; simpl; intro H.
  - discriminate.
  - destruct (String.eqb k key) eqn:E; simpl.
    + reflexivity.
    + rewrite IH; [reflexivity|exact H].
Qed.

Lemma dict_get_set_same {V : Type} (key : string) (v : V)
    (d : list (string * V)) :
  Dict.get key (Dict.set key v d) = Some v.
Proof.
  unfold Dict.get. induction d as [|[k w] d IH]; simpl.
  - rewrite String.eqb_refl. reflexivity.
  - destruct (String.eqb k key) eqn:E; simpl; rewrite E.
    + reflexivity.
    + exact IH.
Qed.

Lemma dict_get_set_other {V : Type} (key key' : string) (v : V)
    (d : list (string * V)) :
  key' <> key -> Dict.get key' (Dict.set key v d) = Dict.get key' d.
Proof.
  intro Hne. unfold Dict.get. induction d as [|[k w] d IH]; simpl.
  - apply String.eqb_neq in Hne. rewrite String.eqb_sym, Hne. reflexivity.
  - destruct (String.eqb k key) eqn:E; simpl.
    + apply String.eqb_eq in E. subst k.
      apply String.eqb_neq in Hne. rewrite String.eqb_sym, Hne. reflexivity.
    + destruct (String.eqb k key'); [reflexivity|exact IH].
Qed.

Lemma dict_del_names_incl {V : Type} (key x : string) (d : list (string * V)) :
  In x (map fst (Dict.del key d)) -> In x (map fst d).
Proof.
  induction d as [|[k w] d IH]; simpl; intro H.
  - exact H.
  - destruct (String.eqb k key); simpl in *.
    + right. exact H.
    + destruct H as [H|H]; [left; exact H|right; exact (IH H)].
Qed.

Lemma dict_del_NoDup {V : Type} (key : string) (d : list (string * V)) :
  NoDup (map fst d) -> NoDup (map fst (Dict.del key d)).
Proof.
  induction d as [|[k w] d IH]; simpl; intro H.
  - exact H.
  - inversion H as [|? ? Hnin Hnd]; subst.
    destruct (String.eqb k key); simpl.
    + exact Hnd.
    + constructor; [|exact (IH Hnd)].
      intro Hin. apply Hnin. exact (dict_del_names_incl _ _ _ Hin).
Qed.

Lemma dict_del_absent {V : Type} (key : string) (d : list (string * V)) :
  NoDup (map fst d) -> Dict.mem key (Dict.del key d) = false.
Proof.
  induction d as [|[k w] d IH]; simpl; intro H.
  - reflexivity.
  - inversion H as [|? ? Hnin Hnd]; subst.
    destruct (String.eqb k key) eqn:E; simpl.
    + apply String.eqb_eq in E. subst k.
      apply dict_mem_false. exact Hnin.
    + rewrite E. simpl. exact (IH Hnd).
Qed.

Lemma dict_get_del_other {V : Type} (key key' : string) (d : list (string * V)) :
  key' <> key -> Dict.get key' (Dict.del key d) = Dict.get key' d.
Proof.
  intro Hne. unfold Dict.get. induction d as [|[k w] d IH]; simpl.
  - reflexivity.
  - destruct (String.eqb k key) eqn:E; simpl.
    + apply String.eqb_eq in E. subst k.
      apply String.eqb_neq in Hne. rewrite String.eqb_sym, Hne. reflexivity.
    + destruct (String.eqb k key'); [reflexivity|exact IH].
Qed.

Lemma dict_get_none {V : Type} (key : string) (d : list (string * V)) :
  Dict.mem key d = false -> Dict.get key d = None.
Proof.
  unfold Dict.get, Dict.mem. induction d as [|[k w] d IH]; simpl; intro H.
  - reflexivity.
  - apply orb_false_iff in H. destruct H as [Hk Hd].
    rewrite Hk. exact (IH Hd).
Qed.

Lemma dict_get_some_mem {V : Type} (key : string) (d : list (string * V)) (v : V) :
  Dict.get key d = Some v -> Dict.mem key d = true.
Proof.
  intro H. destruct (Dict.mem key d) eqn:E; [reflexivity|].
  rewrite (dict_get_none _ _ E) in H. discriminate.
Qed.

Lemma dict_set_NoDup {V : Type} (key : string) (v : V) (d : list (string * V)) :
  NoDup (map fst d) -> NoDup (map fst (Dict.set key v d)).
Proof.
  intro H. destruct (Dict.mem key d) eqn:E.
  - rewrite (dict_set_names_present _ v _ E). exact H.
  - rewrite (dict_set_new _ v _ E), map_app. simpl.
    apply NoDup_app_remove_l with (l := []). simpl.
    apply dict_mem_false in E.
    assert (P : Permutation (key :: map fst d) (map fst d ++ [key])).
    { apply Permutation_cons_append. }
    apply (Permutation_NoDup P). constructor; assumption.
Qed.

(** X1: the three mutators keep the rule names of the table unique. *)
Theorem mutators_keep_names_unique
    (self : AutoCategorizer) (ok : SaveOutcome) (rule_name : string)
    (kws pats : list string) (cat_name : string) (u : RuleUpdate) :
  NoDup (rule_names (rules self)) ->
  NoDup (rule_names (rules (add_custom_rule self ok rule_name kws pats cat_name)))
  /\ NoDup (rule_names (rules (update_rule self ok rule_name u)))
  /\ NoDup (rule_names (rules (delete_rule self ok rule_name))).
Proof.
  intro H. unfold rule_names in *. split; [|split].
  - unfold add_custom_rule. simpl. apply dict_set_NoDup. exact H.
  - unfold update_rule. destruct (Dict.get rule_name (rules self)); simpl.
    + apply dict_set_NoDup. exact H.
    + exact H.
  - unfold delete_rule. destruct (Dict.mem rule_name (rules self)); simpl.
    + apply dict_del_NoDup. exact H.
    + exact H.
Qed.

Lemma mutators_keep_names_unique_witness :
  let self := mkCategorizer hinted_rules (yaml_dump hinted_rules) in
  let u := mkRuleUpdate (Some ["gaji"; "thr"]) None None None in
  NoDup (rule_names (rules (add_custom_rule self Saved "income_salary" ["gaji"]
                                            [] "Salary")))
  /\ NoDup (rule_names (rules (update_rule self Saved "income_salary" u)))
  /\ NoDup (rule_names (rules (delete_rule self Saved "income_salary"))).
Proof.
  apply (@mutators_keep_names_unique
           (mkCategorizer hinted_rules (yaml_dump hinted_rules)) Saved
           "income_salary" ["gaji"] [] "Salary"
           (mkRuleUpdate (Some ["gaji"; "thr"]) None None None)).
  simpl. repeat constructor; simpl; intuition discriminate.
Defined.

(** X2: after [add_custom_rule] the name maps to the new rule, which carries
    no type hint, and every other name maps to what it mapped to before.  A
    name that was present keeps its place in the iteration order; a new
    name goes last. *)
Theorem add_custom_rule_lookup
    (self : AutoCategorizer) (ok : SaveOutcome) (rule_name : string)
    (kws pats : list string) (cat_name : string) :
  let added := add_custom_rule self ok rule_name kws pats cat_name in
  Dict.get rule_name (rules added)
  = Some (mkRule kws pats (Some cat_name) None)
  /\ (forall other, other <> rule_name ->
        Dict.get other (rules added) = Dict.get other (rules self))
  /\ rule_names (rules added)
     = if Dict.mem rule_name (rules self)
       then rule_names (rules self)
       else rule_names (rules self) ++ [rule_name].
Proof.
  intro added. unfold added, add_custom_rule, rule_names. simpl.
  split; [apply dict_get_set_same|].
  split; [intros other Hne; apply dict_get_set_other; exact Hne|].
  destruct (Dict.mem rule_name (rules self)) eqn:E.
  - apply dict_set_names_present. exact E.
  - rewrite (dict_set_new _ _ _ E), map_app. reflexivity.
Qed.

(** X3: [update_rule] never changes which names the table has nor their
    order; a name that is not in the table leaves table and file as they
    were, and a name that is in the table has exactly the keys of the
    update replaced, the other rules staying as they were. *)
Theorem update_rule_keeps_order
    (self : AutoCategorizer) (ok : SaveOutcome) (rule_name : string)
    (u : RuleUpdate) :
  let updated := update_rule self ok rule_name u in
  rule_names (rules updated) = rule_names (rules self)
  /\ (Dict.mem rule_name (rules self) = false -> updated = self)
  /\ (forall rule, Dict.get rule_name (rules self) = Some rule ->
        Dict.get rule_name (rules updated) = Some (merge_rule rule u))
  /\ (forall other, other <> rule_name ->
        Dict.get other (rules updated) = Dict.get other (rules self)).
Proof.
  intro updated. unfold updated, update_rule, rule_names.
  destruct (Dict.get rule_name (rules self)) as [rule|] eqn:G; simpl.
  - split; [apply dict_set_names_present; exact (dict_get_some_mem _ _ G)|].
    split; [intro M; rewrite (dict_get_none _ _ M) in G; discriminate|].
    split.
    + intros r Hr. inversion Hr; subst r. apply dict_get_set_same.
    + intros other Hne. apply dict_get_set_other. exact Hne.
  - split; [reflexivity|]. split; [reflexivity|].
    split; [intros r Hr; discriminate Hr|reflexivity].
Qed.

(** X4: with unique rule names, [delete_rule] removes the name (a lookup
    finds nothing, the name is gone from the iteration order), leaves every
    other name mapped as before, and deleting the same name once more
    changes neither the table nor the file, whatever the outcome of the
    saves. *)
Theorem delete_rule_removes
    (self : AutoCategorizer) (ok ok' : SaveOutcome) (rule_name : string) :
  NoDup (rule_names (rules self)) ->
  let deleted := delete_rule self ok rule_name in
  Dict.get rule_name (rules deleted) = None
  /\ ~ In rule_name (rule_names (rules deleted))
  /\ (forall other, other <> rule_name ->
        Dict.get other (rules deleted) = Dict.get other (rules self))
  /\ delete_rule deleted ok' rule_name = deleted.
Proof.
  intros H deleted.
  assert (M : Dict.mem rule_name (rules deleted) = false).
  { unfold deleted, delete_rule.
    destruct (Dict.mem rule_name (rules self)) eqn:E; simpl.
    - apply dict_del_absent. exact H.
    - exact E. }
  split; [apply dict_get_none; exact M|].
  split; [apply dict_mem_false; exact M|].
  split.
  - intros other Hne. unfold deleted, delete_rule.
    destruct (Dict.mem rule_name (rules self)); simpl.
    + apply dict_get_del_other. exact Hne.
    + reflexivity.
  - unfold delete_rule at 1. rewrite M. reflexivity.
Qed.

Lemma delete_rule_removes_witness :
  let self := mkCategorizer hinted_rules (yaml_dump hinted_rules) in
  let deleted := delete_rule self Saved "income_salary" in
  Dict.get "income_salary" (rules deleted) = None
  /\ ~ In "income_salary" (rule_names (rules deleted))
  /\ (forall other, other <> "income_salary" ->
        Dict.get other (rules deleted) = Dict.get other (rules self))
  /\ delete_rule deleted NotOpened "income_salary" = deleted.
Proof.
  apply (@delete_rule_removes
           (mkCategorizer hinted_rules (yaml_dump hinted_rules))
           Saved NotOpened "income_salary").
  simpl. repeat constructor; simpl; intuition discriminate.
Defined.

(** ** Saving and loading the rule table *)

Lemma insert_sorted_Sorted (kv : string * Rule) (d : RuleTable) :
  Sorted name_le d -> Sorted name_le (Dict.insert_sorted kv d).
Proof.
  induction d as [|kw d IH]; simpl; intro H.
  - constructor; constructor.
  - destruct (String.leb (fst kv) (fst kw)) eqn:E.
    + constructor; [exact H|]. constructor. exact E.
    + assert (L : name_le kw kv).
      { destruct (String.leb_total (fst kv) (fst kw)) as [T|T];
          [congruence|exact T]. }
      inversion H as [|? ? Hs Hh]; subst.
      constructor; [exact (IH Hs)|].
      destruct d as [|kx d]; simpl.
      * constructor. exact L.
      * destruct (String.leb (fst kv) (fst kx)).
        -- constructor. exact L.
        -- inversion Hh; subst. constructor. assumption.
Qed.

Lemma sorted_items_Sorted (d : RuleTable) : Sorted name_le (Dict.sorted_items d).
Proof.
  induction d as [|kv d IH]; simpl.
  - constructor.
  - apply insert_sorted_Sorted. exact IH.
Qed.

Lemma sorted_items_fixed (d : RuleTable) :
  Sorted name_le d -> Dict.sorted_items d = d.
Proof.
  induction d as [|kv d IH]; intro H.
  - reflexivity.
  - inversion H as [|? ? Hs Hh]; subst.
    change (Dict.sorted_items (kv :: d))
      with (Dict.insert_sorted kv (Dict.sorted_items d)).
    rewrite (IH Hs).
    destruct d as [|kw d]; simpl.
    + reflexivity.
    + inversion Hh as [|? ? L]; subst. unfold name_le in L. rewrite L.
      reflexivity.
Qed.

Lemma dict_get_cons {V : Type} (key k : string) (v : V) (d : list (string * V)) :
  Dict.get key ((k, v) :: d)
  = if String.eqb k key then Some v else Dict.get key d.
Proof.
  unfold Dict.get. simpl. destruct (String.eqb k key); reflexivity.
Qed.

Lemma dict_get_perm {V : Type} (key : string) (l l' : list (string * V)) :
  Permutation l l' -> NoDup (map fst l) -> Dict.get key l = Dict.get key l'.
Proof.
  induction 1 as [|[k v] l l' P IH|[k v] [k' v'] l|l l' l'' P1 IH1 P2 IH2];
    intro Hn.
  - reflexivity.
  - rewrite !dict_get_cons. simpl in Hn. inversion Hn; subst.
    rewrite IH by assumption. reflexivity.
  - rewrite !dict_get_cons. simpl in Hn.
    destruct (String.eqb k key) eqn:E1; destruct (String.eqb k' key) eqn:E2;
      try reflexivity.
    apply String.eqb_eq in E1, E2. subst k k'.
    inversion Hn as [|? ? Hnin _]; subst. exfalso. apply Hnin. left. reflexivity.
  - rewrite IH1 by exact Hn. apply IH2.
    apply (Permutation_NoDup (Permutation_map fst P1)). exact Hn.
Qed.

(** X5: a table saved and loaded again comes back as the same rule set in
    rule-name order: the store loaded from the dump of a non-empty table
    with unique names holds a permutation of the table sorted by name, every
    name maps to the rule it mapped to, the file is left as it was, and
    table and file are in step.  The insertion order of the table is not
    kept by the file. *)
Theorem reload_is_sorted_rule_set (rs : RuleTable) (ok : bool) :
  rs <> [] ->
  NoDup (rule_names rs) ->
  exists c,
    _load_rules (yaml_dump rs) ok = Ok c
    /\ rules c = Dict.sorted_items rs
    /\ rules_file c = yaml_dump rs
    /\ Permutation (rules c) rs
    /\ Sorted name_le (rules c)
    /\ (forall key, Dict.get key (rules c) = Dict.get key rs)
    /\ in_sync c.
Proof.
  intros Hne Hn.
  assert (P : Permutation (Dict.sorted_items rs) rs) by apply sorted_items_perm.
  destruct (Dict.sorted_items rs) as [|r rs'] eqn:E.
  { apply Permutation_nil in P. contradiction. }
  exists (mkCategorizer (r :: rs') (yaml_dump rs)).
  split; [unfold _load_rules, yaml_dump; rewrite E; reflexivity|].
  split; [reflexivity|]. split; [reflexivity|].
  split; [exact P|].
  assert (S : Sorted name_le (r :: rs')).
  { rewrite <- E. apply sorted_items_Sorted. }
  split; [exact S|].
  split.
  - intro key. symmetry. apply dict_get_perm.
    + apply Permutation_sym. exact P.
    + exact Hn.
  - unfold in_sync. cbn [rules rules_file]. unfold yaml_dump.
    rewrite (sorted_items_fixed S), E. reflexivity.
Qed.

Lemma reload_is_sorted_rule_set_witness :
  exists c,
    _load_rules (yaml_dump default_rules) false = Ok c
    /\ rules c = Dict.sorted_items default_rules
    /\ rules_file c = yaml_dump default_rules
    /\ Permutation (rules c) default_rules
    /\ Sorted name_le (rules c)
    /\ (forall key, Dict.get key (rules c) = Dict.get key default_rules)
    /\ in_sync c.
Proof.
  apply (reload_is_sorted_rule_set (rs := default_rules) false).
  - discriminate.
  - unfold rule_names. simpl.
    repeat (constructor; [simpl; intuition discriminate|]). constructor.
Defined.

(** The built-in table claims "starbucks book" for its first rule; the same
    table loaded back from its own file tries the rules in name order and
    claims it for "education". *)
Example classification_after_reload :
  categorize_transaction default_rules (Some "Starbucks book") None 10
    (Some empty_session)
  = Ok (Some 1%Z,
        Some (mkSession [] [Category.mk 1 "Food & Dining" None None None true]
                        [] []))
  /\ categorize_transaction (Dict.sorted_items default_rules)
       (Some "Starbucks book") None 10 (Some empty_session)
     = Ok (Some 1%Z,
           Some (mkSession [] [Category.mk 1 "Education" None None None true]
                           [] [])).
Proof. vm_compute. split; reflexivity. Qed.

(** X6: for a rules file that is missing, unreadable, empty or a mapping
    of rule entries, a store that [_load_rules] returns has a non-empty
    table and a file holding the same entries; when the file was missing,
    unreadable or an empty document, the table is the built-in one and the
    file has been rewritten with it.  When the directory and the file can
    be written, loading such a file never fails. *)
Theorem load_rules_usable (file : FileState) (ok : bool) (c : AutoCategorizer) :
  _load_rules file ok = Ok c ->
  rules c <> []
  /\ agrees c
  /\ ((forall r rs, file <> Doc (r :: rs)) ->
      rules c = default_rules /\ rules_file c = yaml_dump default_rules)
  /\ (exists c', _load_rules file true = Ok c').
Proof.
  intro L. unfold _load_rules in *.
  assert (D : forall b : bool, (if b then Ok (mkCategorizer default_rules
                                         (yaml_dump default_rules))
                         else Raise OSError) = Ok c ->
              rules c <> [] /\ agrees c
              /\ rules c = default_rules
              /\ rules_file c = yaml_dump default_rules).
  { intros [|] Hb; [|discriminate Hb]. inversion Hb; subst c. simpl.
    split; [discriminate|]. split; [|split; reflexivity].
    eexists. split; [reflexivity|]. apply sorted_items_perm. }
  destruct file as [| |[|r rs]].
  - destruct (D ok L) as (A & B & C1 & C2).
    split; [exact A|]. split; [exact B|]. split; [intros _; split; assumption|].
    eexists. reflexivity.
  - destruct (D ok L) as (A & B & C1 & C2).
    split; [exact A|]. split; [exact B|]. split; [intros _; split; assumption|].
    eexists. reflexivity.
  - destruct (D ok L) as (A & B & C1 & C2).
    split; [exact A|]. split; [exact B|]. split; [intros _; split; assumption|].
    eexists. reflexivity.
  - inversion L; subst c. simpl.
    split; [discriminate|].
    split; [eexists; split; [reflexivity|apply Permutation_refl]|].
    split; [intro H; exfalso; exact (H r rs eq_refl)|].
    eexists. reflexivity.
Qed.

Lemma load_rules_usable_witness :
  let c := mkCategorizer default_rules (yaml_dump default_rules) in
  rules c <> []
  /\ agrees c
  /\ ((forall r rs, Malformed <> Doc (r :: rs)) ->
      rules c = default_rules /\ rules_file c = yaml_dump default_rules)
  /\ (exists c', _load_rules Malformed true = Ok c').
Proof.
  apply (@load_rules_usable Malformed true
           (mkCategorizer default_rules (yaml_dump default_rules))).
  reflexivity.
Defined.

(** ** Suggestions for a merchant *)

Lemma not_in_spec (name : string) (l : list string) :
  not_in name l = true <-> ~ In name l.
Proof.
  unfold not_in. rewrite negb_true_iff. split.
  - intros H Hin.
    assert (E : existsb (String.eqb name) l = true).
    { apply existsb_exists. exists name. split; [exact Hin|].
      apply String.eqb_refl. }
    congruence.
  - intro H. destruct (existsb (String.eqb name) l) eqn:E; [|reflexivity].
    apply existsb_exists in E. destruct E as [x [Hin Ex]].
    apply String.eqb_eq in Ex. subst x. contradiction.
Qed.

Lemma truthy_opt_some (o : option string) :
  PyStr.truthy_opt o = true ->
  o = Some (PyStr.or_empty o) /\ PyStr.or_empty o <> EmptyString.
Proof.
  destruct o as [[|c s]|]; simpl; intro H; try discriminate.
  split; [reflexivity|discriminate].
Qed.

Lemma truthy_opt_named (n : string) :
  n <> EmptyString ->
  PyStr.truthy_opt (Some n) = true /\ PyStr.or_empty (Some n) = n.
Proof.
  destruct n as [|c s]; intro H; [contradiction|]. split; reflexivity.
Qed.

Lemma suggest_loop_spec (text : string) (rules : RuleTable) :
  forall acc l,
    suggest_loop text rules acc = Ok l ->
    NoDup acc ->
    NoDup l
    /\ (exists more, l = acc ++ more)
    /\ (forall n, In n l <-> In n acc \/ named_by_match text rules n).
Proof.
  induction rules as [|[key rule] rest IH]; intros acc l H Hn.
  - simpl in H. inversion H; subst l.
    split; [exact Hn|]. split; [exists []; symmetry; apply app_nil_r|].
    intro n. split; [intro Hin; left; exact Hin|].
    intros [Hin|(k & r & [] & _)]. exact Hin.
  - cbn [suggest_loop] in H.
    destruct (_matches_rule text rule) as [[|]|e] eqn:M; cbn [bind] in H;
      [| |discriminate H].
    + destruct (PyStr.truthy_opt (category_name rule)) eqn:T;
        cbn [andb] in H.
      * destruct (truthy_opt_some _ T) as [Es Ene].
        destruct (not_in (PyStr.or_empty (category_name rule)) acc) eqn:N.
        -- apply not_in_spec in N.
           assert (Hn' : NoDup (acc ++ [PyStr.or_empty (category_name rule)])).
           { apply (Permutation_NoDup (Permutation_cons_append _ _)).
             constructor; assumption. }
           destruct (IH _ _ H Hn') as (A & [more B] & C).
           split; [exact A|].
           split; [exists (PyStr.or_empty (category_name rule) :: more);
                   rewrite B, <- app_assoc; reflexivity|].
           intro n. rewrite C, in_app_iff. simpl. split.
           ++ intros [[Hin|[E|[]]]|(k & r & Hin & R)].
              ** left. exact Hin.
              ** right. exists key, rule. subst n.
                 split; [left; reflexivity|].
                 split; [exact Es|]. split; [exact Ene|exact M].
              ** right. exists k, r. split; [right; exact Hin|exact R].
           ++ intros [Hin|(k & r & [E|Hin] & R1 & R2 & R3)].
              ** left. left. exact Hin.
              ** inversion E; subst k r. left. right. left.
                 rewrite R1. apply (proj2 (truthy_opt_named R2)).
              ** right. exists k, r. split; [exact Hin|].
                 split; [exact R1|]. split; assumption.
        -- assert (Hin0 : In (PyStr.or_empty (category_name rule)) acc).
           { destruct (in_dec string_dec
                         (PyStr.or_empty (category_name rule)) acc) as [i|ni];
               [exact i|].
             apply not_in_spec in ni. congruence. }
           destruct (IH _ _ H Hn) as (A & B & C).
           split; [exact A|]. split; [exact B|].
           intro n. rewrite C. split.
           ++ intros [Hin|(k & r & Hin & R)]; [left; exact Hin|].
              right. exists k, r. split; [right; exact Hin|exact R].
           ++ intros [Hin|(k & r & [E|Hin] & R1 & R2 & R3)].
              ** left. exact Hin.
              ** inversion E; subst k r. left.
                 rewrite R1 in Hin0.
                 rewrite (proj2 (truthy_opt_named R2)) in Hin0. exact Hin0.
              ** right. exists k, r. split; [exact Hin|].
                 split; [exact R1|]. split; assumption.
      * destruct (IH _ _ H Hn) as (A & B & C).
        split; [exact A|]. split; [exact B|].
        intro n. rewrite C. split.
        -- intros [Hin|(k & r & Hin & R)]; [left; exact Hin|].
           right. exists k, r. split; [right; exact Hin|exact R].
        -- intros [Hin|(k & r & [E|Hin] & R1 & R2 & R3)].
           ++ left. exact Hin.
           ++ inversion E; subst k r. rewrite R1 in T.
              rewrite (proj1 (truthy_opt_named R2)) in T. discriminate T.
           ++ right. exists k, r. split; [exact Hin|].
              split; [exact R1|]. split; assumption.
    + destruct (IH _ _ H Hn) as (A & B & C).
      split; [exact A|]. split; [exact B|].
      intro n. rewrite C. split.
      * intros [Hin|(k & r & Hin & R)]; [left; exact Hin|].
        right. exists k, r. split; [right; exact Hin|exact R].
      * intros [Hin|(k & r & [E|Hin] & R1 & R2 & R3)].
        -- left. exact Hin.
        -- inversion E; subst k r. rewrite M in R3. discriminate R3.
        -- right. exists k, r. split; [exact Hin|].
           split; [exact R1|]. split; assumption.
Qed.

(** X7: the suggestions for a merchant contain no name twice, and for a
    non-empty merchant they are exactly the non-empty category names of the
    rules that match the lower-cased merchant; for the empty merchant there
    are none, whatever the table. *)
Theorem suggestions_are_matching_names
    (rules : RuleTable) (merchant : string) (l : list string) :
  suggest_categories_for_merchant rules merchant = Ok l ->
  NoDup l
  /\ (merchant = EmptyString -> l = [])
  /\ (merchant <> EmptyString ->
      forall n, In n l <-> named_by_match (PyStr.lower merchant) rules n).
Proof.
  unfold suggest_categories_for_merchant. intro H.
  destruct merchant as [|c m]; cbn [PyStr.truthy negb] in H.
  - inversion H; subst l. split; [constructor|].
    split; [reflexivity|]. intro C. contradiction.
  - destruct (@suggest_loop_spec _ _ _ _ H (NoDup_nil _)) as (A & _ & C).
    split; [exact A|]. split; [discriminate|].
    intros _ n. rewrite C. split; [intros [[]|R]; exact R|].
    intro R. right. exact R.
Qed.

Lemma suggestions_are_matching_names_witness :
  NoDup ["Food & Dining"; "Transportation"]
  /\ ("Grab taxi" = EmptyString -> ["Food & Dining"; "Transportation"] = [])
  /\ ("Grab taxi" <> EmptyString ->
      forall n, In n ["Food & Dining"; "Transportation"]
                <-> named_by_match (PyStr.lower "Grab taxi") default_rules n).
Proof.
  apply (@suggestions_are_matching_names default_rules "Grab taxi"
           ["Food & Dining"; "Transportation"]).
  vm_compute. reflexivity.
Defined.

(** ** Classification and suggestions agree *)

Lemma lower_append (a b : string) :
  PyStr.lower (a ++ b)%string = (PyStr.lower a ++ PyStr.lower b)%string.
Proof.
  induction a as [|c a IH]; simpl; [reflexivity|]. rewrite IH. reflexivity.
Qed.

Lemma lstrip_lower (s : string) :
  PyStr.lstrip (PyStr.lower s) = PyStr.lower (PyStr.lstrip s).
Proof.
  induction s as [|c s IH]; simpl; [reflexivity|].
  rewrite isspace_lower_char. destruct (PyStr.isspace c); [exact IH|reflexivity].
Qed.

Lemma rstrip_lower (s : string) :
  PyStr.rstrip (PyStr.lower s) = PyStr.lower (PyStr.rstrip s).
Proof.
  induction s as [|c s IH]; simpl; [reflexivity|].
  rewrite IH, isspace_lower_char.
  destruct (PyStr.rstrip s); simpl; [|reflexivity].
  destruct (PyStr.isspace c); reflexivity.
Qed.

Lemma rstrip_append_space (s : string) :
  PyStr.rstrip (s ++ " ")%string = PyStr.rstrip s.
Proof.
  induction s as [|c s IH]; simpl; [reflexivity|]. rewrite IH. reflexivity.
Qed.

Lemma lstrip_append (s t : string) :
  PyStr.lstrip (s ++ t)%string
  = if PyStr.is_blank s then PyStr.lstrip t else (PyStr.lstrip s ++ t)%string.
Proof.
  induction s as [|c s IH]; simpl; [reflexivity|].
  destruct (PyStr.isspace c); simpl; [exact IH|reflexivity].
Qed.

Lemma strip_append_space (s : string) :
  PyStr.strip (s ++ " ")%string = PyStr.strip s.
Proof.
  unfold PyStr.strip. rewrite lstrip_append.
  destruct (PyStr.is_blank s) eqn:B.
  - rewrite (lstrip_blank s B). reflexivity.
  - apply rstrip_append_space.
Qed.

(** With a merchant and no description the analysed text is the merchant,
    stripped and lower-cased. *)
Lemma text_to_analyze_merchant (merchant : string) :
  text_to_analyze (Some merchant) None = PyStr.lower (PyStr.strip merchant).
Proof.
  unfold text_to_analyze.
  assert (E : PyStr.or_empty (Some merchant) = merchant)
    by (destruct merchant; reflexivity).
  rewrite E. cbn [PyStr.or_empty].
  change (merchant ++ " " ++ "")%string with (merchant ++ " ")%string.
  rewrite lower_append. change (PyStr.lower " ") with " ".
  rewrite strip_append_space. unfold PyStr.strip.
  rewrite lstrip_lower, rstrip_lower. reflexivity.
Qed.

Lemma suggest_loop_first (text : string) (rules : RuleTable) (s : Session) :
  forall l,
    suggest_loop text rules [] = Ok l ->
    categorize_loop text rules (Some s) = Ok (resolve_first l s).
Proof.
  induction rules as [|[key rule] rest IH]; intros l H.
  - simpl in H. inversion H; subst l. reflexivity.
  - cbn [suggest_loop categorize_loop] in *.
    destruct (_matches_rule text rule) as [[|]|e] eqn:M; cbn [bind] in *;
      [| |discriminate H].
    + destruct (PyStr.truthy_opt (category_name rule)) eqn:T;
        cbn [andb not_in existsb negb app] in H.
      * assert (Hn : NoDup [PyStr.or_empty (category_name rule)])
          by (constructor; [intros []|constructor]).
        destruct (@suggest_loop_spec _ _ _ _ H Hn) as (_ & [more B] & _).
        subst l. cbn [app resolve_first].
        destruct (get_or_create_returns (PyStr.or_empty (category_name rule)) s)
          as (c & s' & G & _).
        rewrite G. reflexivity.
      * exact (IH _ H).
    + exact (IH _ H).
Qed.

(** X8: for a merchant without leading or trailing whitespace, whenever the
    suggestions for it are produced, classifying a transaction that has
    this merchant and no description resolves the first suggestion through
    get-or-create and returns its id; without suggestions it returns no
    category and leaves the database as it was. *)
Theorem classification_resolves_first_suggestion
    (rules : RuleTable) (merchant : string) (amount : Q) (s : Session)
    (l : list string) :
  PyStr.strip merchant = merchant ->
  suggest_categories_for_merchant rules merchant = Ok l ->
  categorize_transaction rules (Some merchant) None amount (Some s)
  = Ok (resolve_first l s).
Proof.
  intros Hs H. unfold suggest_categories_for_merchant in H.
  unfold categorize_transaction.
  rewrite text_to_analyze_merchant, Hs.
  destruct merchant as [|c m]; cbn [PyStr.truthy negb] in H.
  - inversion H; subst l. reflexivity.
  - cbn [PyStr.truthy_opt PyStr.truthy PyStr.lower negb andb].
    apply suggest_loop_first. exact H.
Qed.

Lemma classification_resolves_first_suggestion_witness :
  categorize_transaction default_rules (Some "Grab taxi") None 10
    (Some session_with_food)
  = Ok (resolve_first ["Food & Dining"; "Transportation"] session_with_food).
Proof.
  apply (@classification_resolves_first_suggestion default_rules "Grab taxi"
           10 session_with_food ["Food & Dining"; "Transportation"]).
  - reflexivity.
  - vm_compute. reflexivity.
Defined.

(** ** What classification does to the database *)

Lemma categorize_loop_stable (text : string) (rules : RuleTable) :
  forall s r db',
    categorize_loop text rules (Some s) = Ok (r, db') ->
    exists s',
      db' = Some s'
      /\ adds_at_most_one s s' r
      /\ categorize_loop text rules (Some s') = Ok (r, Some s').
Proof.
  induction rules as [|[key rule] rest IH]; intros s r db' H.
  - simpl in H. inversion H; subst. exists s.
    split; [reflexivity|].
    split; [repeat split; left; reflexivity|reflexivity].
  - assert (Skip : forall s0, categorize_loop text rest (Some s0) = Ok (r, db') ->
              (forall s1, categorize_loop text ((key, rule) :: rest) (Some s1)
                          = categorize_loop text rest (Some s1)) ->
              exists s',
                db' = Some s' /\ adds_at_most_one s0 s' r
                /\ categorize_loop text ((key, rule) :: rest) (Some s')
                   = Ok (r, Some s')).
    { intros s0 H0 Hskip. destruct (IH _ _ _ H0) as (s' & E & A & I).
      exists s'. split; [exact E|]. split; [exact A|].
      rewrite Hskip. exact I. }
    cbn [categorize_loop] in H.
    destruct (_matches_rule text rule) as [[|]|e] eqn:M; cbn [bind] in H;
      [| |discriminate H].
    + destruct (PyStr.truthy_opt (category_name rule)) eqn:T.
      * destruct (get_or_create_returns (PyStr.or_empty (category_name rule)) s)
          as (c & s' & G & Nm & F).
        rewrite G in H. inversion H; subst r db'.
        exists s'. split; [reflexivity|]. split.
        -- unfold _get_or_create_category in G.
           destruct (category_by_name (PyStr.or_empty (category_name rule)) s)
             as [c0|] eqn:F0; inversion G; subst.
           ++ repeat split. left. reflexivity.
           ++ repeat split. right. eexists. split; [reflexivity|].
              split; [reflexivity|]. simpl. exact F0.
        -- cbn [categorize_loop]. rewrite M. cbn [bind]. rewrite T.
           unfold _get_or_create_category. rewrite F. reflexivity.
      * apply (Skip s H). intro s1. cbn [categorize_loop].
        rewrite M. cbn [bind]. rewrite T. reflexivity.
    + apply (Skip s H). intro s1. cbn [categorize_loop].
      rewrite M. reflexivity.
Qed.

Lemma categorize_transaction_stable
    (rules : RuleTable) (merchant description : option string) (amount : Q)
    (s : Session) (r : option Z) (db' : option Session) :
  categorize_transaction rules merchant description amount (Some s)
  = Ok (r, db') ->
  exists s',
    db' = Some s'
    /\ adds_at_most_one s s' r
    /\ forall amount',
         categorize_transaction rules merchant description amount' (Some s')
         = Ok (r, Some s').
Proof.
  unfold categorize_transaction. intro H.
  destruct (negb (PyStr.truthy_opt merchant)
            && negb (PyStr.truthy_opt description)).
  { inversion H; subst. exists s. split; [reflexivity|].
    split; [repeat split; left; reflexivity|reflexivity]. }
  destruct (negb (PyStr.truthy (text_to_analyze merchant description))).
  { inversion H; subst. exists s. split; [reflexivity|].
    split; [repeat split; left; reflexivity|reflexivity]. }
  destruct (categorize_loop_stable _ _ _ H) as (s' & E & A & I).
  exists s'. split; [exact E|]. split; [exact A|]. intros _. exact I.
Qed.


(** X9: a classification that returns leaves accounts, transactions and
    budgets alone and never changes or removes a category; it appends at
    most one category, and then one whose name was not in the table and
    whose id is the id returned.  Classifying the same merchant and
    description again, with any amount, returns the same answer and changes
    nothing. *)
Theorem classification_is_stable
    (rules : RuleTable) (merchant description : option string) (amount : Q)
    (s : Session) (r : option Z) (db' : option Session) :
  categorize_transaction rules merchant description amount (Some s)
  = Ok (r, db') ->
  exists s',
    db' = Some s'
    /\ adds_at_most_one s s' r
    /\ forall amount',
         categorize_transaction rules merchant description amount' (Some s')
         = Ok (r, Some s').
Proof.
  exact (@categorize_transaction_stable rules merchant description amount s r
           db').
Qed.

Lemma classification_is_stable_witness :
  exists s',
    Some (insert_category session_with_food
            (Category.mk 5 "Transportation" None None None true)) = Some s'
    /\ adds_at_most_one session_with_food s' (Some 5%Z)
    /\ forall amount',
         categorize_transaction default_rules (Some "Uber") None amount'
           (Some s')
         = Ok (Some 5%Z, Some s').
Proof.
  apply (@classification_is_stable default_rules (Some "Uber") None 10
           session_with_food (Some 5%Z)
           (Some (insert_category session_with_food
                    (Category.mk 5 "Transportation" None None None true)))).
  vm_compute. reflexivity.
Defined.

(** ** Recording, editing and deleting transactions *)

Lemma fresh_id_above (ids : list Z) (x : Z) : In x ids -> (x < fresh_id ids)%Z.
Proof.
  unfold fresh_id. induction ids as [|y ids IH]; simpl; intros [].
  - subst y. lia.
  - specialize (IH H). lia.
Qed.

Lemma fresh_id_new (ids : list Z) : ~ In (fresh_id ids) ids.
Proof.
  intro H. apply fresh_id_above in H. lia.
Qed.

Lemma find_none_not_in {A : Type} (f : A -> Z) (l : list A) (z : Z) :
  ~ In z (map f l) -> find (fun x => (f x =? z)%Z) l = None.
Proof.
  induction l as [|x l IH]; simpl; intro H.
  - reflexivity.
  - destruct (f x =? z)%Z eqn:E.
    + apply Z.eqb_eq in E. exfalso. apply H. left. exact E.
    + apply IH. intro Hin. apply H. right. exact Hin.
Qed.

Lemma remove_first_last {A : Type} (p : A -> bool) (l : list A) (x : A) :
  find p l = None -> p x = true -> remove_first p (l ++ [x]) = l.
Proof.
  induction l as [|y l IH]; simpl; intros F Hx.
  - rewrite Hx. reflexivity.
  - destruct (p y); [discriminate|]. rewrite (IH F Hx). reflexivity.
Qed.

Lemma infer_category_frame (rules : RuleTable) (db : Session)
    (req : TransactionCreate) :
  accounts (snd (infer_category rules db req)) = accounts db
  /\ transactions (snd (infer_category rules db req)) = transactions db
  /\ budgets (snd (infer_category rules db req)) = budgets db.
Proof.
  unfold infer_category.
  destruct (truthy_id (new_category_id req)); [repeat split|].
  destruct (categorize_transaction rules (new_merchant req)
              (new_description req) (new_amount req) (Some db))
    as [[r [db'|]]|e] eqn:C; try (repeat split; fail).
  destruct (@categorize_transaction_stable _ _ _ _ _ _ _ C) as (s' & E & A & _).
  inversion E; subst s'. destruct A as (A1 & A2 & A3 & _).
  simpl. repeat split; assumption.
Qed.

Lemma find_account_frame (db db' : Session) (aid : Z) :
  accounts db' = accounts db -> find_account db' aid = find_account db aid.
Proof. unfold find_account. intro E. rewrite E. reflexivity. Qed.

Lemma create_transaction_appends
    (rules : RuleTable) (db db' : Session) (req : TransactionCreate)
    (tx : Transaction.t) :
  create_transaction rules db req = Ok (tx, db') ->
  transactions db' = transactions db ++ [tx]
  /\ ~ In (Transaction.id tx) (map Transaction.id (transactions db))
  /\ find_transaction db' (Transaction.id tx) = Some tx
  /\ accounts db' = accounts db
  /\ budgets db' = budgets db
  /\ (forall account_id, balance_of db' account_id = balance_of db account_id)
  /\ (exists account, find_account db (Transaction.account_id tx) = Some account)
  /\ Transaction.account_id tx = new_account_id req
  /\ Transaction.amount tx = new_amount req
  /\ Transaction.transaction_type tx = new_transaction_type req
  /\ Transaction.timestamp tx = new_timestamp req
  /\ Transaction.is_synced_to_sheets tx = false.
Proof.
  unfold create_transaction. intro H.
  destruct (find_account db (new_account_id req)) as [account|] eqn:Fa;
    [|discriminate H].
  destruct (infer_category_frame rules db req) as (Ea & Et & Eb).
  destruct (infer_category rules db req) as [cid db1]. simpl in Ea, Et, Eb.
  inversion H; subst tx db'. clear H. cbn -[fresh_id].
  rewrite Et.
  assert (N : ~ In (fresh_id (map Transaction.id (transactions db)))
                (map Transaction.id (transactions db)))
    by apply fresh_id_new.
  split; [reflexivity|]. split; [exact N|].
  split.
  { unfold find_transaction. cbn -[fresh_id]. rewrite ?Et.
    rewrite (find_app_none _ _ _ (find_none_not_in _ _ _ N)).
    cbn -[fresh_id]. rewrite Z.eqb_refl. reflexivity. }
  split; [exact Ea|]. split; [exact Eb|].
  split; [intro a; unfold balance_of, find_account; cbn; rewrite Ea;
          reflexivity|].
  split; [exists account; exact Fa|].
  repeat split.
Qed.


(** X10: a request that [create_transaction] commits is appended to the
    ledger under an id no transaction had, and can be looked up under it;
    the row carries the fields of the request, is not marked as synced, and
    refers to an account that exists.  No account row, hence no balance, and
    no budget is changed. *)
Theorem create_transaction_effect
    (rules : RuleTable) (db db' : Session) (req : TransactionCreate)
    (tx : Transaction.t) :
  create_transaction rules db req = Ok (tx, db') ->
  transactions db' = transactions db ++ [tx]
  /\ ~ In (Transaction.id tx) (map Transaction.id (transactions db))
  /\ find_transaction db' (Transaction.id tx) = Some tx
  /\ accounts db' = accounts db
  /\ budgets db' = budgets db
  /\ (forall account_id, balance_of db' account_id = balance_of db account_id)
  /\ (exists account, find_account db (Transaction.account_id tx) = Some account)
  /\ Transaction.account_id tx = new_account_id req
  /\ Transaction.amount tx = new_amount req
  /\ Transaction.transaction_type tx = new_transaction_type req
  /\ Transaction.timestamp tx = new_timestamp req
  /\ Transaction.is_synced_to_sheets tx = false.
Proof.
  exact (@create_transaction_appends rules db db' req tx).
Qed.

Lemma create_transaction_effect_witness :
  let tx := Transaction.mk 2 (noon 2024 2 11) 7 25 EXPENSE (Some 1%Z)
              (Some "Uber") None MANUAL None false in
  let db' := insert_transaction
               (insert_category ledger_one_expense
                  (Category.mk 1 "Transportation" None None None true)) tx in
  transactions db' = transactions ledger_one_expense ++ [tx]
  /\ ~ In (Transaction.id tx) (map Transaction.id (transactions ledger_one_expense))
  /\ find_transaction db' (Transaction.id tx) = Some tx
  /\ accounts db' = accounts ledger_one_expense
  /\ budgets db' = budgets ledger_one_expense
  /\ (forall account_id,
        balance_of db' account_id = balance_of ledger_one_expense account_id)
  /\ (exists account,
        find_account ledger_one_expense (Transaction.account_id tx)
        = Some account)
  /\ Transaction.account_id tx = new_account_id uber_request
  /\ Transaction.amount tx = new_amount uber_request
  /\ Transaction.transaction_type tx = new_transaction_type uber_request
  /\ Transaction.timestamp tx = new_timestamp uber_request
  /\ Transaction.is_synced_to_sheets tx = false.
Proof.
  apply (@create_transaction_effect default_rules ledger_one_expense _
           uber_request _).
  vm_compute. reflexivity.
Defined.

Lemma reverse_effect_some (a : Account.t) (t : TransactionType) (x : Q) :
  exists a',
    reverse_effect (Some a) t x = Ok (Some a')
    /\ Account.id a' = Account.id a
    /\ (Account.balance a' == Account.balance a - signed_effect t x)%Q.
Proof.
  destruct t; unfold reverse_effect; simpl; eexists;
    (split; [reflexivity|]); (split; [reflexivity|]); simpl; ring.
Qed.

Lemma apply_effect_some (a : Account.t) (t : TransactionType) (x : Q) :
  exists a',
    apply_effect (Some a) t x = Ok (Some a')
    /\ Account.id a' = Account.id a
    /\ (Account.balance a' == Account.balance a + signed_effect t x)%Q.
Proof.
  destruct t; unfold apply_effect; simpl; eexists;
    (split; [reflexivity|]); (split; [reflexivity|]); simpl; ring.
Qed.

Lemma delete_transaction_result
    (db : Session) (tid : Z) (tx : Transaction.t) (acc : Account.t) :
  find_transaction db tid = Some tx ->
  find_account db (Transaction.account_id tx) = Some acc ->
  exists acc',
    reverse_effect (Some acc) (Transaction.transaction_type tx)
                   (Transaction.amount tx) = Ok (Some acc')
    /\ delete_transaction db tid
       = Ok (mkSession (accounts (store_account db (Some acc')))
               (categories db)
               (remove_first (fun t => (Transaction.id t =? tid)%Z)
                             (transactions db))
               (budgets db))
    /\ find_account
         (mkSession (accounts (store_account db (Some acc'))) (categories db)
            (remove_first (fun t => (Transaction.id t =? tid)%Z)
                          (transactions db))
            (budgets db))
         (Transaction.account_id tx) = Some acc'
    /\ (Account.balance acc'
        == Account.balance acc
           - signed_effect (Transaction.transaction_type tx)
                           (Transaction.amount tx))%Q.
Proof.
  intros Ft Fa.
  destruct (reverse_effect_some acc (Transaction.transaction_type tx)
              (Transaction.amount tx)) as (acc' & R & I & B).
  exists acc'. split; [exact R|].
  split.
  { unfold delete_transaction. rewrite Ft, Fa. cbn [or_500].
    rewrite R. cbn [bind or_500]. reflexivity. }
  split; [|exact B].
  pose proof (find_account_id _ _ Fa) as Ia.
  pose proof (@find_account_stored db (Transaction.account_id tx) acc acc' Fa
                (eq_trans I Ia)) as S.
  unfold find_account in *. exact S.
Qed.

(** X11: recording a transaction and then deleting it does not give the
    account its balance back.  Recording leaves the balance [B] as it is,
    and the delete "reverses" an effect that was never applied: after both,
    the ledger holds the transactions it held before, and the account
    stands at [B + amount] for an expense, [B - amount] for an income and
    [B] for a transfer. *)
Theorem create_then_delete_shifts_balance
    (rules : RuleTable) (db db' : Session) (req : TransactionCreate)
    (tx : Transaction.t) :
  create_transaction rules db req = Ok (tx, db') ->
  exists acc db'',
    find_account db (new_account_id req) = Some acc
    /\ balance_of db' (new_account_id req) = Some (Account.balance acc)
    /\ delete_transaction db' (Transaction.id tx) = Ok db''
    /\ transactions db'' = transactions db
    /\ balance_of db'' (new_account_id req)
       = Some match new_transaction_type req with
              | EXPENSE => (Account.balance acc + new_amount req)%Q
              | INCOME => (Account.balance acc - new_amount req)%Q
              | TRANSFER => Account.balance acc
              end.
Proof.
  intro H.
  destruct (@create_transaction_appends _ _ _ _ _ H)
    as (Et & N & Ft & Ea & _ & Eb & [acc Fa] & Ia & Iam & Ity & _).
  rewrite Ia in Fa. exists acc.
  assert (Fa' : find_account db' (Transaction.account_id tx) = Some acc).
  { rewrite Ia. rewrite (@find_account_frame db db' _ Ea). exact Fa. }
  destruct (@delete_transaction_result _ _ _ _ Ft Fa') as (acc' & R & D & F' & _).
  eexists. split; [exact Fa|].
  split; [rewrite Eb; unfold balance_of; rewrite Fa; reflexivity|].
  split; [exact D|].
  split.
  { cbn [transactions]. rewrite Et.
    apply remove_first_last.
    - apply find_none_not_in. exact N.
    - apply Z.eqb_refl. }
  unfold balance_of. rewrite <- Ia, F'. rewrite <- Ity, <- Iam.
  destruct (Transaction.transaction_type tx); unfold reverse_effect in R;
    simpl in R; inversion R; reflexivity.
Qed.

Lemma create_then_delete_shifts_balance_witness :
  exists acc db'',
    find_account ledger_one_expense (new_account_id uber_request) = Some acc
    /\ balance_of
         (insert_transaction
            (insert_category ledger_one_expense
               (Category.mk 1 "Transportation" None None None true))
            (Transaction.mk 2 (noon 2024 2 11) 7 25 EXPENSE (Some 1%Z)
               (Some "Uber") None MANUAL None false))
         (new_account_id uber_request) = Some (Account.balance acc)
    /\ delete_transaction
         (insert_transaction
            (insert_category ledger_one_expense
               (Category.mk 1 "Transportation" None None None true))
            (Transaction.mk 2 (noon 2024 2 11) 7 25 EXPENSE (Some 1%Z)
               (Some "Uber") None MANUAL None false))
         (Transaction.id
            (Transaction.mk 2 (noon 2024 2 11) 7 25 EXPENSE (Some 1%Z)
               (Some "Uber") None MANUAL None false)) = Ok db''
    /\ transactions db'' = transactions ledger_one_expense
    /\ balance_of db'' (new_account_id uber_request)
       = Some match new_transaction_type uber_request with
              | EXPENSE => (Account.balance acc + new_amount uber_request)%Q
              | INCOME => (Account.balance acc - new_amount uber_request)%Q
              | TRANSFER => Account.balance acc
              end.
Proof.
  apply (@create_then_delete_shifts_balance default_rules ledger_one_expense
           _ uber_request _).
  vm_compute. reflexivity.
Defined.

Lemma find_transaction_store_account (db : Session) (a : option Account.t)
    (tid : Z) :
  find_transaction (store_account db a) tid = find_transaction db tid.
Proof. destruct a; reflexivity. Qed.

Lemma update_transaction_result
    (db : Session) (tid : Z) (tx : Transaction.t) (acc : Account.t)
    (upd : TransactionUpdate) :
  find_transaction db tid = Some tx ->
  find_account db (Transaction.account_id tx) = Some acc ->
  exists db' acc',
    update_transaction db tid upd = Ok db'
    /\ find_transaction db' tid = Some (apply_update tx upd)
    /\ find_account db' (Transaction.account_id tx) = Some acc'
    /\ categories db' = categories db
    /\ budgets db' = budgets db
    /\ (Account.balance acc'
        == Account.balance acc
           - signed_effect (Transaction.transaction_type tx)
                           (Transaction.amount tx)
           + signed_effect (Transaction.transaction_type (apply_update tx upd))
                           (Transaction.amount (apply_update tx upd)))%Q
    /\ (upd_amount upd = None -> upd_transaction_type upd = None ->
        accounts db' = accounts db).
Proof.
  intros Ft Fa.
  pose proof (find_account_id _ _ Fa) as Ia.
  pose proof (find_transaction_id _ _ Ft) as It.
  assert (St : find_transaction (store_transaction db (apply_update tx upd)) tid
               = Some (apply_update tx upd)).
  { apply find_transaction_stored with (t := tx); [exact Ft|exact It]. }
  unfold update_transaction. rewrite Ft.
  destruct (is_some (upd_amount upd) || is_some (upd_transaction_type upd))
    eqn:S.
  - change (Transaction.account_id (apply_update tx upd))
      with (Transaction.account_id tx).
    rewrite Fa.
    destruct (reverse_effect_some acc (Transaction.transaction_type tx)
                (Transaction.amount tx)) as (a1 & R1 & I1 & B1).
    destruct (apply_effect_some a1
                (Transaction.transaction_type (apply_update tx upd))
                (Transaction.amount (apply_update tx upd)))
      as (a2 & R2 & I2 & B2).
    rewrite R1. cbn [bind]. rewrite R2. cbn [bind or_500].
    eexists. exists a2. split; [reflexivity|].
    split; [rewrite find_transaction_store_account; exact St|].
    split.
    { apply find_account_stored with (a := acc).
      - exact Fa.
      - rewrite I2, I1. exact Ia. }
    split; [reflexivity|]. split; [reflexivity|].
    split; [rewrite B2, B1; reflexivity|].
    intros Ua Ut. rewrite Ua, Ut in S. discriminate S.
  - apply orb_false_iff in S. destruct S as [Sa Sty].
    assert (Ua : upd_amount upd = None)
      by (destruct (upd_amount upd); [discriminate Sa|reflexivity]).
    assert (Ut : upd_transaction_type upd = None)
      by (destruct (upd_transaction_type upd); [discriminate Sty|reflexivity]).
    cbn [or_500]. eexists. exists acc. split; [reflexivity|].
    split; [exact St|]. split; [exact Fa|].
    split; [reflexivity|]. split; [reflexivity|].
    split; [|intros _ _; reflexivity].
    unfold apply_update. cbn. rewrite Ua, Ut. cbn. ring.
Qed.

(** X12: an edit that leaves the type of a stored transaction alone.  For
    a request that does not mention the type, and whose other fields are
    each absent or set to a value, the edit of a stored transaction whose
    account exists succeeds: the stored row keeps its type, takes the
    fields the request sets and is marked as not synced.  When the request
    sets the amount, the balance [B] of the account becomes
    [(B - effect(old amount)) + effect(new amount)], the effect being
    [+amount] for an income, [-amount] for an expense and 0 for a transfer;
    when it does not, no account row is rewritten.  Categories and budgets
    are not touched. *)
Theorem update_moves_balance_by_difference
    (db : Session) (tid : Z) (tx : Transaction.t) (acc : Account.t)
    (upd : TransactionUpdate) :
  find_transaction db tid = Some tx ->
  find_account db (Transaction.account_id tx) = Some acc ->
  upd_transaction_type upd = None ->
  exists db',
    update_transaction db tid upd = Ok db'
    /\ match upd_amount upd with
       | Some new_amount =>
           exists b,
             balance_of db' (Transaction.account_id tx) = Some b
             /\ (b == Account.balance acc
                      - signed_effect (Transaction.transaction_type tx)
                                      (Transaction.amount tx)
                      + signed_effect (Transaction.transaction_type tx)
                                      new_amount)%Q
       | None => accounts db' = accounts db
       end
    /\ find_transaction db' tid = Some (apply_update tx upd)
    /\ Transaction.transaction_type (apply_update tx upd)
       = Transaction.transaction_type tx
    /\ Transaction.amount (apply_update tx upd)
       = or_else (upd_amount upd) (Transaction.amount tx)
    /\ Transaction.is_synced_to_sheets (apply_update tx upd) = false
    /\ categories db' = categories db
    /\ budgets db' = budgets db.
Proof.
  intros Ft Fa Ut.
  destruct (@update_transaction_result db tid tx acc upd Ft Fa)
    as (db' & acc' & U & Ft' & Fa' & Ec & Eb & B & Fr).
  assert (Ety : Transaction.transaction_type (apply_update tx upd)
                = Transaction.transaction_type tx).
  { unfold apply_update. cbn [Transaction.transaction_type]. rewrite Ut.
    reflexivity. }
  exists db'. split; [exact U|].
  split.
  { destruct (upd_amount upd) as [new_amount|] eqn:Ua.
    - exists (Account.balance acc').
      split; [unfold balance_of; rewrite Fa'; reflexivity|].
      rewrite B, Ety. unfold apply_update. cbn [Transaction.amount].
      rewrite Ua. reflexivity.
    - apply Fr; [reflexivity|exact Ut]. }
  split; [exact Ft'|]. split; [exact Ety|].
  split; [reflexivity|]. split; [reflexivity|].
  split; assumption.
Qed.

Lemma update_moves_balance_by_difference_witness :
  exists db',
    update_transaction ledger_one_expense 1 to_amount_40 = Ok db'
    /\ balance_of db' 7 = Some (1000 + 100 - 40)%Q
    /\ find_transaction db' 1 = Some (apply_update expense_100 to_amount_40).
Proof.
  destruct (@update_moves_balance_by_difference ledger_one_expense 1
              expense_100 wallet_1000 to_amount_40)
    as (db' & U & _ & Ft & _); try reflexivity.
  exists db'. split; [exact U|]. split; [|exact Ft].
  vm_compute in U.
  apply (f_equal (fun r => match r with
                           | Ok d => balance_of d 7
                           | Raise _ => None
                           end)) in U.
  symmetry. exact U.
Defined.

(** ** Budgets: one per category and month *)


Lemma same_category_month_key (c : Z) (m : string) (b : Budget.t) :
  same_category_month c m b = true
  <-> (Budget.category_id b, Budget.month b) = (c, m).
Proof.
  unfold same_category_month. rewrite andb_true_iff, Z.eqb_eq, String.eqb_eq.
  split; [intros [] | intro H; inversion H]; subst; split; reflexivity.
Qed.


Lemma find_key_some (c : Z) (m : string) (l : list Budget.t) :
  In (c, m) (map (fun b => (Budget.category_id b, Budget.month b)) l) ->
  exists b, find (same_category_month c m) l = Some b.
Proof.
  intro Hin. apply in_map_iff in Hin. destruct Hin as [b [E Hb]].
  destruct (find (same_category_month c m) l) as [x|] eqn:F.
  - exists x. reflexivity.
  - pose proof (find_none _ _ F b Hb) as N.
    apply same_category_month_key in E. congruence.
Qed.






(** ** Refreshing cached spend *)

Lemma calculate_current_spending_frame (db db' : Session) (c : Z) (m : string) :
  transactions db' = transactions db ->
  _calculate_current_spending db' c m = _calculate_current_spending db c m.
Proof.
  intro E. unfold _calculate_current_spending. rewrite E. reflexivity.
Qed.

Lemma refresh_budget_frame (db db' : Session) (b : Budget.t) :
  transactions db' = transactions db ->
  refresh_budget db' b = refresh_budget db b.
Proof.
  intro E. unfold refresh_budget.
  rewrite (@calculate_current_spending_frame _ _ _ _ E). reflexivity.
Qed.














(** ** Deleting a budget *)

Lemma remove_first_split {A : Type} (p : A -> bool) (a : A) (l : list A) :
  find p l = Some a ->
  exists l1 l2,
    l = l1 ++ a :: l2
    /\ remove_first p l = l1 ++ l2
    /\ forall x, In x l1 -> p x = false.
Proof.
  induction l as [|y l IH]; simpl; intro F.
  - discriminate.
  - destruct (p y) eqn:E.
    + inversion F; subst y. exists [], l. repeat split. intros x [].
    + destruct (IH F) as [l1 [l2 [E1 [E2 H]]]].
      exists (y :: l1), l2. simpl. rewrite <- E1, E2.
      repeat split. intros x [Hx|Hx]; [subst x; exact E|apply H; exact Hx].
Qed.

(** X17: [delete_budget] frees the month of the category.  When no two
    budgets share an id or a (category, month) pair, deleting a budget that
    is there takes exactly that row out of the table and leaves the other
    tables alone; its id is then unknown to [get_budget] (404) and to a
    second [delete_budget], which answers 500 and not 404; and a request to
    create a budget for the same category and month, refused with 400
    before the deletion, is no longer refused with 400 after it. *)
Theorem delete_budget_frees_month
    (db : Session) (budget_id : Z) (b : Budget.t) :
  NoDup (budget_ids db) ->
  NoDup (budget_keys db) ->
  find_budget db budget_id = Some b ->
  exists db',
    delete_budget db budget_id = Ok db'
    /\ (exists before after,
          budgets db = before ++ b :: after
          /\ budgets db' = before ++ after)
    /\ ~ In b (budgets db')
    /\ accounts db' = accounts db
    /\ categories db' = categories db
    /\ transactions db' = transactions db
    /\ get_budget db' budget_id = Raise (HTTPException 404)
    /\ delete_budget db' budget_id = Raise (HTTPException 500)
    /\ forall now req,
         bc_category_id req = Budget.category_id b ->
         bc_month req = Budget.month b ->
         create_budget db now req = Raise (HTTPException 400)
         /\ create_budget db' now req <> Raise (HTTPException 400).
Proof.
  intros Hi Hk F. unfold delete_budget. rewrite F. cbn [or_500].
  eexists. split; [reflexivity|]. cbn [budgets accounts categories transactions].
  unfold find_budget in F.
  destruct (remove_first_split _ _ F) as [l1 [l2 [E1 [E2 H1]]]].
  assert (Ib : Budget.id b = budget_id).
  { apply find_some in F. destruct F as [_ E]. apply Z.eqb_eq in E. exact E. }
  unfold budget_ids in Hi. unfold budget_keys in Hk.
  rewrite E1, map_app in Hi, Hk. cbn [map] in Hi, Hk.
  apply NoDup_remove in Hi, Hk. rewrite <- map_app in Hi, Hk.
  destruct Hi as [_ Hi]. destruct Hk as [_ Hk]. rewrite <- E2 in Hi, Hk.
  assert (Fn : find (fun r => (Budget.id r =? budget_id)%Z)
                 (remove_first (fun r => (Budget.id r =? budget_id)%Z)
                    (budgets db)) = None).
  { apply find_none_not_in. intro K. apply Hi. rewrite Ib. exact K. }
  split; [exists l1, l2; split; assumption|].
  split.
  { intro Hin. apply Hi. apply in_map. exact Hin. }
  split; [reflexivity|]. split; [reflexivity|]. split; [reflexivity|].
  split; [unfold get_budget; cbn [budgets]; rewrite Fn; reflexivity|].
  split; [unfold find_budget; cbn [budgets]; rewrite Fn; reflexivity|].
  intros now req Ec Em. split.
  - unfold create_budget. rewrite Ec, Em.
    destruct (@find_key_some (Budget.category_id b) (Budget.month b)
                (budgets db)) as [x Fx].
    { rewrite E1. rewrite map_app. apply in_or_app. right. left. reflexivity. }
    rewrite Fx. reflexivity.
  - unfold create_budget. cbn [budgets categories]. rewrite Ec, Em.
    destruct (find (same_category_month (Budget.category_id b) (Budget.month b))
                (remove_first (fun r => (Budget.id r =? budget_id)%Z)
                   (budgets db))) as [x|] eqn:Fx.
    + exfalso. apply find_some in Fx. destruct Fx as [Hin Ex].
      apply same_category_month_key in Ex. apply Hk. rewrite <- Ex.
      apply (in_map (fun b0 => (Budget.category_id b0, Budget.month b0))).
      exact Hin.
    + destruct (find _ (categories db)); discriminate.
Qed.

Lemma delete_budget_frees_month_witness :
  exists db',
    delete_budget ledger_two_budgets 2 = Ok db'
    /\ (exists before after,
          budgets ledger_two_budgets
          = before ++ Budget.mk 2 2 "2024-02" 50 0 true (8 # 10)
                        (noon 2024 1 31) :: after
          /\ budgets db' = before ++ after).
Proof.
  destruct (@delete_budget_frees_month ledger_two_budgets 2
              (Budget.mk 2 2 "2024-02" 50 0 true (8 # 10) (noon 2024 1 31)))
    as [db' [E [S _]]].
  - repeat constructor; simpl; intuition discriminate.
  - repeat constructor; simpl; intuition discriminate.
  - reflexivity.
  - exists db'. split; assumption.
Defined.

(** ** The status report *)




(** February 2024 holds expenses of 70 for category 2, whose budget is 40:
    the report lists that budget with nothing spent, on track, and raises
    no alert. *)
Example status_report_over_limit :
  exists report db',
    get_current_budget_status ledger_stale_budgets "2024-02"
    = Ok (report, db')
    /\ map info_amount_spent (report_budgets report) = [0%Q; 0%Q]
    /\ map info_status (report_budgets report) = [on_track; on_track]
    /\ report_alerts report = []
    /\ (monthly_expense_total ledger_stale_budgets 2 2024 2 == 70)%Q.
Proof.
  eexists. eexists. split; [vm_compute; reflexivity|].
  vm_compute. repeat split.
Qed.


(** ** Month labels *)

Lemma digits_value_uint_acc (d : Decimal.uint) (acc : positive) :
  digits_value (NilEmpty.string_of_uint d) (Z.pos acc)
  = Some (Z.pos (Pos.of_uint_acc d acc)).
Proof.
  revert acc. induction d; intro acc;
    cbn [NilEmpty.string_of_uint digits_value Pos.of_uint_acc];
    try reflexivity;
    match goal with
    | |- context [Re.is_digit ?c] =>
        change (Re.is_digit c) with true; cbv iota
    end;
    match goal with
    | |- context [(Z.of_nat (nat_of_ascii ?c) - 48)%Z] =>
        let v := eval vm_compute in (Z.of_nat (nat_of_ascii c) - 48)%Z in
        change (Z.of_nat (nat_of_ascii c) - 48)%Z with v
    end;
    match goal with
    | |- digits_value _ ?z = Some (Z.pos (Pos.of_uint_acc _ ?a)) =>
        replace z with (Z.pos a) by lia
    end;
    apply IHd.
Qed.

Lemma digits_value_uint (d : Decimal.uint) :
  digits_value (NilEmpty.string_of_uint d) 0 = Some (Z.of_N (Pos.of_uint d)).
Proof.
  induction d;
    cbn [NilEmpty.string_of_uint digits_value Pos.of_uint];
    try reflexivity;
    match goal with
    | |- context [Re.is_digit ?c] =>
        change (Re.is_digit c) with true; cbv iota
    end;
    [exact IHd | ..];
    match goal with
    | |- digits_value _ ?z = Some (Z.of_N (N.pos (Pos.of_uint_acc _ ?a))) =>
        change z with (Z.pos a)
    end;
    apply digits_value_uint_acc.
Qed.

Lemma py_int_py_str (n : Z) : (0 <= n)%Z -> py_int (py_str n) = Ok n.
Proof.
  intro H. destruct n as [|p|p]; [reflexivity| |lia].
  unfold py_str, Z.to_int, NilZero.string_of_int, NilZero.string_of_uint.
  pose proof (Unsigned.to_uint_nonnil p) as Nn.
  pose proof (digits_value_uint (Pos.to_uint p)) as Dv.
  rewrite Unsigned.of_to in Dv.
  destruct (Pos.to_uint p) eqn:E; [congruence| ..];
    unfold py_int; cbn [NilEmpty.string_of_uint] in *; rewrite Dv; reflexivity.
Qed.

Lemma uint_digits (d : Decimal.uint) :
  forallb Re.is_digit (list_ascii_of_string (NilEmpty.string_of_uint d)) = true.
Proof.
  induction d; cbn [NilEmpty.string_of_uint list_ascii_of_string forallb];
    try reflexivity;
    match goal with
    | |- context [Re.is_digit ?c] => change (Re.is_digit c) with true
    end; exact IHd.
Qed.

Lemma py_str_digits (n : Z) :
  (0 <= n)%Z ->
  forallb Re.is_digit (list_ascii_of_string (py_str n)) = true.
Proof.
  intro H. destruct n as [|p|p]; [reflexivity| |lia].
  unfold py_str, Z.to_int, NilZero.string_of_int, NilZero.string_of_uint.
  destruct (Pos.to_uint p) eqn:E; [reflexivity| ..]; rewrite <- E;
    apply uint_digits.
Qed.

Lemma split_digits (s : string) :
  forallb Re.is_digit (list_ascii_of_string s) = true ->
  split "-" s = [s].
Proof.
  induction s as [|c s IH]; cbn [list_ascii_of_string forallb split]; intro H.
  - reflexivity.
  - apply andb_true_iff in H. destruct H as [Hc Hs].
    rewrite (@digit_not_dash _ Hc), (IH Hs). reflexivity.
Qed.

Lemma split_label (s t : string) :
  forallb Re.is_digit (list_ascii_of_string s) = true ->
  forallb Re.is_digit (list_ascii_of_string t) = true ->
  split "-" (s ++ String "-" t)%string = [s; t].
Proof.
  intros Hs Ht. induction s as [|c s IH]; cbn [String.append split].
  - rewrite Ascii.eqb_refl, (@split_digits _ Ht). reflexivity.
  - cbn [list_ascii_of_string forallb] in Hs.
    apply andb_true_iff in Hs. destruct Hs as [Hc Hs].
    rewrite (@digit_not_dash _ Hc), (IH Hs). reflexivity.
Qed.

Lemma month_cases (m : Z) :
  (1 <= m <= 12)%Z ->
  m = 1%Z \/ m = 2%Z \/ m = 3%Z \/ m = 4%Z \/ m = 5%Z \/ m = 6%Z \/ m = 7%Z
  \/ m = 8%Z \/ m = 9%Z \/ m = 10%Z \/ m = 11%Z \/ m = 12%Z.
Proof. lia. Qed.

(** The budget code reads a month label back as the year and month it was
    written from. *)
Lemma parse_month_label (y m : Z) :
  (0 <= y)%Z -> (1 <= m <= 12)%Z ->
  parse_month (year_month_label y m) = Ok (y, m).
Proof.
  intros Hy Hm. unfold parse_month, year_month_label.
  assert (Dm : forallb Re.is_digit (list_ascii_of_string (zero_pad 2 m)) = true
               /\ py_int (zero_pad 2 m) = Ok m).
  { destruct (@month_cases _ Hm) as [E|[E|[E|[E|[E|[E|[E|[E|[E|[E|[E|E]]]]]]]]]]];
      subst m; split; reflexivity. }
  destruct Dm as [Dm Im].
  change ("-" ++ zero_pad 2 m)%string with (String "-" (zero_pad 2 m)).
  rewrite (@split_label _ _ (@py_str_digits _ Hy) Dm).
  rewrite (@py_int_py_str _ Hy). cbn [bind]. rewrite Im. reflexivity.
Qed.

Lemma calendar_range_ok (y m : Z) (r : datetime * datetime) :
  calendar_range y m = Ok r ->
  representable y m = true
  /\ r = (month_start (y, m), month_start (next_month y m)).
Proof.
  unfold calendar_range, first_of_month, representable, is_calendar_month,
    next_month, month_start, MINYEAR, MAXYEAR. intro H.
  destruct ((1 <=? y)%Z && (y <=? 9999)%Z && (1 <=? m)%Z && (m <=? 12)%Z)
    eqn:V; [|discriminate H].
  cbn [bind] in H.
  destruct (m =? 12)%Z eqn:E.
  - destruct ((1 <=? y + 1)%Z && (y + 1 <=? 9999)%Z && (1 <=? 1)%Z
              && (1 <=? 12)%Z) eqn:W; [|discriminate H].
    cbn [bind] in H. inversion H. split; [|reflexivity].
    cbn [andb]. rewrite negb_true_iff, andb_true_r.
    apply Z.eqb_neq.
    repeat (apply andb_true_iff in W; destruct W as [W ?]).
    apply Z.leb_le in H2. lia.
  - destruct ((1 <=? y)%Z && (y <=? 9999)%Z && (1 <=? m + 1)%Z
              && (m + 1 <=? 12)%Z) eqn:W; [|discriminate H].
    cbn [bind] in H. inversion H. split; [|reflexivity].
    rewrite andb_false_r. reflexivity.
Qed.

Lemma calendar_range_representable (y m : Z) :
  representable y m = true ->
  calendar_range y m = Ok (month_start (y, m), month_start (next_month y m)).
Proof.
  intro R.
  pose proof R as R'. unfold representable, is_calendar_month in R'.
  repeat (apply andb_true_iff in R'; destruct R' as [R' ?]).
  apply Z.leb_le in R', H2, H1, H0.
  pose proof (@parse_month_label y m ltac:(lia) ltac:(lia)) as P.
  pose proof (@month_range_representable _ _ _ P R) as M.
  unfold month_range in M. rewrite P in M. cbn [bind] in M. exact M.
Qed.

(** ** Spending by category in the monthly analytics *)

Lemma py_sum_Qsum (xs : list Q) : (py_sum xs == Qsum xs)%Q.
Proof.
  unfold py_sum, Qsum. rewrite fold_left_Qplus. ring.
Qed.

Lemma get_or_zero_set_same (k : string) (v : Q) (d : list (string * Q)) :
  get_or_zero k (Dict.set k v d) = v.
Proof.
  unfold get_or_zero. rewrite dict_get_set_same. reflexivity.
Qed.

Lemma get_or_zero_set_other (k k' : string) (v : Q) (d : list (string * Q)) :
  k' <> k -> get_or_zero k' (Dict.set k v d) = get_or_zero k' d.
Proof.
  intro H. unfold get_or_zero. rewrite (@dict_get_set_other _ _ _ v d H).
  reflexivity.
Qed.

Lemma find_unique_id (cs : list Category.t) (c : Category.t) :
  NoDup (map Category.id cs) -> In c cs ->
  find (fun row => (Category.id row =? Category.id c)%Z) cs = Some c.
Proof.
  induction cs as [|x cs IH]; simpl; intros Hn Hin.
  - contradiction.
  - inversion Hn as [|? ? Hx Hcs]; subst.
    destruct Hin as [E|Hin].
    + subst x. rewrite Z.eqb_refl. reflexivity.
    + destruct (Z.eqb_spec (Category.id x) (Category.id c)) as [E|_].
      * exfalso. apply Hx. rewrite E. apply in_map. exact Hin.
      * apply IH; assumption.
Qed.

Lemma unique_name (cs : list Category.t) (c c' : Category.t) :
  NoDup (map Category.name cs) -> In c cs -> In c' cs ->
  Category.name c' = Category.name c -> c' = c.
Proof.
  induction cs as [|x cs IH]; simpl; intros Hn Hc Hc' E.
  - contradiction.
  - inversion Hn as [|? ? Hx Hcs]; subst.
    destruct Hc as [Ec|Hc], Hc' as [Ec'|Hc'].
    + congruence.
    + subst x. exfalso. apply Hx. rewrite <- E. apply in_map. exact Hc'.
    + subst x. exfalso. apply Hx. rewrite E. apply in_map. exact Hc.
    + apply IH; assumption.
Qed.

(** With unique ids and names, "the transaction's category is called like
    [c]" and "the transaction's category id is [c]'s" are the same test. *)
Lemma named_like_is_id (db : Session) (c : Category.t) (t : Transaction.t) :
  NoDup (map Category.id (categories db)) ->
  NoDup (map Category.name (categories db)) ->
  In c (categories db) ->
  match transaction_category db t with
  | Some c' => String.eqb (Category.name c') (Category.name c)
  | None => false
  end
  = opt_Z_eqb (Transaction.category_id t) (Category.id c).
Proof.
  intros Hi Hn Hc. unfold transaction_category, opt_Z_eqb.
  destruct (Transaction.category_id t) as [i|]; [|reflexivity].
  destruct (Z.eqb_spec i (Category.id c)) as [E|N].
  - subst i. rewrite (@find_unique_id _ _ Hi Hc). apply String.eqb_refl.
  - destruct (find (fun row => (Category.id row =? i)%Z) (categories db))
      as [c'|] eqn:F; [|reflexivity].
    apply find_some in F. destruct F as [Hc' E]. apply Z.eqb_eq in E.
    apply String.eqb_neq. intro En.
    apply N. rewrite <- E. f_equal.
    apply (@unique_name _ _ _ Hn Hc Hc' En).
Qed.

(** The grouping loop adds the amounts of a name to the entry of that name,
    one after the other in ledger order. *)
Lemma category_expenses_loop_fold (db : Session) (k : string)
    (ts : list Transaction.t) (acc : list (string * Q)) :
  get_or_zero k (category_expenses_loop db ts acc)
  = fold_left Qplus
      (map Transaction.amount
           (filter (fun t => is_expense (Transaction.transaction_type t)
                             && in_category db k t) ts))
      (get_or_zero k acc).
Proof.
  revert acc. induction ts as [|t ts IH]; intro acc;
    cbn [category_expenses_loop filter].
  - reflexivity.
  - rewrite IH. clear IH. unfold in_category at 2.
    destruct (is_expense (Transaction.transaction_type t)); cbn [andb];
      [|reflexivity].
    destruct (transaction_category db t) as [c|]; [|reflexivity].
    destruct (String.eqb_spec (Category.name c) k) as [E|N].
    + subst k. rewrite get_or_zero_set_same. reflexivity.
    + rewrite get_or_zero_set_other by congruence. reflexivity.
Qed.

(** X19: the category breakdown of [get_monthly_analytics] and the spend
    of the budget code are different numbers.  When category ids and
    category names are unique, an answer of the analytics endpoint lists
    distinct names, and under the name of each category the sum, from 0 and
    in ledger order, of the amounts of the month's expenses of that
    category (0 when the name is not listed), while
    [_calculate_current_spending] returns 0 for the same category and the
    month label of the answer: the handler tests [.value] on the loaded
    rows, the budget code compares the stored column with ["expense"]. *)
Theorem analytics_breakdown_is_not_budget_spend
    (db : Session) (now : datetime) (year_arg month_arg : option Z)
    (y m : Z) (a : MonthlyAnalytics) :
  NoDup (map Category.id (categories db)) ->
  NoDup (map Category.name (categories db)) ->
  requested_month now year_arg month_arg = (y, m) ->
  get_monthly_analytics db now year_arg month_arg = Ok a ->
  ma_month a = year_month_label y m
  /\ NoDup (map fst (ma_category_breakdown a))
  /\ forall c,
       In c (categories db) ->
       get_or_zero (Category.name c) (ma_category_breakdown a)
       = py_sum (map Transaction.amount
                     (filter (fun t =>
                                is_expense (Transaction.transaction_type t)
                                && opt_Z_eqb (Transaction.category_id t)
                                             (Category.id c))
                             (month_transactions db y m)))
       /\ _calculate_current_spending db (Category.id c) (ma_month a) = 0%Q.
Proof.
  intros Hi Hn Hr H. unfold get_monthly_analytics in H.
  unfold requested_month in Hr. rewrite Hr in H.
  destruct (calendar_range y m) as [[start_date end_date]|e] eqn:R;
    [|discriminate H].
  cbn [bind] in H. inversion H; subst a; clear H.
  cbn [ma_category_breakdown ma_month].
  destruct (@calendar_range_ok _ _ _ R) as [Rep Er].
  inversion Er; subst start_date end_date; clear Er.
  fold (month_transactions db y m).
  split; [reflexivity|].
  split.
  - generalize (month_transactions db y m). intro ts.
    assert (G : forall acc, NoDup (map fst acc) ->
                NoDup (map fst (category_expenses_loop db ts acc))).
    { induction ts as [|t ts IH]; intros acc Ha; cbn [category_expenses_loop].
      - exact Ha.
      - apply IH.
        destruct (is_expense _); [|exact Ha].
        destruct (transaction_category db t); [|exact Ha].
        apply dict_set_NoDup. exact Ha. }
    apply G. constructor.
  - intros c Hc. split; [|apply calculate_current_spending_zero].
    rewrite category_expenses_loop_fold.
    unfold py_sum. f_equal. f_equal. apply filter_ext. intro t.
    unfold in_category. rewrite (@named_like_is_id _ _ t Hi Hn Hc).
    reflexivity.
Qed.

Lemma analytics_breakdown_is_not_budget_spend_witness :
  exists a,
    get_monthly_analytics ledger_two_categories (noon 2024 2 25)
      (Some 2024%Z) (Some 2%Z) = Ok a
    /\ (get_or_zero "Food & Dining" (ma_category_breakdown a) == 42)%Q
    /\ _calculate_current_spending ledger_two_categories 1 (ma_month a)
       = 0%Q.
Proof.
  destruct (get_monthly_analytics ledger_two_categories (noon 2024 2 25)
              (Some 2024%Z) (Some 2%Z)) as [a|e] eqn:E;
    [|vm_compute in E; discriminate E].
  destruct (@analytics_breakdown_is_not_budget_spend ledger_two_categories
              (noon 2024 2 25) (Some 2024%Z) (Some 2%Z) 2024 2 a)
    as (_ & _ & H).
  - repeat constructor; simpl; intuition discriminate.
  - repeat constructor; simpl; intuition discriminate.
  - reflexivity.
  - exact E.
  - destruct (H (Category.mk 1 "Food & Dining" None None None true)
                (or_introl eq_refl)) as [B Z0].
    exists a. split; [reflexivity|]. split; [|exact Z0].
    cbn [Category.name Category.id] in B. rewrite B.
    vm_compute. reflexivity.
Defined.



(** ** Calendar months and days *)

Lemma range_from_1_In (n d : Z) :
  In d (range_from_1 n) <-> (1 <= d <= n)%Z.
Proof.
  unfold range_from_1. rewrite in_map_iff. split.
  - intros [k [E H]]. apply in_seq in H. lia.
  - intro H. exists (Z.to_nat d). split; [lia|]. apply in_seq. lia.
Qed.

Lemma range_from_1_NoDup (n : Z) : NoDup (range_from_1 n).
Proof.
  unfold range_from_1. apply Finite.Injective_map_NoDup.
  - intros a b E. lia.
  - apply seq_NoDup.
Qed.

(** ** Sorting by amount *)

Lemma insert_desc_perm {A : Type} (key : A -> Q) (x : A) (l : list A) :
  Permutation (insert_desc key x l) (x :: l).
Proof.
  induction l as [|y l IH]; cbn [insert_desc].
  - reflexivity.
  - destruct (Qgtb (key y) (key x)); [|reflexivity].
    rewrite IH. apply perm_swap.
Qed.

Lemma sort_desc_perm {A : Type} (key : A -> Q) (l : list A) :
  Permutation (sort_desc key l) l.
Proof.
  unfold sort_desc. induction l as [|x l IH]; cbn [fold_right].
  - reflexivity.
  - rewrite insert_desc_perm. constructor. exact IH.
Qed.

Lemma insert_desc_Sorted {A : Type} (key : A -> Q) (x : A) (l : list A) :
  Sorted (fun a b => (key b <= key a)%Q) l ->
  Sorted (fun a b => (key b <= key a)%Q) (insert_desc key x l).
Proof.
  induction l as [|y l IH]; cbn [insert_desc]; intro S.
  - repeat constructor.
  - destruct (Qgtb (key y) (key x)) eqn:E.
    + apply Qgtb_true in E. inversion S as [|? ? S' Hd]; subst.
      constructor; [apply IH; exact S'|].
      destruct l as [|z l]; cbn [insert_desc].
      * constructor. apply Qlt_le_weak. exact E.
      * destruct (Qgtb (key z) (key x)).
        -- inversion Hd; subst. constructor. assumption.
        -- constructor. apply Qlt_le_weak. exact E.
    + apply Qgtb_false in E. constructor; [exact S|]. constructor. exact E.
Qed.

Lemma sort_desc_Sorted {A : Type} (key : A -> Q) (l : list A) :
  Sorted (fun a b => (key b <= key a)%Q) (sort_desc key l).
Proof.
  unfold sort_desc. induction l as [|x l IH]; cbn [fold_right].
  - constructor.
  - apply insert_desc_Sorted. exact IH.
Qed.

Lemma firstn_Sorted {A : Type} (R : A -> A -> Prop) (n : nat) (l : list A) :
  Sorted R l -> Sorted R (firstn n l).
Proof.
  revert l. induction n as [|n IH]; intros l S; cbn [firstn].
  - constructor.
  - destruct l as [|x l]; [constructor|].
    inversion S as [|? ? S' Hd]; subst. constructor; [apply IH; exact S'|].
    destruct l as [|y l]; destruct n; cbn [firstn]; constructor.
    inversion Hd; subst. assumption.
Qed.

Lemma firstn_In {A : Type} (n : nat) (l : list A) (x : A) :
  In x (firstn n l) -> In x l.
Proof.
  intro H. rewrite <- (firstn_skipn n l). apply in_or_app. left. exact H.
Qed.

Lemma firstn_NoDup {A : Type} (n : nat) (l : list A) :
  NoDup l -> NoDup (firstn n l).
Proof.
  intro H. rewrite <- (firstn_skipn n l) in H.
  apply NoDup_app_remove_r in H. exact H.
Qed.

(** ** Categories in the monthly report *)

Lemma dict_get_In {V : Type} (k : string) (v : V) (d : list (string * V)) :
  NoDup (map fst d) -> In (k, v) d -> Dict.get k d = Some v.
Proof.
  unfold Dict.get. induction d as [|[k' w] d IH]; cbn [map fst find];
    intros Hn Hin.
  - contradiction.
  - inversion Hn as [|? ? Hk Hd]; subst.
    destruct Hin as [E|Hin].
    + inversion E; subst. cbn [fst]. rewrite String.eqb_refl. reflexivity.
    + cbn [fst]. destruct (String.eqb_spec k' k) as [E|_].
      * subst k'. exfalso. apply Hk.
        apply (in_map fst) in Hin. exact Hin.
      * apply IH; assumption.
Qed.

Lemma non_income_split (ts : list Transaction.t) :
  (Qsum (map Transaction.amount
           (filter (fun t => negb (is_income (Transaction.transaction_type t)))
                   ts))
   == Qsum (typed_amounts EXPENSE ts) + Qsum (typed_amounts TRANSFER ts))%Q.
Proof.
  unfold typed_amounts, Qsum.
  induction ts as [|t ts IH]; cbn [filter map fold_right].
  - ring.
  - destruct (Transaction.transaction_type t);
      try (change (is_income INCOME) with true);
      try (change (is_income EXPENSE) with false);
      try (change (is_income TRANSFER) with false);
      cbn [negb type_eqb map fold_right]; rewrite IH; ring.
Qed.

Lemma income_typed (ts : list Transaction.t) :
  map Transaction.amount
      (filter (fun t => is_income (Transaction.transaction_type t)) ts)
  = typed_amounts INCOME ts.
Proof.
  unfold typed_amounts. f_equal. apply filter_ext. intro t.
  destruct (Transaction.transaction_type t); reflexivity.
Qed.

Lemma expense_typed (ts : list Transaction.t) :
  map Transaction.amount
      (filter (fun t => is_expense (Transaction.transaction_type t)) ts)
  = typed_amounts EXPENSE ts.
Proof.
  unfold typed_amounts. f_equal. apply filter_ext. intro t.
  destruct (Transaction.transaction_type t); reflexivity.
Qed.

Lemma category_totals_loop_NoDup (db : Session) (ts : list Transaction.t)
    (acc : list (string * (Q * Q))) :
  NoDup (map fst acc) ->
  NoDup (map fst (category_totals_loop db ts acc)).
Proof.
  revert acc. induction ts as [|t ts IH]; intros acc Ha;
    cbn [category_totals_loop].
  - exact Ha.
  - apply IH. destruct (transaction_category db t); [|exact Ha].
    apply dict_set_NoDup. exact Ha.
Qed.

Lemma category_totals_loop_get (db : Session) (k : string)
    (ts : list Transaction.t) (acc : list (string * (Q * Q))) :
  let pair_of d := match Dict.get k d with
                   | Some a => a
                   | None => (0%Q, 0%Q)
                   end in
  let rows := filter (in_category db k) ts in
  (fst (pair_of (category_totals_loop db ts acc))
   == fst (pair_of acc)
      + Qsum (map Transaction.amount
                (filter (fun t => is_income (Transaction.transaction_type t))
                        rows)))%Q
  /\ (snd (pair_of (category_totals_loop db ts acc))
      == snd (pair_of acc)
         + Qsum (map Transaction.amount
                   (filter (fun t =>
                              negb (is_income (Transaction.transaction_type t)))
                           rows)))%Q.
Proof.
  cbv zeta. revert acc. induction ts as [|t ts IH]; intro acc;
    cbn [category_totals_loop filter].
  - cbn. split; ring.
  - match goal with
    | |- context [category_totals_loop db ts ?a] =>
        destruct (IH a) as [I1 I2]
    end.
    rewrite I1, I2. clear I1 I2 IH.
    assert (Ic : in_category db k t
                 = match transaction_category db t with
                   | Some c => String.eqb (Category.name c) k
                   | None => false
                   end) by reflexivity.
    destruct (transaction_category db t) as [c|];
      [|rewrite Ic; split; reflexivity].
    destruct (String.eqb_spec (Category.name c) k) as [E|N]; rewrite Ic.
    + subst k. rewrite dict_get_set_same. cbn [filter].
      destruct (is_income (Transaction.transaction_type t));
        cbn [negb fst snd map]; unfold Qsum; cbn [fold_right];
        split; ring.
    + rewrite (@dict_get_set_other _ _ _ _ acc (not_eq_sym N)).
      split; reflexivity.
Qed.

(** X21: what the category table of [get_monthly_report] holds, and how the
    endpoint fails.  A month number outside 1..12 is answered with a 500:
    the handler's own 400 is caught by its [except Exception].  In a report
    that is produced, [top_categories] has at most 10 rows with distinct
    names, ordered by [total] with the largest first; each row's [total] is
    [expenses + income], its [income] is the sum of the month's income
    transactions whose category carries the row's name, and its [expenses]
    is the sum of the month's expense transactions of that name plus the
    sum of its transfers, which the report's own expense total leaves
    out. *)
Theorem monthly_report_categories (db : Session) (y m : Z) :
  ((m < 1 \/ 12 < m)%Z ->
   get_monthly_report db y m = Raise (HTTPException 500))
  /\ forall r,
       get_monthly_report db y m = Ok r ->
       (List.length (mr_top_categories r) <= 10)%nat
       /\ NoDup (map ct_category (mr_top_categories r))
       /\ Sorted (fun a b => (ct_total b <= ct_total a)%Q)
                 (mr_top_categories r)
       /\ (mr_expenses r
           == Qsum (typed_amounts EXPENSE (month_transactions db y m)))%Q
       /\ forall row,
            In row (mr_top_categories r) ->
            let rows := filter (in_category db (ct_category row))
                               (month_transactions db y m) in
            ct_total row = (ct_expenses row + ct_income row)%Q
            /\ (ct_income row == Qsum (typed_amounts INCOME rows))%Q
            /\ (ct_expenses row
                == Qsum (typed_amounts EXPENSE rows)
                   + Qsum (typed_amounts TRANSFER rows))%Q.
Proof.
  split.
  - intro H. unfold get_monthly_report.
    replace ((m <? 1)%Z || (m >? 12)%Z) with true; [reflexivity|].
    symmetry. apply orb_true_iff. rewrite Z.gtb_ltb.
    destruct H; [left|right]; apply Z.ltb_lt; assumption.
  - intros r H. unfold get_monthly_report in H.
    destruct ((m <? 1)%Z || (m >? 12)%Z); [discriminate H|].
    destruct (calendar_range y m) as [[start_date end_date]|e] eqn:R;
      [|discriminate H].
    destruct (@calendar_range_ok _ _ _ R) as [Rep Er].
    inversion Er; subst start_date end_date; clear Er.
    cbv beta iota zeta delta [bind or_500] in H.
    fold (month_transactions db y m) in H.
    apply (f_equal (fun x => match x with Ok a => a | Raise _ => r end)) in H.
    cbv beta iota in H. subst r.
    cbv beta iota delta [mr_top_categories mr_expenses].
    set (d := category_totals_loop db (month_transactions db y m) []).
    assert (Nd : NoDup (map fst d)).
    { apply category_totals_loop_NoDup. constructor. }
    assert (Names : map ct_category (map category_total d) = map fst d).
    { rewrite map_map. apply map_ext. intros [k [i e]]. reflexivity. }
    split; [apply firstn_le_length|].
    split.
    { rewrite <- firstn_map. apply firstn_NoDup.
      apply (Permutation_NoDup
               (Permutation_map ct_category
                  (Permutation_sym (sort_desc_perm ct_total
                                      (map category_total d))))).
      rewrite Names. exact Nd. }
    split; [apply firstn_Sorted; apply sort_desc_Sorted|].
    split.
    { unfold expenses_of. rewrite py_sum_Qsum, expense_typed. reflexivity. }
    intros row Hrow. cbv zeta.
    apply firstn_In in Hrow.
    apply (Permutation_in _ (sort_desc_perm ct_total _)) in Hrow.
    apply in_map_iff in Hrow. destruct Hrow as [[k [i e]] [E Hin]].
    subst row. cbn [category_total ct_total ct_expenses ct_income ct_category].
    split; [reflexivity|].
    pose proof (@dict_get_In _ _ _ _ Nd Hin) as G.
    destruct (category_totals_loop_get db k (month_transactions db y m) [])
      as [I1 I2].
    fold d in I1, I2. rewrite G in I1, I2.
    cbn [Dict.get find option_map fst snd] in I1, I2.
    rewrite income_typed in I1. rewrite non_income_split in I2.
    split; [rewrite I1|rewrite I2]; ring.
Qed.


(** ** The months of the yearly report *)

Lemma update_month_map (m : Z) (f : MonthData -> MonthData)
    (d : list (Z * MonthData)) :
  NoDup (map fst d) -> In m (map fst d) ->
  update_month m f d
  = Some (map (fun e => if (fst e =? m)%Z then (fst e, f (snd e)) else e) d).
Proof.
  induction d as [|[k v] d IH]; cbn [map fst snd In update_month];
    intros Hn Hin.
  - contradiction.
  - inversion Hn as [|? ? Hk Hd]; subst.
    destruct (Z.eqb_spec k m) as [E|N].
    + subst k. f_equal. f_equal. symmetry.
      rewrite <- (map_id d) at 2. apply map_ext_in. intros e He.
      destruct (Z.eqb_spec (fst e) m) as [E|_]; [|reflexivity].
      exfalso. apply Hk. rewrite <- E. apply in_map. exact He.
    + destruct Hin as [E|Hin]; [contradiction|].
      rewrite (IH Hd Hin). reflexivity.
Qed.

Lemma month_total_step (t : Transaction.t) (ts : list Transaction.t)
    (e : Z * MonthData) :
  month_total ts
    (if (fst e =? month (Transaction.timestamp t))%Z
     then (fst e, add_to_month t (snd e)) else e)
  = month_total (t :: ts) e.
Proof.
  destruct e as [k v]. cbn [fst snd].
  rewrite (Z.eqb_sym k (month (Transaction.timestamp t))).
  unfold month_total, month_amounts.
  destruct (month (Transaction.timestamp t) =? k)%Z eqn:E;
    cbn [fst snd filter]; rewrite E; cbn [andb]; [|reflexivity].
  unfold add_to_month.
  destruct (is_income (Transaction.transaction_type t));
    cbn [Bool.eqb map fold_left md_income md_expenses md_savings];
    reflexivity.
Qed.

(** The month loop leaves every month with its own amounts added, one
    after the other in ledger order. *)
Lemma monthly_data_loop_map (ts : list Transaction.t)
    (d : list (Z * MonthData)) :
  NoDup (map fst d) ->
  (forall t, In t ts -> In (month (Transaction.timestamp t)) (map fst d)) ->
  monthly_data_loop ts d = Some (map (month_total ts) d).
Proof.
  revert d. induction ts as [|t ts IH]; intros d Hn H;
    cbn [monthly_data_loop].
  - f_equal. rewrite <- (map_id d) at 1. apply map_ext.
    intros [k [i x s]]. reflexivity.
  - rewrite (@update_month_map _ (add_to_month t) d Hn
               (H t (or_introl eq_refl))).
    assert (K : map fst
                  (map (fun e =>
                          if (fst e =? month (Transaction.timestamp t))%Z
                          then (fst e, add_to_month t (snd e)) else e) d)
                = map fst d).
    { rewrite map_map. apply map_ext. intro e.
      destruct (fst e =? month (Transaction.timestamp t))%Z; reflexivity. }
    rewrite IH.
    + f_equal. rewrite map_map. apply map_ext. intro e.
      apply month_total_step.
    + rewrite K. exact Hn.
    + intros x Hx. rewrite K. apply H. right. exact Hx.
Qed.

Lemma year_transactions_months (db : Session) (y : Z) :
  stamped db ->
  forall t, In t (year_transactions db y) ->
    In (month (Transaction.timestamp t)) (range_from_1 12).
Proof.
  intros S t Ht. unfold year_transactions in Ht.
  apply filter_In in Ht. destruct Ht as [Hin _].
  unfold stamped in S. rewrite Forall_forall in S.
  pose proof (S t Hin) as V. unfold is_datetime in V.
  repeat (apply andb_true_iff in V; destruct V as [V ?]).
  repeat match goal with
         | H : (_ <=? _)%Z = true |- _ => apply Z.leb_le in H
         end.
  apply range_from_1_In. lia.
Qed.

(** X22: what the month rows of [get_yearly_report] hold.  For a ledger of
    well-formed timestamps: a year outside 1..9998 is answered with a 500
    (the year after it cannot be written as a date); for the other years
    the report is produced and [monthly_breakdown] has the twelve months
    of the year in order.  The [income] of a month is the sum, from 0 and
    in ledger order, of the amounts of the year's income transactions
    stamped in that month; its [expenses] are the sum of the amounts of all
    its other transactions, transfers included, because the month loop
    books everything that is not an income as an expense; its [savings]
    are [income - expenses].  The yearly [total_expenses] are the sum over
    the transactions of type expense only. *)
Theorem yearly_report_month_rows (db : Session) (y : Z) :
  stamped db ->
  ((y < 1 \/ 9998 < y)%Z ->
   get_yearly_report db y = Raise (HTTPException 500))
  /\ ((1 <= y <= 9998)%Z ->
      exists r,
        get_yearly_report db y = Ok r
        /\ yr_year r = y
        /\ yr_transaction_count r = List.length (year_transactions db y)
        /\ yr_monthly_breakdown r
           = map (fun m =>
                    let income :=
                      py_sum (month_amounts true m (year_transactions db y)) in
                    let expenses :=
                      py_sum (month_amounts false m (year_transactions db y))
                    in
                    mkMonthRow (year_month_label y m) (month_name m)
                               income expenses (income - expenses)%Q)
                 (range_from_1 12)
        /\ yr_total_income r = income_of (year_transactions db y)
        /\ yr_total_expenses r = expenses_of (year_transactions db y)).
Proof.
  intro S. split.
  - intro H. unfold get_yearly_report, first_of_month, MINYEAR, MAXYEAR.
    destruct H as [H|H].
    + replace (1 <=? y)%Z with false by (symmetry; apply Z.leb_gt; lia).
      reflexivity.
    + destruct ((1 <=? y)%Z && (y <=? 9999)%Z && (1 <=? 1)%Z && (1 <=? 12)%Z);
        [|reflexivity].
      cbn [bind].
      replace (y + 1 <=? 9999)%Z with false by (symmetry; apply Z.leb_gt; lia).
      rewrite andb_false_r. reflexivity.
  - intro H. unfold get_yearly_report, first_of_month, MINYEAR, MAXYEAR.
    replace (1 <=? y)%Z with true by (symmetry; apply Z.leb_le; lia).
    replace (y <=? 9999)%Z with true by (symmetry; apply Z.leb_le; lia).
    replace (1 <=? y + 1)%Z with true by (symmetry; apply Z.leb_le; lia).
    replace (y + 1 <=? 9999)%Z with true by (symmetry; apply Z.leb_le; lia).
    cbn [andb Z.leb Z.compare Pos.compare Pos.compare_cont bind].
    change (mkDatetime y 1 1 0 0 0 0) with (month_start (y, 1%Z)).
    change (mkDatetime (y + 1) 1 1 0 0 0 0)
      with (month_start ((y + 1)%Z, 1%Z)).
    fold (year_transactions db y).
    rewrite (@monthly_data_loop_map (year_transactions db y)
               (map (fun m => (m, mkMonthData 0 0 0)) (range_from_1 12))).
    2: { rewrite map_map. cbn [fst]. rewrite map_id.
         apply range_from_1_NoDup. }
    2: { intros t Ht. rewrite map_map. cbn [fst]. rewrite map_id.
         apply (@year_transactions_months db y S t Ht). }
    assert (Rate : exists q,
              (if Qgtb (income_of (year_transactions db y)) 0
               then q0 <- py_div (income_of (year_transactions db y)
                                  - expenses_of (year_transactions db y))
                                 (income_of (year_transactions db y)) ;;
                    Ok (q0 * 100)%Q
               else Ok 0%Q) = Ok q).
    { destruct (Qgtb (income_of (year_transactions db y)) 0) eqn:G.
      - apply Qgtb_true in G. rewrite (@py_div_pos _ _ G). cbn [bind].
        eexists. reflexivity.
      - eexists. reflexivity. }
    destruct Rate as [q Eq]. rewrite Eq.
    cbv beta iota delta [bind or_500].
    eexists. split; [reflexivity|].
    cbv beta iota delta [yr_year yr_transaction_count yr_monthly_breakdown
                         yr_total_income yr_total_expenses yr_total_savings].
    split; [reflexivity|]. split; [reflexivity|].
    split; [|split; reflexivity].
    rewrite !map_map. apply map_ext. intro m. reflexivity.
Qed.

Lemma yearly_report_month_rows_witness :
  get_yearly_report ledger_two_categories 9999 = Raise (HTTPException 500)
  /\ exists r,
       get_yearly_report ledger_two_categories 2024 = Ok r
       /\ map row_expenses (yr_monthly_breakdown r)
          = map (fun m =>
                   py_sum (month_amounts false m
                             (year_transactions ledger_two_categories 2024)))
                (range_from_1 12).
Proof.
  assert (S : stamped ledger_two_categories) by (repeat constructor).
  split.
  - apply (proj1 (@yearly_report_month_rows ledger_two_categories 9999 S)).
    right. reflexivity.
  - destruct (proj2 (@yearly_report_month_rows ledger_two_categories 2024 S))
      as (r & E & _ & _ & B & _).
    + split; discriminate.
    + exists r. split; [exact E|]. rewrite B, map_map. reflexivity.
Defined.

(** In 2024 the ledger holds a transfer of 15 in February: the row of
    February shows expenses of 135, of which 120 are expenses, and the
    twelve rows add up to 635 where the yearly total is 620. *)
Example yearly_report_books_transfer :
  exists r,
    get_yearly_report ledger_two_categories 2024 = Ok r
    /\ (nth 1 (map row_expenses (yr_monthly_breakdown r)) 0 == 135)%Q
    /\ (py_sum (map row_expenses (yr_monthly_breakdown r)) == 635)%Q
    /\ (yr_total_expenses r == 620)%Q.
Proof.
  eexists. split; [vm_compute; reflexivity|].
  vm_compute. repeat split.
Qed.



(** ** Normalising stored spellings *)

Lemma value_eqb_eq (a b : option string) : value_eqb a b = true <-> a = b.
Proof.
  destruct a as [s|], b as [t|]; cbn [value_eqb];
    try (split; [discriminate|discriminate]);
    try (split; reflexivity).
  rewrite String.eqb_eq. split; [intros ->; reflexivity|].
  intro E. inversion E. reflexivity.
Qed.

Lemma value_eqb_refl (a : option string) : value_eqb a a = true.
Proof. apply value_eqb_eq. reflexivity. Qed.

Lemma distinct_In (x : option string) (col : Column) :
  In x (distinct col) <-> In x col.
Proof.
  induction col as [|v col IH]; cbn [distinct In].
  - reflexivity.
  - rewrite filter_In, IH. split.
    + intros [E|[H _]]; [left; exact E|right; exact H].
    + intros [E|H]; [left; exact E|].
      destruct (value_eqb x v) eqn:E.
      * left. apply value_eqb_eq in E. congruence.
      * right. split; [exact H|reflexivity].
Qed.

Lemma canonical_idem (key_of : string -> string)
    (mapping : list (string * string)) (x : option string) :
  targets_fixed key_of mapping ->
  canonical key_of mapping (canonical key_of mapping x)
  = canonical key_of mapping x.
Proof.
  intro T. destruct x as [v|]; [|reflexivity]. cbn [canonical].
  destruct (Dict.get (key_of v) mapping) as [target|] eqn:G.
  - cbn [canonical]. rewrite (T _ _ G). reflexivity.
  - cbn [canonical]. rewrite G. reflexivity.
Qed.

Lemma count_step {A : Type} (p r : A -> bool) (q : A -> bool) (h : A -> A)
    (l : list A) :
  (forall x, p x = true -> q (h x) = false /\ r x = true) ->
  (forall x, p x = false -> q (h x) = r x) ->
  (List.length (filter p l) + List.length (filter q (map h l))
   = List.length (filter r l))%nat.
Proof.
  intros Hp Hn. induction l as [|x l IH]; cbn [filter map List.length].
  - reflexivity.
  - destruct (p x) eqn:P.
    + destruct (Hp x P) as [Q R]. rewrite Q, R. cbn [List.length]. lia.
    + rewrite (Hn x P). destruct (r x); cbn [List.length]; lia.
Qed.

(** The loop over a list of values rewrites exactly the rows that carry one
    of them, each to its canonical spelling, and counts the rows it
    changed. *)
Lemma normalize_loop_spec (key_of : string -> string)
    (mapping : list (string * string)) (rows col : Column) (n : nat) :
  targets_fixed key_of mapping ->
  normalize_loop key_of mapping rows col n
  = (map (fun x => if existsb (value_eqb x) rows
                   then canonical key_of mapping x else x) col,
     (n + List.length
            (filter (fun x => existsb (value_eqb x) rows
                              && negb (value_eqb x (canonical key_of mapping x)))
                    col))%nat).
Proof.
  intro T. revert col n.
  induction rows as [|v rows IH]; intros col n; cbn [normalize_loop existsb].
  - rewrite map_id. cbn [andb]. rewrite filter_all_false by reflexivity.
    cbn [List.length]. rewrite Nat.add_0_r. reflexivity.
  - assert (Same : forall x,
               canonical key_of mapping v = v ->
               (if value_eqb x v || existsb (value_eqb x) rows
                then canonical key_of mapping x else x)
               = (if existsb (value_eqb x) rows
                  then canonical key_of mapping x else x)
               /\ (value_eqb x v || existsb (value_eqb x) rows)
                  && negb (value_eqb x (canonical key_of mapping x))
                  = existsb (value_eqb x) rows
                    && negb (value_eqb x (canonical key_of mapping x))).
    { intros x Cv. destruct (value_eqb x v) eqn:E; [|split; reflexivity].
      apply value_eqb_eq in E. subst x. rewrite Cv, value_eqb_refl.
      cbn [orb negb]. rewrite andb_false_r.
      destruct (existsb (value_eqb v) rows); split; reflexivity. }
    assert (Skip : canonical key_of mapping v = v ->
              normalize_loop key_of mapping rows col n
              = (map (fun x => if value_eqb x v || existsb (value_eqb x) rows
                               then canonical key_of mapping x else x) col,
                 (n + List.length
                        (filter
                           (fun x =>
                              (value_eqb x v || existsb (value_eqb x) rows)
                              && negb (value_eqb x
                                         (canonical key_of mapping x)))
                           col))%nat)).
    { intro Cv. rewrite IH. f_equal.
      - apply map_ext. intro x. symmetry. apply (Same x Cv).
      - f_equal. f_equal. apply filter_ext. intro x. symmetry.
        apply (Same x Cv). }
    destruct v as [v|]; [|apply Skip; reflexivity].
    destruct (Dict.get (key_of v) mapping) as [target|] eqn:G.
    2: { apply Skip. cbn [canonical]. rewrite G. reflexivity. }
    destruct (String.eqb_spec v target) as [E|N]; cbn [negb].
    { apply Skip. cbn [canonical]. rewrite G. congruence. }
    unfold sql_update. rewrite IH. clear IH Skip Same.
    assert (Cv : canonical key_of mapping (Some v) = Some target).
    { cbn [canonical]. rewrite G. reflexivity. }
    assert (Ct : canonical key_of mapping (Some target) = Some target).
    { cbn [canonical]. rewrite (T _ _ G). reflexivity. }
    f_equal.
    + rewrite map_map. apply map_ext. intro x.
      destruct (value_eqb x (Some v)) eqn:E; cbn [orb]; [|reflexivity].
      apply value_eqb_eq in E. subst x. rewrite Ct, Cv.
      destruct (existsb (value_eqb (Some target)) rows); reflexivity.
    + rewrite <- Nat.add_assoc. f_equal.
      apply count_step.
      * intros x E. rewrite E. apply value_eqb_eq in E. subst x.
        rewrite Ct, Cv, value_eqb_refl. cbn [orb andb negb].
        rewrite andb_false_r. split; [reflexivity|].
        cbn [value_eqb]. apply negb_true_iff. apply String.eqb_neq. exact N.
      * intros x E. rewrite E. reflexivity.
Qed.

Lemma normalize_distinct (key_of : string -> string)
    (mapping : list (string * string)) (col : Column) :
  targets_fixed key_of mapping ->
  normalize_loop key_of mapping (distinct col) col 0
  = (map (canonical key_of mapping) col,
     List.length (misspelled key_of mapping col)).
Proof.
  intro T. rewrite (normalize_loop_spec (distinct col) col 0 T).
  assert (Hin : forall x, In x col ->
                  existsb (value_eqb x) (distinct col) = true).
  { intros x Hx. apply existsb_exists. exists x.
    split; [apply distinct_In; exact Hx|apply value_eqb_refl]. }
  f_equal.
  - apply map_ext_in. intros x Hx. rewrite (Hin x Hx). reflexivity.
  - cbn [Nat.add]. unfold misspelled. f_equal.
    apply filter_ext_in. intros x Hx. rewrite (Hin x Hx). reflexivity.
Qed.

Lemma normalize_settles (key_of : string -> string)
    (mapping : list (string * string)) (col : Column) :
  targets_fixed key_of mapping ->
  let col1 := fst (normalize_loop key_of mapping (distinct col) col 0) in
  col1 = map (canonical key_of mapping) col
  /\ snd (normalize_loop key_of mapping (distinct col) col 0)
     = List.length (misspelled key_of mapping col)
  /\ misspelled key_of mapping col1 = []
  /\ normalize_loop key_of mapping (distinct col1) col1 0 = (col1, 0%nat).
Proof.
  intro T. cbv zeta. rewrite (normalize_distinct col T). cbn [fst snd].
  assert (M : misspelled key_of mapping (map (canonical key_of mapping) col)
              = []).
  { unfold misspelled. apply filter_all_false. intros x Hx.
    apply in_map_iff in Hx. destruct Hx as [y [E _]]. subst x.
    rewrite (canonical_idem y T), value_eqb_refl. reflexivity. }
  split; [reflexivity|]. split; [reflexivity|]. split; [exact M|].
  rewrite (normalize_distinct _ T), M.
  apply f_equal2; [|reflexivity].
  rewrite map_map. apply map_ext. intro x. apply (canonical_idem x T).
Qed.

Lemma targets_fixed_by_entries (key_of : string -> string)
    (mapping : list (string * string)) :
  forallb (fun kv => match Dict.get (key_of (snd kv)) mapping with
                     | Some target => String.eqb target (snd kv)
                     | None => false
                     end) mapping = true ->
  targets_fixed key_of mapping.
Proof.
  intros H k target G. unfold Dict.get in G.
  destruct (find (fun kv => String.eqb (fst kv) k) mapping) as [kv|] eqn:F;
    [|discriminate G].
  cbn [option_map] in G. inversion G; subst target.
  apply find_some in F. destruct F as [Hin _].
  rewrite forallb_forall in H. pose proof (H kv Hin) as E.
  destruct (Dict.get (key_of (snd kv)) mapping) as [t|]; [|discriminate E].
  apply String.eqb_eq in E. congruence.
Qed.

(** X23: the enum clean-up scripts write canonical spellings and are
    idempotent.  Whenever every spelling a mapping produces is itself mapped
    to itself, [normalize_column] turns each value into the spelling the
    mapping gives for its trimmed lower-case form, leaves [NULL] and
    unmapped values alone, returns the number of rows whose value was not
    spelled that way, and a second run changes nothing and returns 0.  Both
    mappings of [normalize_enums.py] and the one of [insert_account.py]
    have that property, so the same holds for the account types rewritten
    by [insert_account.py]. *)
Theorem enum_scripts_settle :
  (forall mapping col,
     targets_fixed strip_lower mapping ->
     let col1 := fst (normalize_column mapping col) in
     col1 = map (canonical strip_lower mapping) col
     /\ snd (normalize_column mapping col)
        = List.length (misspelled strip_lower mapping col)
     /\ misspelled strip_lower mapping col1 = []
     /\ normalize_column mapping col1 = (col1, 0%nat))
  /\ targets_fixed strip_lower TRANSACTION_TYPE_MAP
  /\ targets_fixed strip_lower SOURCE_MAP
  /\ forall col,
       let col1 := fst (update_account_types col) in
       col1 = map (canonical PyStr.lower MAPPING) col
       /\ snd (update_account_types col)
          = List.length (misspelled PyStr.lower MAPPING col)
       /\ misspelled PyStr.lower MAPPING col1 = []
       /\ update_account_types col1 = (col1, 0%nat).
Proof.
  split.
  - intros mapping col T.
    exact (@normalize_settles strip_lower mapping col T).
  - split; [apply targets_fixed_by_entries; reflexivity|].
    split; [apply targets_fixed_by_entries; reflexivity|].
    intro col.
    apply (@normalize_settles PyStr.lower MAPPING col).
    apply targets_fixed_by_entries. reflexivity.
Qed.

(** Mixed spellings of the transaction type, one run. *)
Example normalize_type_column :
  normalize_column TRANSACTION_TYPE_MAP type_column
  = ([Some "INCOME"; Some "EXPENSE"; None; Some "EXPENSE"; Some "INCOME";
      Some "refund"; Some "TRANSFER"], 3%nat).
Proof. reflexivity. Qed.


(** ** Bulk classification *)

Lemma fresh_id_pos (ids : list Z) : (1 <= fresh_id ids)%Z.
Proof.
  unfold fresh_id.
  assert (H : (0 <= fold_right Z.max 0 ids)%Z).
  { induction ids as [|x ids IH]; cbn [fold_right]; lia. }
  lia.
Qed.

Lemma find_app_some {A : Type} (p : A -> bool) (l1 l2 : list A) (x : A) :
  find p l1 = Some x -> find p (l1 ++ l2) = Some x.
Proof.
  induction l1 as [|y l1 IH]; cbn [find app]; intro H.
  - discriminate.
  - destruct (p y); [exact H|apply IH; exact H].
Qed.

Lemma any_pattern_total (text : string) (ps : list string) :
  forallb (fun pattern => is_some (Re.parse (PyStr.lower pattern))) ps = true ->
  exists b, any_pattern text ps = Ok b.
Proof.
  induction ps as [|p ps IH]; cbn [forallb any_pattern]; intro H.
  - eexists. reflexivity.
  - apply andb_true_iff in H. destruct H as [Hp Hps].
    unfold Re.search. destruct (Re.parse (PyStr.lower p)); [|discriminate Hp].
    cbn [bind]. destruct (Re.search_regex r text).
    + eexists. reflexivity.
    + apply IH. exact Hps.
Qed.

(** What one classification does, and that it repeats itself on every
    database that has at least the categories it left behind. *)
Lemma categorize_loop_outcome (text : string) (rules : RuleTable) :
  forall s r db',
    categorize_loop text rules (Some s) = Ok (r, db') ->
    exists s',
      db' = Some s'
      /\ accounts s' = accounts s
      /\ transactions s' = transactions s
      /\ budgets s' = budgets s
      /\ (exists added, categories s' = categories s ++ added)
      /\ (truthy_id r = false -> s' = s)
      /\ (forall c, r = Some c ->
            exists cat, In cat (categories s') /\ Category.id cat = c)
      /\ (forall s2 more,
            categories s2 = categories s' ++ more ->
            categorize_loop text rules (Some s2) = Ok (r, Some s2)).
Proof.
  induction rules as [|[key rule] rest IH]; intros s r db' H.
  - cbn [categorize_loop] in H. inversion H; subst r db'. exists s.
    split; [reflexivity|]. repeat (split; [reflexivity|]).
    split; [exists []; rewrite app_nil_r; reflexivity|].
    split; [reflexivity|]. split; [discriminate|].
    intros s2 more _. reflexivity.
  - cbn [categorize_loop] in H |- *.
    destruct (_matches_rule text rule) as [[|]|e] eqn:M; cbn [bind] in H |- *;
      [| |discriminate H].
    + destruct (PyStr.truthy_opt (category_name rule)) eqn:T;
        cbn [bind] in H |- *.
      * unfold _get_or_create_category in H |- *.
        destruct (category_by_name (PyStr.or_empty (category_name rule)) s)
          as [c|] eqn:F.
        -- inversion H; subst r db'. exists s.
           split; [reflexivity|]. repeat (split; [reflexivity|]).
           split; [exists []; rewrite app_nil_r; reflexivity|].
           split; [reflexivity|].
           split.
           { intros c0 E. inversion E; subst c0. exists c.
             split; [|reflexivity]. unfold category_by_name in F.
             apply find_some in F. apply F. }
           intros s2 more E.
           unfold category_by_name in F |- *. rewrite E.
           rewrite (@find_app_some _ _ _ more _ F). reflexivity.
        -- inversion H; subst r db'.
           eexists. split; [reflexivity|].
           cbn [insert_category accounts transactions budgets categories].
           repeat (split; [reflexivity|]).
           split; [eexists; reflexivity|].
           split.
           { cbn [truthy_id Category.id]. intro Z0.
             apply negb_false_iff in Z0. apply Z.eqb_eq in Z0.
             pose proof (fresh_id_pos (map Category.id (categories s))). lia. }
           split.
           { intros c0 E. inversion E; subst c0. eexists.
             split; [apply in_or_app; right; left; reflexivity|reflexivity]. }
           intros s2 more E.
           unfold category_by_name in F |- *. rewrite E.
           rewrite <- app_assoc. rewrite (find_app_none _ _ _ F).
           cbn [app find Category.name]. rewrite String.eqb_refl.
           reflexivity.
      * destruct (IH _ _ _ H) as (s' & E & A1 & A2 & A3 & A4 & A5 & A6 & A7).
        exists s'. repeat (split; [assumption|]).
        intros s2 more Es. apply (A7 s2 more Es).
    + destruct (IH _ _ _ H) as (s' & E & A1 & A2 & A3 & A4 & A5 & A6 & A7).
      exists s'. repeat (split; [assumption|]).
      intros s2 more Es. apply (A7 s2 more Es).
Qed.

Lemma categorize_loop_total (text : string) (rules : RuleTable) (s : Session) :
  compilable rules = true ->
  exists r s', categorize_loop text rules (Some s) = Ok (r, Some s').
Proof.
  revert s. induction rules as [|[key rule] rest IH]; intros s C.
  - eexists. eexists. reflexivity.
  - unfold compilable in C. cbn [forallb snd] in C.
    apply andb_true_iff in C. destruct C as [Cr Crest].
    cbn [categorize_loop]. unfold _matches_rule.
    assert (Go : forall s0, exists r s',
               categorize_loop text rest (Some s0) = Ok (r, Some s'))
      by (intro s0; apply IH; exact Crest).
    assert (Named :
              exists r s',
                (if PyStr.truthy_opt (category_name rule)
                 then
                  let '(category, db') :=
                    _get_or_create_category
                      (PyStr.or_empty (category_name rule)) (Some s) in
                  match category with
                  | Some c => Ok (Some (Category.id c), db')
                  | None => categorize_loop text rest db'
                  end
                 else categorize_loop text rest (Some s))
                = Ok (r, Some s')).
    { destruct (PyStr.truthy_opt (category_name rule)); [|apply Go].
      destruct (get_or_create_returns (PyStr.or_empty (category_name rule)) s)
        as (c & s' & G & _). rewrite G. eexists. eexists. reflexivity. }
    destruct (any_keyword text (keywords rule)); cbn [bind]; [exact Named|].
    destruct (any_pattern_total text _ Cr) as [b Eb]. rewrite Eb. cbn [bind].
    destruct b; [exact Named|apply Go].
Qed.

Lemma categorize_transaction_outcome
    (rules : RuleTable) (merchant description : option string) (amount : Q)
    (s : Session) (r : option Z) (db' : option Session) :
  categorize_transaction rules merchant description amount (Some s)
  = Ok (r, db') ->
  exists s',
    db' = Some s'
    /\ accounts s' = accounts s
    /\ transactions s' = transactions s
    /\ budgets s' = budgets s
    /\ (exists added, categories s' = categories s ++ added)
    /\ (truthy_id r = false -> s' = s)
    /\ (forall c, r = Some c ->
          exists cat, In cat (categories s') /\ Category.id cat = c)
    /\ (forall s2 more amount',
          categories s2 = categories s' ++ more ->
          categorize_transaction rules merchant description amount' (Some s2)
          = Ok (r, Some s2)).
Proof.
  unfold categorize_transaction. intro H.
  assert (Blank : Ok (@None Z, Some s) = Ok (r, db') ->
            exists s',
              db' = Some s'
              /\ accounts s' = accounts s
              /\ transactions s' = transactions s
              /\ budgets s' = budgets s
              /\ (exists added, categories s' = categories s ++ added)
              /\ (truthy_id r = false -> s' = s)
              /\ (forall c, r = Some c ->
                    exists cat, In cat (categories s') /\ Category.id cat = c)
              /\ (forall (s2 : Session) (more : list Category.t) (amount' : Q),
                    categories s2 = categories s' ++ more ->
                    Ok (@None Z, Some s2) = Ok (r, Some s2))).
  { intro E. inversion E; subst r db'. exists s.
    split; [reflexivity|]. repeat (split; [reflexivity|]).
    split; [exists []; rewrite app_nil_r; reflexivity|].
    split; [reflexivity|]. split; [discriminate|]. reflexivity. }
  destruct (negb (PyStr.truthy_opt merchant)
            && negb (PyStr.truthy_opt description)); [exact (Blank H)|].
  destruct (negb (PyStr.truthy (text_to_analyze merchant description)));
    [exact (Blank H)|].
  destruct (categorize_loop_outcome _ _ _ H)
    as (s' & E & A1 & A2 & A3 & A4 & A5 & A6 & A7).
  exists s'. repeat (split; [assumption|]).
  intros s2 more _ Es. apply (A7 s2 more Es).
Qed.

Lemma categorize_transaction_total
    (rules : RuleTable) (merchant description : option string) (amount : Q)
    (s : Session) :
  compilable rules = true ->
  exists r s',
    categorize_transaction rules merchant description amount (Some s)
    = Ok (r, Some s').
Proof.
  intro C. unfold categorize_transaction.
  destruct (negb (PyStr.truthy_opt merchant)
            && negb (PyStr.truthy_opt description));
    [eexists; eexists; reflexivity|].
  destruct (negb (PyStr.truthy (text_to_analyze merchant description)));
    [eexists; eexists; reflexivity|].
  apply categorize_loop_total. exact C.
Qed.

Lemma replace_first_In {A : Type} (p : A -> bool) (y x : A) (l : list A) :
  In x (replace_first p y l) -> x = y \/ In x l.
Proof.
  induction l as [|z l IH]; cbn [replace_first In]; intro H.
  - contradiction.
  - destruct (p z).
    + destruct H as [E|H]; [left; symmetry; exact E|right; right; exact H].
    + destruct H as [E|H]; [right; left; exact E|].
      destruct (IH H) as [E|K]; [left; exact E|right; right; exact K].
Qed.

Lemma replace_first_keep {A : Type} (p : A -> bool) (y x : A) (l : list A) :
  In x l -> p x = false -> In x (replace_first p y l).
Proof.
  induction l as [|z l IH]; cbn [replace_first In]; intros H Px.
  - contradiction.
  - destruct (p z) eqn:Pz.
    + destruct H as [E|H]; [subst z; congruence|right; exact H].
    + destruct H as [E|H]; [left; exact E|right; apply IH; assumption].
Qed.

Lemma replace_first_same_ids (y : Transaction.t) (l : list Transaction.t) :
  map Transaction.id
      (replace_first (fun t => (Transaction.id t =? Transaction.id y)%Z) y l)
  = map Transaction.id l.
Proof.
  induction l as [|z l IH]; cbn [replace_first map].
  - reflexivity.
  - destruct (Z.eqb_spec (Transaction.id z) (Transaction.id y)) as [E|N];
      cbn [map]; [rewrite E; reflexivity|rewrite IH; reflexivity].
Qed.

Lemma unique_id (l : list Transaction.t) (a b : Transaction.t) :
  NoDup (map Transaction.id l) -> In a l -> In b l ->
  Transaction.id a = Transaction.id b -> a = b.
Proof.
  induction l as [|z l IH]; cbn [map In]; intros Hn Ha Hb E.
  - contradiction.
  - inversion Hn as [|? ? Hz Hl]; subst.
    destruct Ha as [Ea|Ha], Hb as [Eb|Hb].
    + congruence.
    + subst z. exfalso. apply Hz. rewrite E. apply in_map. exact Hb.
    + subst z. exfalso. apply Hz. rewrite <- E. apply in_map. exact Ha.
    + apply IH; assumption.
Qed.

Lemma replace_first_unique (y x : Transaction.t) (l : list Transaction.t) :
  NoDup (map Transaction.id l) ->
  In x (replace_first (fun t => (Transaction.id t =? Transaction.id y)%Z) y l) ->
  Transaction.id x = Transaction.id y -> x = y.
Proof.
  induction l as [|z l IH]; cbn [replace_first map In]; intros Hn H E.
  - contradiction.
  - inversion Hn as [|? ? Hz Hl]; subst.
    destruct (Z.eqb_spec (Transaction.id z) (Transaction.id y)) as [Ez|Nz].
    + destruct H as [Ex|H]; [symmetry; exact Ex|].
      exfalso. apply Hz. rewrite Ez, <- E. apply in_map. exact H.
    + destruct H as [Ex|H]; [subst z; contradiction|].
      apply IH; assumption.
Qed.

Lemma replace_first_count (y t : Transaction.t) (l : list Transaction.t) :
  NoDup (map Transaction.id l) -> In t l ->
  is_uncategorized t = true -> is_uncategorized y = false ->
  Transaction.id y = Transaction.id t ->
  (List.length
     (filter is_uncategorized
        (replace_first (fun r => (Transaction.id r =? Transaction.id y)%Z)
                       y l)) + 1
   = List.length (filter is_uncategorized l))%nat.
Proof.
  induction l as [|z l IH]; cbn [replace_first map In filter];
    intros Hn Hin Ut Uy E.
  - contradiction.
  - inversion Hn as [|? ? Hz Hl]; subst.
    destruct (Z.eqb_spec (Transaction.id z) (Transaction.id y)) as [Ez|Nz].
    + assert (z = t).
      { destruct Hin as [Et|Hin]; [exact Et|].
        exfalso. apply Hz. rewrite Ez, E. apply in_map. exact Hin. }
      subst z. cbn [filter]. rewrite Uy, Ut. cbn [List.length]. lia.
    + destruct Hin as [Et|Hin]; [subst z; congruence|].
      cbn [filter]. destruct (is_uncategorized z); cbn [List.length];
        rewrite <- (IH Hl Hin Ut Uy E); lia.
Qed.

Lemma filter_ids_NoDup (p : Transaction.t -> bool) (l : list Transaction.t) :
  NoDup (map Transaction.id l) -> NoDup (map Transaction.id (filter p l)).
Proof.
  induction l as [|z l IH]; cbn [filter map]; intro Hn.
  - constructor.
  - inversion Hn as [|? ? Hz Hl]; subst.
    destruct (p z); [|apply IH; exact Hl].
    cbn [map]. constructor; [|apply IH; exact Hl].
    intro H. apply Hz. apply in_map_iff in H. destruct H as [x [E Hx]].
    apply filter_In in Hx. rewrite <- E. apply in_map. apply Hx.
Qed.

(** What the whole loop does when nothing raises. *)
Lemma bulk_loop_spec (rules : RuleTable) :
  compilable rules = true ->
  forall ts committed current count,
    NoDup (map Transaction.id (transactions current)) ->
    NoDup (map Transaction.id ts) ->
    (forall t, In t ts ->
       In t (transactions current) /\ is_uncategorized t = true) ->
    exists n final,
      bulk_loop rules ts committed current count
      = ((count + n)%nat,
         if (0 <? count + n)%nat then final else committed)
      /\ (n = 0%nat -> final = current)
      /\ (n <= List.length ts)%nat
      /\ accounts final = accounts current
      /\ budgets final = budgets current
      /\ (exists added, categories final = categories current ++ added)
      /\ map Transaction.id (transactions final)
         = map Transaction.id (transactions current)
      /\ (List.length (filter is_uncategorized (transactions final)) + n
          = List.length (filter is_uncategorized (transactions current)))%nat
      /\ (forall row,
            In row (transactions final) ->
            In row (transactions current)
            \/ exists t c,
                 In t ts /\ row = set_category_id t c /\ c <> 0%Z
                 /\ exists cat,
                      In cat (categories final) /\ Category.id cat = c)
      /\ (forall row,
            In row (transactions current) -> is_uncategorized row = false ->
            In row (transactions final))
      /\ (forall row,
            In row (transactions final) -> is_uncategorized row = true ->
            In row (transactions current)
            /\ (In row ts ->
                exists r,
                  truthy_id r = false
                  /\ forall amount',
                       categorize_transaction rules
                         (Transaction.merchant row)
                         (Transaction.description row) amount' (Some final)
                       = Ok (r, Some final))).
Proof.
  intros C ts. induction ts as [|t rest IH];
    intros committed current count Hn Hts Hrows.
  - exists 0%nat, current. cbn [bulk_loop]. rewrite Nat.add_0_r.
    split; [destruct (0 <? count)%nat; reflexivity|].
    split; [reflexivity|]. split; [cbn; lia|].
    split; [reflexivity|]. split; [reflexivity|].
    split; [exists []; rewrite app_nil_r; reflexivity|].
    split; [reflexivity|]. split; [lia|].
    split; [intros row H; left; exact H|].
    split; [intros row H _; exact H|].
    intros row H _. split; [exact H|]. intros [].
  - cbn [bulk_loop].
    destruct (@categorize_transaction_total rules (Transaction.merchant t)
                (Transaction.description t) (Transaction.amount t) current C)
      as (r & seen & Ec).
    rewrite Ec.
    destruct (@categorize_transaction_outcome rules (Transaction.merchant t)
                (Transaction.description t) (Transaction.amount t) current r
                (Some seen) Ec)
      as (s' & Es & A1 & A2 & A3 & [add0 A4] & A5 & A6 & A7).
    inversion Es; subst s'; clear Es.
    inversion Hts as [|? ? Ht Hrest]; subst.
    destruct (Hrows t (or_introl eq_refl)) as [Tin Tun].
    assert (Quiet : truthy_id r = false ->
              exists n final,
                bulk_loop rules rest
                  (if (List.length (categories current)
                       <? List.length (categories seen))%nat
                   then seen else committed) seen count
                = ((count + n)%nat,
                   if (0 <? count + n)%nat then final else committed)
                /\ (n = 0%nat -> final = current)
                /\ (n <= List.length (t :: rest))%nat
                /\ accounts final = accounts current
                /\ budgets final = budgets current
                /\ (exists added,
                      categories final = categories current ++ added)
                /\ map Transaction.id (transactions final)
                   = map Transaction.id (transactions current)
                /\ (List.length (filter is_uncategorized (transactions final))
                    + n
                    = List.length
                        (filter is_uncategorized (transactions current)))%nat
                /\ (forall row,
                      In row (transactions final) ->
                      In row (transactions current)
                      \/ exists t0 c,
                           In t0 (t :: rest) /\ row = set_category_id t0 c
                           /\ c <> 0%Z
                           /\ exists cat,
                                In cat (categories final)
                                /\ Category.id cat = c)
                /\ (forall row,
                      In row (transactions current) ->
                      is_uncategorized row = false ->
                      In row (transactions final))
                /\ (forall row,
                      In row (transactions final) ->
                      is_uncategorized row = true ->
                      In row (transactions current)
                      /\ (In row (t :: rest) ->
                          exists r0,
                            truthy_id r0 = false
                            /\ forall amount',
                                 categorize_transaction rules
                                   (Transaction.merchant row)
                                   (Transaction.description row) amount'
                                   (Some final)
                                 = Ok (r0, Some final)))).
    { intro F. pose proof (A5 F) as Eq. subst seen.
      rewrite Nat.ltb_irrefl.
      destruct (IH committed current count Hn Hrest)
        as (n & final & B0 & B1 & B2 & B3 & B4 & [added B5] & B6 & B7 & B8
            & B9 & B10).
      { intros t0 H0. apply Hrows. right. exact H0. }
      exists n, final. split; [exact B0|]. split; [exact B1|].
      split; [cbn [List.length]; lia|].
      split; [exact B3|]. split; [exact B4|].
      split; [exists added; exact B5|]. split; [exact B6|].
      split; [exact B7|].
      split.
      { intros row H. destruct (B8 row H) as [K|(t0 & c & K1 & K2)];
          [left; exact K|right].
        exists t0, c. split; [right; exact K1|exact K2]. }
      split; [exact B9|].
      intros row H U. destruct (B10 row H U) as [K1 K2].
      split; [exact K1|]. intros [E|K]; [|apply K2; exact K].
      subst row. exists r. split; [exact F|]. intro amount'.
      apply (A7 final added amount'). exact B5. }
    destruct r as [c|]; [|apply Quiet; reflexivity].
    destruct (Z.eqb_spec c 0) as [E0|N0].
    { apply Quiet. cbn [truthy_id]. subst c. reflexivity. }
    clear Quiet.
    set (t' := set_category_id t c).
    assert (It : Transaction.id t' = Transaction.id t) by reflexivity.
    assert (Ut : is_uncategorized t' = false) by reflexivity.
    set (current' := store_transaction seen t').
    assert (Tx : transactions current'
                 = replace_first
                     (fun r0 => (Transaction.id r0 =? Transaction.id t')%Z)
                     t' (transactions current)).
    { unfold current', store_transaction. cbn [transactions].
      rewrite A2. reflexivity. }
    destruct (IH (if (List.length (categories current)
                      <? List.length (categories seen))%nat
                  then seen else committed) current' (S count))
      as (n & final & B0 & B1 & B2 & B3 & B4 & [added B5] & B6 & B7 & B8
          & B9 & B10).
    { rewrite Tx, replace_first_same_ids. exact Hn. }
    { exact Hrest. }
    { intros t0 H0. destruct (Hrows t0 (or_intror H0)) as [K1 K2].
      split; [|exact K2]. rewrite Tx. apply replace_first_keep; [exact K1|].
      apply Z.eqb_neq. rewrite It. intro E. apply Ht.
      rewrite <- E. apply in_map. exact H0. }
    exists (S n), final.
    replace (count + S n)%nat with (S count + n)%nat by lia.
    split.
    { rewrite B0. cbn [Nat.add Nat.ltb Nat.leb]. reflexivity. }
    split; [discriminate|].
    split; [cbn [List.length]; lia|].
    split; [rewrite B3; exact A1|].
    split; [rewrite B4; exact A3|].
    split.
    { exists (add0 ++ added). rewrite B5. unfold current', store_transaction.
      cbn [categories]. rewrite A4, app_assoc. reflexivity. }
    split; [rewrite B6, Tx; apply replace_first_same_ids|].
    split.
    { rewrite Tx in B7.
      pose proof (@replace_first_count t' t (transactions current) Hn Tin Tun
                    Ut It) as K.
      lia. }
    split.
    { intros row H. destruct (B8 row H) as [K|(t0 & c0 & K1 & K2)].
      - rewrite Tx in K. apply replace_first_In in K.
        destruct K as [K|K]; [|left; exact K].
        right. exists t, c. split; [left; reflexivity|].
        split; [exact K|]. split; [exact N0|].
        destruct (A6 c eq_refl) as [cat [Hc Ic]].
        exists cat. split; [|exact Ic].
        rewrite B5. unfold current', store_transaction. cbn [categories].
        apply in_or_app. left. exact Hc.
      - right. exists t0, c0. split; [right; exact K1|exact K2]. }
    split.
    { intros row H U. apply B9; [|exact U]. rewrite Tx.
      apply replace_first_keep; [exact H|].
      apply Z.eqb_neq. rewrite It. intro E.
      pose proof (@unique_id (transactions current) row t Hn H Tin E) as Eq.
      subst row. congruence. }
    intros row H U. destruct (B10 row H U) as [K1 K2].
    rewrite Tx in K1.
    assert (Nt : Transaction.id row <> Transaction.id t').
    { intro E.
      pose proof (@replace_first_unique t' row (transactions current) Hn K1 E)
        as Eq. subst row. congruence. }
    apply replace_first_In in K1.
    destruct K1 as [K1|K1]; [subst row; congruence|].
    split; [exact K1|].
    intros [E|K]; [subst row; contradiction|apply K2; exact K].
Qed.

Lemma bulk_loop_settled (rules : RuleTable) (db : Session)
    (ts : list Transaction.t) :
  (forall t, In t ts ->
     exists r,
       truthy_id r = false
       /\ forall amount',
            categorize_transaction rules (Transaction.merchant t)
              (Transaction.description t) amount' (Some db)
            = Ok (r, Some db)) ->
  bulk_loop rules ts db db 0 = (0%nat, db).
Proof.
  induction ts as [|t rest IH]; intro H; cbn [bulk_loop].
  - reflexivity.
  - destruct (H t (or_introl eq_refl)) as [r [F E]].
    rewrite (E (Transaction.amount t)). rewrite Nat.ltb_irrefl.
    assert (Go : bulk_loop rules rest db db 0 = (0%nat, db)).
    { apply IH. intros t0 H0. apply H. right. exact H0. }
    destruct r as [c|]; [|exact Go].
    cbn [truthy_id] in F. apply negb_false_iff in F. rewrite F. exact Go.
Qed.

Lemma bulk_categorize_spec (rules : RuleTable) (db : Session) (limit : nat) :
  compilable rules = true ->
  NoDup (map Transaction.id (transactions db)) ->
  exists n final,
    bulk_categorize_transactions rules db limit = (n, final)
    /\ (n <= limit)%nat
    /\ accounts final = accounts db
    /\ budgets final = budgets db
    /\ (exists added, categories final = categories db ++ added)
    /\ map Transaction.id (transactions final)
       = map Transaction.id (transactions db)
    /\ (List.length (uncategorized final) + n
        = List.length (uncategorized db))%nat
    /\ (forall row,
          In row (transactions final) ->
          In row (transactions db)
          \/ exists t c,
               In t (uncategorized db) /\ row = set_category_id t c
               /\ c <> 0%Z
               /\ exists cat,
                    In cat (categories final) /\ Category.id cat = c)
    /\ (forall row,
          In row (transactions db) -> is_uncategorized row = false ->
          In row (transactions final))
    /\ ((List.length (uncategorized db) <= limit)%nat ->
        forall row,
          In row (uncategorized final) ->
          exists r,
            truthy_id r = false
            /\ forall amount',
                 categorize_transaction rules (Transaction.merchant row)
                   (Transaction.description row) amount' (Some final)
                 = Ok (r, Some final)).
Proof.
  intros C Hn. unfold bulk_categorize_transactions.
  fold (uncategorized db).
  destruct (@bulk_loop_spec rules C (firstn limit (uncategorized db)) db db 0
              Hn)
    as (n & final & B0 & B1 & B2 & B3 & B4 & B5 & B6 & B7 & B8 & B9 & B10).
  { rewrite <- firstn_map. apply firstn_NoDup. apply filter_ids_NoDup.
    exact Hn. }
  { intros t H. apply firstn_In in H. unfold uncategorized in H.
    apply filter_In in H. exact H. }
  cbn [Nat.add] in B0.
  exists n, final. split.
  { rewrite B0. destruct n; [rewrite B1 by reflexivity|]; reflexivity. }
  split.
  { etransitivity; [exact B2|]. apply firstn_le_length. }
  split; [exact B3|]. split; [exact B4|]. split; [exact B5|].
  split; [exact B6|]. split; [exact B7|].
  split.
  { intros row H. destruct (B8 row H) as [K|(t & c & K1 & K2)];
      [left; exact K|right].
    exists t, c. split; [apply firstn_In in K1; exact K1|exact K2]. }
  split; [exact B9|].
  intros L row H. unfold uncategorized in H. apply filter_In in H.
  destruct H as [H U]. destruct (B10 row H U) as [K1 K2].
  apply K2. rewrite firstn_all2 by exact L.
  unfold uncategorized. apply filter_In. split; assumption.
Qed.

Lemma categorized_count (db : Session) :
  (categorized_transactions (get_categorization_stats db)
   + List.length (uncategorized db)
   = List.length (transactions db))%nat.
Proof.
  unfold get_categorization_stats, uncategorized.
  cbn [categorized_transactions].
  rewrite Nat.add_comm. apply filter_length.
Qed.

(** X24: what [bulk_categorize_transactions] does with a rule table whose
    patterns all compile and a ledger of unique transaction ids.  It never
    touches a transaction that has a category, an account or a budget; it
    keeps every category and only appends new ones; the rows keep their ids
    and order; the count it returns is at most [limit] and is exactly the
    number of transactions that moved from uncategorised to categorised, so
    [get_categorization_stats] reports that many more categorised rows
    afterwards; and every row it changed is an uncategorised row of before
    with only [category_id] set, to a non-zero id that a category of the
    resulting table carries. *)
Theorem bulk_categorization_effect
    (rules : RuleTable) (db : Session) (limit : nat) :
  compilable rules = true ->
  NoDup (map Transaction.id (transactions db)) ->
  let n := fst (bulk_categorize_transactions rules db limit) in
  let db' := snd (bulk_categorize_transactions rules db limit) in
  (n <= limit)%nat
  /\ (List.length (uncategorized db') + n
      = List.length (uncategorized db))%nat
  /\ categorized_transactions (get_categorization_stats db')
     = (categorized_transactions (get_categorization_stats db) + n)%nat
  /\ total_transactions (get_categorization_stats db')
     = total_transactions (get_categorization_stats db)
  /\ accounts db' = accounts db
  /\ budgets db' = budgets db
  /\ (exists added, categories db' = categories db ++ added)
  /\ map Transaction.id (transactions db')
     = map Transaction.id (transactions db)
  /\ (forall row,
        In row (transactions db) -> is_uncategorized row = false ->
        In row (transactions db'))
  /\ (forall row,
        In row (transactions db') ->
        In row (transactions db)
        \/ exists t c,
             In t (uncategorized db) /\ row = set_category_id t c
             /\ c <> 0%Z
             /\ exists cat, In cat (categories db') /\ Category.id cat = c).
Proof.
  intros C Hn.
  destruct (@bulk_categorize_spec rules db limit C Hn)
    as (n & final & B0 & B1 & B2 & B3 & B4 & B5 & B6 & B7 & B8 & _).
  rewrite B0. cbn [fst snd].
  assert (Len : List.length (transactions final)
                = List.length (transactions db)).
  { rewrite <- (length_map Transaction.id (transactions final)), B5.
    apply length_map. }
  split; [exact B1|]. split; [exact B6|].
  split.
  { pose proof (categorized_count final). pose proof (categorized_count db).
    lia. }
  split; [exact Len|].
  split; [exact B2|]. split; [exact B3|]. split; [exact B4|].
  split; [exact B5|]. split; [exact B8|exact B7].
Qed.

Lemma bulk_categorization_effect_witness :
  (fst (bulk_categorize_transactions default_rules ledger_uncategorized 10)
   <= 10)%nat
  /\ (List.length
        (uncategorized
           (snd (bulk_categorize_transactions default_rules
                   ledger_uncategorized 10)))
      + fst (bulk_categorize_transactions default_rules
               ledger_uncategorized 10)
      = List.length (uncategorized ledger_uncategorized))%nat.
Proof.
  assert (C : compilable default_rules = true) by (vm_compute; reflexivity).
  assert (N : NoDup (map Transaction.id (transactions ledger_uncategorized))).
  { cbn [ledger_uncategorized transactions map Transaction.id].
    repeat constructor; cbn [In]; intuition discriminate. }
  pose proof (@bulk_categorization_effect default_rules ledger_uncategorized
                10 C N) as H.
  cbv zeta in H. destruct H as [H1 [H2 _]].
  split; [exact H1|exact H2].
Defined.

(** X25: bulk categorisation settles.  With patterns that compile and
    unique transaction ids, once a run was allowed to look at every
    uncategorised transaction ([limit] at least their number), running it
    again with any limit returns 0 and leaves the database exactly as it
    is: what is still uncategorised is what no rule claims. *)
Theorem bulk_categorization_settles
    (rules : RuleTable) (db : Session) (limit : nat) :
  compilable rules = true ->
  NoDup (map Transaction.id (transactions db)) ->
  (List.length (uncategorized db) <= limit)%nat ->
  let db' := snd (bulk_categorize_transactions rules db limit) in
  forall limit',
    bulk_categorize_transactions rules db' limit' = (0%nat, db').
Proof.
  intros C Hn L.
  destruct (@bulk_categorize_spec rules db limit C Hn)
    as (n & final & B0 & _ & _ & _ & _ & _ & _ & _ & _ & B9).
  rewrite B0. cbn [snd]. intro limit'.
  unfold bulk_categorize_transactions. apply bulk_loop_settled.
  intros t H. apply firstn_In in H. apply (B9 L). exact H.
Qed.

Lemma bulk_categorization_settles_witness :
  bulk_categorize_transactions default_rules
    (snd (bulk_categorize_transactions default_rules ledger_uncategorized 3))
    1
  = (0%nat,
     snd (bulk_categorize_transactions default_rules ledger_uncategorized 3)).
Proof.
  assert (C : compilable default_rules = true) by (vm_compute; reflexivity).
  assert (N : NoDup (map Transaction.id (transactions ledger_uncategorized))).
  { cbn [ledger_uncategorized transactions map Transaction.id].
    repeat constructor; cbn [In]; intuition discriminate. }
  assert (L : (List.length (uncategorized ledger_uncategorized) <= 3)%nat).
  { vm_compute. lia. }
  exact (@bulk_categorization_settles default_rules ledger_uncategorized 3
           C N L 1%nat).
Defined.

(** A run over the sample ledger: two of the three open transactions are
    claimed by a rule, one category is created. *)
Example bulk_categorize_sample :
  fst (bulk_categorize_transactions default_rules ledger_uncategorized 10)
  = 2%nat
  /\ map Transaction.category_id
         (transactions
            (snd (bulk_categorize_transactions default_rules
                    ledger_uncategorized 10)))
     = [Some 2%Z; None; Some 1%Z; Some 1%Z]
  /\ map Category.name
         (categories
            (snd (bulk_categorize_transactions default_rules
                    ledger_uncategorized 10)))
     = ["Food & Dining"%string; "Transportation"%string].
Proof. vm_compute. repeat split. Qed.


(** ** Mirroring transactions to the sheet *)

Lemma existsb_id_absent (i : Z) (ts : list Transaction.t) :
  ~ In i (map Transaction.id ts) ->
  existsb (fun t => (Transaction.id t =? i)%Z) ts = false.
Proof.
  intro H. apply not_true_is_false. intro E.
  apply existsb_exists in E. destruct E as [t [Ht Et]].
  apply Z.eqb_eq in Et. apply H. rewrite <- Et. apply in_map. exact Ht.
Qed.

Lemma existsb_id_present (t : Transaction.t) (ts : list Transaction.t) :
  In t ts ->
  existsb (fun t0 => (Transaction.id t0 =? Transaction.id t)%Z) ts = true.
Proof.
  intro H. apply existsb_exists. exists t. split; [exact H|apply Z.eqb_refl].
Qed.

Lemma store_marked_as_map (t : Transaction.t) (l : list Transaction.t) :
  NoDup (map Transaction.id l) -> In t l ->
  replace_first
    (fun r => (Transaction.id r =? Transaction.id (mark_synced t))%Z)
    (mark_synced t) l
  = map (fun row => if (Transaction.id row =? Transaction.id t)%Z
                    then mark_synced row else row) l.
Proof.
  change (Transaction.id (mark_synced t)) with (Transaction.id t).
  induction l as [|z l IH]; cbn [replace_first map In]; intros Hn Hin.
  - contradiction.
  - inversion Hn as [|? ? Hz Hl]; subst.
    destruct (Z.eqb_spec (Transaction.id z) (Transaction.id t)) as [E|N].
    + assert (z = t).
      { destruct Hin as [Et|Hin]; [exact Et|].
        exfalso. apply Hz. rewrite E. apply in_map. exact Hin. }
      subst z. f_equal. rewrite <- (map_id l) at 1.
      apply map_ext_in. intros row Hrow.
      destruct (Z.eqb_spec (Transaction.id row) (Transaction.id t)) as [Er|_];
        [|reflexivity].
      exfalso. apply Hz. rewrite <- Er. apply in_map. exact Hrow.
    + destruct Hin as [Et|Hin]; [subst z; contradiction|].
      rewrite (IH Hl Hin). reflexivity.
Qed.

Lemma sync_loop_spec (ts : list Transaction.t) :
  forall st,
    NoDup (map Transaction.id (transactions (sync_db st))) ->
    NoDup (map Transaction.id ts) ->
    (forall t, In t ts -> In t (transactions (sync_db st))) ->
    synced_count (sync_loop ts st) = (synced_count st + List.length ts)%nat
    /\ failed_count (sync_loop ts st) = failed_count st
    /\ errors (sync_loop ts st) = errors st
    /\ transactions (sync_db (sync_loop ts st))
       = map (fun row =>
                if existsb (fun t => (Transaction.id t =? Transaction.id row)%Z)
                           ts
                then mark_synced row else row)
             (transactions (sync_db st))
    /\ accounts (sync_db (sync_loop ts st)) = accounts (sync_db st)
    /\ categories (sync_db (sync_loop ts st)) = categories (sync_db st)
    /\ budgets (sync_db (sync_loop ts st)) = budgets (sync_db st)
    /\ client (sync_service (sync_loop ts st)) = client (sync_service st)
    /\ spreadsheet (sync_service (sync_loop ts st))
       = spreadsheet (sync_service st)
    /\ accepts (sync_service (sync_loop ts st)) = accepts (sync_service st)
    /\ sheet_rows (sync_service (sync_loop ts st))
       = sheet_rows (sync_service st)
         ++ filter (fun t => client (sync_service st)
                             && spreadsheet (sync_service st)
                             && accepts (sync_service st) t) ts.
Proof.
  induction ts as [|t rest IH]; intros st Hn Hts Hin.
  - cbn [sync_loop List.length existsb filter].
    rewrite Nat.add_0_r, app_nil_r, map_id. repeat split.
  - inversion Hts as [|? ? Ht Hrest]; subst.
    pose proof (Hin t (or_introl eq_refl)) as Tin.
    assert (Step : forall service,
              client service = client (sync_service st) ->
              spreadsheet service = spreadsheet (sync_service st) ->
              accepts service = accepts (sync_service st) ->
              sheet_rows service
              = sheet_rows (sync_service st)
                ++ filter (fun t0 => client (sync_service st)
                                     && spreadsheet (sync_service st)
                                     && accepts (sync_service st) t0) [t] ->
              let st1 :=
                mkSyncState service
                  (store_transaction (sync_db st) (mark_synced t))
                  (S (synced_count st)) (failed_count st) (errors st) in
              synced_count (sync_loop rest st1)
              = (synced_count st + List.length (t :: rest))%nat
              /\ failed_count (sync_loop rest st1) = failed_count st
              /\ errors (sync_loop rest st1) = errors st
              /\ transactions (sync_db (sync_loop rest st1))
                 = map (fun row =>
                          if existsb
                               (fun t0 =>
                                  (Transaction.id t0 =? Transaction.id row)%Z)
                               (t :: rest)
                          then mark_synced row else row)
                       (transactions (sync_db st))
              /\ accounts (sync_db (sync_loop rest st1)) = accounts (sync_db st)
              /\ categories (sync_db (sync_loop rest st1))
                 = categories (sync_db st)
              /\ budgets (sync_db (sync_loop rest st1)) = budgets (sync_db st)
              /\ client (sync_service (sync_loop rest st1))
                 = client (sync_service st)
              /\ spreadsheet (sync_service (sync_loop rest st1))
                 = spreadsheet (sync_service st)
              /\ accepts (sync_service (sync_loop rest st1))
                 = accepts (sync_service st)
              /\ sheet_rows (sync_service (sync_loop rest st1))
                 = sheet_rows (sync_service st)
                   ++ filter (fun t0 => client (sync_service st)
                                        && spreadsheet (sync_service st)
                                        && accepts (sync_service st) t0)
                             (t :: rest)).
    { intros service Ec Esp Ea Er st1.
      assert (Tx1 : transactions (sync_db st1)
                    = map (fun row =>
                             if (Transaction.id row =? Transaction.id t)%Z
                             then mark_synced row else row)
                          (transactions (sync_db st))).
      { unfold st1, store_transaction. cbn [sync_db transactions].
        apply store_marked_as_map; assumption. }
      assert (Ids1 : map Transaction.id (transactions (sync_db st1))
                     = map Transaction.id (transactions (sync_db st))).
      { rewrite Tx1, map_map. apply map_ext. intro row.
        destruct (Transaction.id row =? Transaction.id t)%Z; reflexivity. }
      destruct (IH st1) as (B1 & B2 & B3 & B4 & B5 & B6 & B7 & B8 & B9 & B10
                            & B11).
      { rewrite Ids1. exact Hn. }
      { exact Hrest. }
      { intros t0 H0. rewrite Tx1. apply in_map_iff. exists t0.
        split; [|apply Hin; right; exact H0].
        destruct (Z.eqb_spec (Transaction.id t0) (Transaction.id t)) as [E|_];
          [|reflexivity].
        exfalso. apply Ht. rewrite <- E. apply in_map. exact H0. }
      split; [rewrite B1; cbn [synced_count List.length st1]; lia|].
      split; [exact B2|]. split; [exact B3|].
      split.
      { rewrite B4, Tx1, map_map. apply map_ext. intro row. cbn [existsb].
        rewrite (Z.eqb_sym (Transaction.id t) (Transaction.id row)).
        destruct (Z.eqb_spec (Transaction.id row) (Transaction.id t)) as [E|N];
          cbn [orb]; [|reflexivity].
        change (Transaction.id (mark_synced row)) with (Transaction.id row).
        rewrite E. rewrite (@existsb_id_absent _ _ Ht). reflexivity. }
      split; [exact B5|]. split; [exact B6|]. split; [exact B7|].
      split; [rewrite B8; exact Ec|].
      split; [rewrite B9; exact Esp|].
      split; [rewrite B10; exact Ea|].
      rewrite B11. cbn [sync_service st1]. rewrite Er, Ec, Esp, Ea.
      rewrite <- app_assoc. f_equal.
      change (t :: rest) with ([t] ++ rest). rewrite filter_app.
      reflexivity. }
    cbn [sync_loop]. unfold add_transaction.
    destruct (client (sync_service st) && spreadsheet (sync_service st)
              && accepts (sync_service st) t) eqn:A.
    + apply Step; try reflexivity.
      cbn [sheet_rows filter]. rewrite A. reflexivity.
    + apply Step; try reflexivity.
      cbn [filter]. rewrite A, app_nil_r. reflexivity.
Qed.

(** X26: [sync_transactions_to_sheets] marks every selected transaction as
    synced whether or not its row reached the sheet.  For a service that
    has a client and a ledger of unique transaction ids, the response counts
    every selected transaction as synced, reports no failure and no error,
    and [success] says whether anything was selected; all transactions of
    the database are marked as synced afterwards, while the sheet has
    gained rows only for the selected transactions whose remote call went
    through; a following request without [force_all] therefore selects
    nothing, reports 0 synced and changes nothing, so a row that failed is
    not sent again. *)
Theorem sync_marks_every_selected_transaction
    (db : Session) (force_all : bool) (service : SheetsService) :
  client service = true ->
  NoDup (map Transaction.id (transactions db)) ->
  exists response service' db',
    sync_transactions_to_sheets db force_all (Some service)
    = Ok (response, Some service', db')
    /\ data_synced_count response
       = List.length (sync_selection db force_all)
    /\ data_failed_count response = 0%nat
    /\ data_errors response = []
    /\ sync_success response
       = (0 <? List.length (sync_selection db force_all))%nat
    /\ Forall (fun t => Transaction.is_synced_to_sheets t = true)
              (transactions db')
    /\ map Transaction.id (transactions db')
       = map Transaction.id (transactions db)
    /\ sheet_rows service'
       = sheet_rows service
         ++ filter (fun t => spreadsheet service && accepts service t)
                   (sync_selection db force_all)
    /\ sync_transactions_to_sheets db' false (Some service')
       = Ok (mkSyncResponse false 0 0 [], Some service', db').
Proof.
  intros Hc Hn. unfold sync_transactions_to_sheets.
  rewrite Hc. cbn [negb]. fold (sync_selection db force_all).
  set (st0 := mkSyncState service db 0 0 []).
  destruct (@sync_loop_spec (sync_selection db force_all) st0)
    as (B1 & B2 & B3 & B4 & B5 & B6 & B7 & B8 & B9 & B10 & B11).
  { exact Hn. }
  { unfold sync_selection. destruct force_all; [exact Hn|].
    apply filter_ids_NoDup. exact Hn. }
  { intros t H. unfold sync_selection in H. destruct force_all; [exact H|].
    apply filter_In in H. apply H. }
  cbn [st0 sync_db synced_count failed_count errors sync_service Nat.add]
    in B1, B2, B3, B4, B5, B6, B7, B8, B9, B10, B11.
  cbn [or_500].
  eexists. eexists. eexists. split; [reflexivity|].
  cbn [data_synced_count data_failed_count data_errors sync_success].
  split; [exact B1|]. split; [exact B2|].
  split; [rewrite B3; reflexivity|].
  split; [rewrite B1; reflexivity|].
  assert (All : Forall (fun t => Transaction.is_synced_to_sheets t = true)
                  (transactions
                     (sync_db (sync_loop (sync_selection db force_all) st0)))).
  { rewrite B4. apply Forall_forall. intros row H.
    apply in_map_iff in H. destruct H as [row0 [E H0]].
    destruct (existsb _ (sync_selection db force_all)) eqn:X;
      [subst row; reflexivity|].
    subst row. unfold sync_selection in X. destruct force_all.
    - rewrite (@existsb_id_present _ _ H0) in X. discriminate X.
    - destruct (Transaction.is_synced_to_sheets row0) eqn:S0; [reflexivity|].
      rewrite (@existsb_id_present row0 _) in X; [discriminate X|].
      apply filter_In. split; [exact H0|]. rewrite S0. reflexivity. }
  split; [exact All|].
  split.
  { rewrite B4, map_map. apply map_ext. intro row.
    destruct (existsb _ _); reflexivity. }
  split.
  { rewrite B11, Hc. reflexivity. }
  rewrite B8, Hc. cbn [negb].
  rewrite (@filter_all_false _
             (fun t => negb (Transaction.is_synced_to_sheets t))).
  - reflexivity.
  - rewrite Forall_forall in All. intros t Ht. rewrite (All t Ht).
    reflexivity.
Qed.

Lemma sync_marks_every_selected_transaction_witness :
  exists response service' db',
    sync_transactions_to_sheets ledger_unsynced false (Some flaky_service)
    = Ok (response, Some service', db')
    /\ data_synced_count response = 2%nat
    /\ data_failed_count response = 0%nat
    /\ map Transaction.id (sheet_rows service') = [1%Z]
    /\ Forall (fun t => Transaction.is_synced_to_sheets t = true)
              (transactions db').
Proof.
  destruct (@sync_marks_every_selected_transaction ledger_unsynced false
              flaky_service eq_refl)
    as (response & service' & db' & E & C1 & C2 & _ & _ & C5 & _ & C7 & _).
  - cbn [ledger_unsynced transactions map Transaction.id].
    repeat constructor; cbn [In]; intuition discriminate.
  - exists response, service', db'.
    split; [exact E|]. split; [exact C1|]. split; [exact C2|].
    split; [rewrite C7; reflexivity|exact C5].
Defined.


(** ** The months of the budget trends *)

Lemma days_in_month_bounds (y m : Z) : (28 <= days_in_month y m <= 31)%Z.
Proof.
  unfold days_in_month.
  destruct (m =? 2)%Z; [destruct (isleap y); lia|].
  destruct ((m =? 4)%Z || (m =? 6)%Z || (m =? 9)%Z || (m =? 11)%Z); lia.
Qed.

(** One day back: the date stays well formed, the clock is kept, the month
    does not grow, and a measure of the date drops by 1 to 4. *)
Lemma prev_day_step (d : datetime) :
  (1 <= year d)%Z -> (1 <= month d <= 12)%Z -> (1 <= day d <= 31)%Z ->
  (1 <= (year d - 1) * 372 + (month d - 1) * 31 + (day d - 1))%Z ->
  exists d',
    prev_day d = Some d'
    /\ (1 <= year d')%Z /\ (1 <= month d' <= 12)%Z /\ (1 <= day d' <= 31)%Z
    /\ ((year d - 1) * 372 + (month d - 1) * 31 + (day d - 1) - 4
        <= (year d' - 1) * 372 + (month d' - 1) * 31 + (day d' - 1))%Z
    /\ (12 * year d' + month d' <= 12 * year d + month d)%Z
    /\ hour d' = hour d /\ minute d' = minute d /\ second d' = second d
    /\ microsecond d' = microsecond d.
Proof.
  intros Hy Hm Hd Hp. unfold prev_day, MINYEAR.
  destruct (Z.ltb_spec 1 (day d)).
  - eexists. split; [reflexivity|]. cbn [year month day hour minute second
                                         microsecond].
    repeat split; lia.
  - destruct (Z.ltb_spec 1 (month d)).
    + eexists. split; [reflexivity|].
      cbn [year month day hour minute second microsecond].
      pose proof (days_in_month_bounds (year d) (month d - 1)).
      repeat split; lia.
    + destruct (Z.ltb_spec 1 (year d)).
      * eexists. split; [reflexivity|].
        cbn [year month day hour minute second microsecond].
        repeat split; lia.
      * exfalso. lia.
Qed.

Lemma minus_days_bounds (n : nat) :
  forall d,
    (1 <= year d)%Z -> (1 <= month d <= 12)%Z -> (1 <= day d <= 31)%Z ->
    (4 * Z.of_nat n
     <= (year d - 1) * 372 + (month d - 1) * 31 + (day d - 1))%Z ->
    exists d',
      minus_days d n = Some d'
      /\ (1 <= year d')%Z /\ (1 <= month d' <= 12)%Z
      /\ (12 * year d' + month d' <= 12 * year d + month d)%Z.
Proof.
  induction n as [|n IH]; intros d Hy Hm Hd Hp; cbn [minus_days].
  - exists d. repeat split; lia.
  - destruct (@prev_day_step d Hy Hm Hd ltac:(lia))
      as (d1 & E & Y1 & M1 & D1 & P1 & L1 & _).
    rewrite E.
    destruct (IH d1 Y1 M1 D1 ltac:(lia)) as (d' & E' & Y' & M' & L').
    exists d'. repeat split; try assumption; lia.
Qed.

Lemma minus_days_add (a b : nat) (d : datetime) :
  minus_days d (a + b)
  = match minus_days d a with
    | Some d' => minus_days d' b
    | None => None
    end.
Proof.
  revert d. induction a as [|a IH]; intro d; cbn [Nat.add minus_days].
  - reflexivity.
  - destruct (prev_day d) as [d1|]; [apply IH|reflexivity].
Qed.

(** Going back fewer days than the day of the month stays in the month. *)
Lemma minus_days_within (n : nat) :
  forall y m dd h mi s us,
    (Z.of_nat n < dd)%Z ->
    minus_days (mkDatetime y m dd h mi s us) n
    = Some (mkDatetime y m (dd - Z.of_nat n) h mi s us).
Proof.
  induction n as [|n IH]; intros y m dd h mi s us H; cbn [minus_days].
  - rewrite Z.sub_0_r. reflexivity.
  - unfold prev_day. cbn [year month day hour minute second microsecond].
    replace (1 <? dd)%Z with true by (symmetry; apply Z.ltb_lt; lia).
    rewrite IH by lia.
    replace (dd - 1 - Z.of_nat n)%Z with (dd - Z.of_nat (S n))%Z by lia.
    reflexivity.
Qed.

Lemma prev_day_new_year (y h mi s us : Z) :
  (1 < y)%Z ->
  prev_day (mkDatetime y 1 1 h mi s us)
  = Some (mkDatetime (y - 1) 12 31 h mi s us).
Proof.
  intro H. unfold prev_day, MINYEAR.
  cbn [year month day hour minute second microsecond].
  change (1 <? 1)%Z with false. cbv iota.
  replace (1 <? y)%Z with true by (symmetry; apply Z.ltb_lt; lia).
  reflexivity.
Qed.

(** Thirty days before the first of March is a day of January. *)
Lemma march_minus_30 (y h mi s us : Z) :
  minus_days (mkDatetime y 3 1 h mi s us) 30
  = Some (mkDatetime y 1 (if isleap y then 31 else 30) h mi s us).
Proof.
  destruct (isleap y) eqn:L.
  - change 30%nat with (1 + (28 + 1))%nat.
    rewrite minus_days_add. cbn [minus_days]. unfold prev_day at 1.
    cbn [year month day hour minute second microsecond Z.ltb Z.compare
         Pos.compare Pos.compare_cont Z.sub Z.add Z.opp Z.pos_sub
         Pos.pred_double].
    unfold days_in_month. cbn [Z.eqb Pos.eqb]. rewrite L.
    rewrite minus_days_add, (@minus_days_within 28) by reflexivity.
    reflexivity.
  - change 30%nat with (1 + (27 + 2))%nat.
    rewrite minus_days_add. cbn [minus_days]. unfold prev_day at 1.
    cbn [year month day hour minute second microsecond Z.ltb Z.compare
         Pos.compare Pos.compare_cont Z.sub Z.add Z.opp Z.pos_sub
         Pos.pred_double].
    unfold days_in_month. cbn [Z.eqb Pos.eqb]. rewrite L.
    rewrite minus_days_add, (@minus_days_within 27) by reflexivity.
    reflexivity.
Qed.

Lemma month_loop_spec (first : datetime) (indices : list nat) :
  forall acc,
    (forall i, In i indices -> exists d, minus_days first (i * 30) = Some d) ->
    month_loop first indices acc
    = Some (acc ++ map (fun i => match minus_days first (i * 30) with
                                 | Some d => strftime_ym d
                                 | None => EmptyString
                                 end) indices).
Proof.
  induction indices as [|i rest IH]; intros acc H; cbn [month_loop map].
  - rewrite app_nil_r. reflexivity.
  - destruct (H i (or_introl eq_refl)) as [d E]. rewrite E.
    rewrite IH by (intros j Hj; apply H; right; exact Hj).
    rewrite <- app_assoc. reflexivity.
Qed.

Lemma digits_value_zeros (k : nat) (s : string) :
  digits_value (string_of_list_ascii (repeat "0"%char k) ++ s) 0
  = digits_value s 0.
Proof.
  induction k as [|k IH]; cbn [repeat string_of_list_ascii String.append].
  - reflexivity.
  - cbn [digits_value]. change (Re.is_digit "0") with true. cbv iota.
    exact IH.
Qed.

Lemma zeros_digits (k : nat) (s : string) :
  forallb Re.is_digit (list_ascii_of_string s) = true ->
  forallb Re.is_digit
          (list_ascii_of_string
             (string_of_list_ascii (repeat "0"%char k) ++ s)) = true.
Proof.
  intro H. induction k as [|k IH];
    cbn [repeat string_of_list_ascii String.append list_ascii_of_string
         forallb].
  - exact H.
  - change (Re.is_digit "0") with true. exact IH.
Qed.

Lemma py_int_zero_pad (w : nat) (n : Z) :
  (0 <= n)%Z -> py_int (zero_pad w n) = Ok n.
Proof.
  intro H. pose proof (@py_int_py_str n H) as P. unfold zero_pad.
  unfold py_int in P |- *.
  destruct (py_str n) as [|c s] eqn:E; [discriminate P|].
  destruct (digits_value (String c s) 0) as [v|] eqn:D; [|discriminate P].
  destruct (string_of_list_ascii
              (repeat "0"%char (w - String.length (String c s)))
            ++ String c s)%string eqn:Z0.
  - destruct (w - String.length (String c s))%nat; discriminate Z0.
  - rewrite <- Z0, digits_value_zeros, D. exact P.
Qed.

(** The label of a date is read back as its year and month. *)
Lemma strftime_ym_parse (d : datetime) :
  (0 <= year d)%Z -> (1 <= month d <= 12)%Z ->
  parse_month (strftime_ym d) = Ok (year d, month d).
Proof.
  intros Hy Hm. unfold parse_month, strftime_ym.
  change ("-" ++ zero_pad 2 (month d))%string
    with (String "-" (zero_pad 2 (month d))).
  rewrite split_label.
  - rewrite (py_int_zero_pad 4 Hy). cbn [bind].
    rewrite (py_int_zero_pad 2 (proj1 (conj (Z.le_trans 0 1 _ ltac:(lia)
                                               (proj1 Hm)) I))).
    reflexivity.
  - unfold zero_pad. apply zeros_digits. apply py_str_digits. exact Hy.
  - unfold zero_pad. apply zeros_digits. apply py_str_digits. lia.
Qed.

Lemma map_injective_on {A B : Type} (f : A -> B) (l : list A) (a b : A) :
  NoDup (map f l) -> In a l -> In b l -> f a = f b -> a = b.
Proof.
  induction l as [|z l IH]; cbn [map In]; intros Hn Ha Hb E.
  - contradiction.
  - inversion Hn as [|? ? Hz Hl]; subst.
    destruct Ha as [Ea|Ha], Hb as [Eb|Hb].
    + congruence.
    + subst z. exfalso. apply Hz. rewrite E. apply in_map. exact Hb.
    + subst z. exfalso. apply Hz. rewrite <- E. apply in_map. exact Ha.
    + apply IH; assumption.
Qed.

(** X27: asked in March, [get_budget_trends] never reports on February.
    The months are found by going back 30 days at a time from the first of
    the current month, and 30 days before the first of March is a day of
    January.  For every well-formed [now] in March of a year from 1000 on
    and [months] between 2 and 24, the list of months is produced, ends
    with January and March of that year, and contains no February of that
    year; from 4 months on it names some month twice. *)
Theorem trend_months_in_march_skip_february
    (now : datetime) (months : nat) :
  is_datetime now = true ->
  month now = 3%Z ->
  (1000 <= year now)%Z ->
  (2 <= months <= 24)%nat ->
  exists earlier,
    month_list now months
    = Ok (earlier ++ [month_label (year now) 1; month_label (year now) 3])
    /\ ~ In (month_label (year now) 2) earlier
    /\ ((4 <= months)%nat ->
        ~ NoDup (earlier ++ [month_label (year now) 1;
                             month_label (year now) 3])).
Proof.
  intros V M3 Hy Hmonths.
  destruct now as [y m dd h mi s us].
  cbn [month year] in M3, Hy |- *. subst m.
  unfold month_list, replace_day_1.
  cbn [year month hour minute second microsecond].
  set (first := mkDatetime y 3 1 h mi s us).
  set (L := fun i => match minus_days first (i * 30) with
                     | Some d => strftime_ym d
                     | None => EmptyString
                     end).
  assert (Ok_i : forall i, (i < 24)%nat ->
            exists d,
              minus_days first (i * 30) = Some d
              /\ (1 <= year d)%Z /\ (1 <= month d <= 12)%Z
              /\ (12 * year d + month d <= 12 * y + 3)%Z).
  { intros i Hi.
    destruct (@minus_days_bounds (i * 30) first) as (d & E & Y & Mo & Le);
      unfold first; cbn [year month day]; try lia.
    exists d. cbn [year month] in Le. repeat split; try assumption; lia. }
  rewrite (@month_loop_spec first (seq 0 months) []).
  2: { intros i Hi. apply in_seq in Hi.
       destruct (Ok_i i ltac:(lia)) as (d & E & _). exists d. exact E. }
  cbn [app]. fold L.
  destruct months as [|[|k]]; [lia|lia|].
  cbn [seq map rev]. rewrite <- !app_assoc. cbn [app].
  rewrite <- seq_shift, <- seq_shift, !map_map.
  assert (E0 : L 0%nat = month_label y 3) by reflexivity.
  assert (D1 : minus_days first 30
               = Some (mkDatetime y 1 (if isleap y then 31 else 30)
                                  h mi s us))
    by apply march_minus_30.
  assert (E1 : L 1%nat = month_label y 1).
  { unfold L. cbn [Nat.mul Nat.add]. rewrite D1. reflexivity. }
  rewrite E0, E1.
  exists (rev (map (fun i => L (S (S i))) (seq 0 k))).
  split; [reflexivity|].
  assert (Late : forall i, (i < 22)%nat ->
            exists d,
              minus_days first (S (S i) * 30) = Some d
              /\ (1 <= year d)%Z /\ (1 <= month d <= 12)%Z
              /\ (12 * year d + month d <= 12 * y + 1)%Z).
  { intros i Hi.
    replace (S (S i) * 30)%nat with (30 + S i * 30)%nat by lia.
    rewrite minus_days_add, D1.
    destruct (@minus_days_bounds (S i * 30)
                (mkDatetime y 1 (if isleap y then 31 else 30) h mi s us))
      as (d & E & Y & Mo & Le);
      cbn [year month day]; try (destruct (isleap y); lia).
    exists d. cbn [year month] in Le. repeat split; try assumption; lia. }
  split.
  - intro Hin. apply in_rev in Hin. apply in_map_iff in Hin.
    destruct Hin as [i [E Hi]]. apply in_seq in Hi.
    destruct (Late i ltac:(lia)) as (d & Ed & Yd & Md & Le).
    unfold L in E. rewrite Ed in E.
    assert (P : parse_month (strftime_ym d) = Ok (y, 2%Z)).
    { rewrite E. unfold month_label.
      apply (@strftime_ym_parse (month_start (y, 2%Z))); cbn; lia. }
    rewrite (@strftime_ym_parse d ltac:(lia) Md) in P.
    inversion P. lia.
  - intros H4 Hn.
    assert (k >= 2)%nat by lia.
    assert (Hn' : NoDup (map L (seq 0 (S (S k))))).
    { apply NoDup_rev in Hn. rewrite rev_app_distr, rev_involutive in Hn.
      cbn [rev app] in Hn. cbn [seq map].
      rewrite <- seq_shift, <- seq_shift, !map_map.
      rewrite E0, E1. exact Hn. }
    assert (D2 : minus_days first 60
                 = if isleap y
                   then Some (mkDatetime y 1 1 h mi s us)
                   else Some (mkDatetime (y - 1) 12 31 h mi s us)).
    { change 60%nat with (30 + 30)%nat. rewrite minus_days_add, D1.
      destruct (isleap y).
      - rewrite (@minus_days_within 30) by reflexivity. reflexivity.
      - change 30%nat with (29 + 1)%nat at 1.
        rewrite minus_days_add, (@minus_days_within 29) by reflexivity.
        change (30 - Z.of_nat 29)%Z with 1%Z.
        cbn [minus_days]. rewrite prev_day_new_year by lia.
        reflexivity. }
    destruct (isleap y) eqn:Leap.
    + assert (E2 : L 2%nat = L 1%nat).
      { rewrite E1. unfold L. cbn [Nat.mul Nat.add]. rewrite D2.
        reflexivity. }
      pose proof (@map_injective_on _ _ L (seq 0 (S (S k))) 2%nat 1%nat Hn')
        as Inj.
      assert (2 = 1)%nat; [|discriminate].
      apply Inj; [apply in_seq; lia|apply in_seq; lia|exact E2].
    + assert (D3 : minus_days first 90
                   = Some (mkDatetime (y - 1) 12 1 h mi s us)).
      { change 90%nat with (60 + 30)%nat. rewrite minus_days_add, D2.
        rewrite (@minus_days_within 30) by reflexivity. reflexivity. }
      assert (E2 : L 2%nat = L 3%nat).
      { unfold L. cbn [Nat.mul Nat.add]. rewrite D2, D3. reflexivity. }
      pose proof (@map_injective_on _ _ L (seq 0 (S (S k))) 2%nat 3%nat Hn')
        as Inj.
      assert (2 = 3)%nat; [|discriminate].
      apply Inj; [apply in_seq; lia|apply in_seq; lia|exact E2].
Qed.

Lemma trend_months_in_march_skip_february_witness :
  exists earlier,
    month_list (mkDatetime 2023 3 15 10 0 0 0) 6
    = Ok (earlier ++ [month_label 2023 1; month_label 2023 3])
    /\ ~ In (month_label 2023 2) earlier.
Proof.
  destruct (@trend_months_in_march_skip_february
              (mkDatetime 2023 3 15 10 0 0 0) 6)
    as [earlier [E [N _]]].
  - reflexivity.
  - reflexivity.
  - cbn [year]. lia.
  - lia.
  - exists earlier. split; [exact E|exact N].
Defined.

(** Asked in the middle of March 2023 for six months: no February, and
    December twice. *)
Example month_list_march_2023 :
  month_list (mkDatetime 2023 3 15 10 0 0 0) 6
  = Ok ["2022-10"; "2022-11"; "2022-12"; "2022-12"; "2023-01";
        "2023-03"]%string.
Proof. vm_compute. reflexivity. Qed.


(** ** The daily flow of the dashboard *)

Lemma dt_geb_prefix (a b : datetime) :
  dt_geb a b = true ->
  (year b < year a)%Z \/ (year a = year b /\ (month b <= month a)%Z).
Proof.
  unfold dt_geb, dt_ltb, dt_compare, dt_fields, lex_compare.
  destruct (Z.compare_spec (year a) (year b)) as [E|L|G].
  - destruct (Z.compare_spec (month a) (month b)) as [Em|Lm|Gm].
    + intros _. right. split; [exact E|lia].
    + discriminate.
    + intros _. right. split; [exact E|lia].
  - discriminate.
  - intros _. left. exact G.
Qed.

(** A day of an earlier month shows nothing of the current month. *)
Lemma earlier_day_is_empty (db : Session) (y m : Z) (date : datetime) :
  (1 <= m <= 12)%Z -> (1 <= month date <= 12)%Z ->
  (12 * year date + month date < 12 * y + m)%Z ->
  filter (within_day date) (month_transactions db y m) = [].
Proof.
  intros Hm Hd Lt. apply filter_all_false. intros t Ht.
  unfold month_transactions in Ht. apply filter_In in Ht.
  destruct Ht as [_ R]. unfold in_range in R.
  apply andb_true_iff in R. destruct R as [Ge _].
  apply dt_geb_prefix in Ge. cbn [month_start year month fst snd] in Ge.
  unfold within_day. apply not_true_is_false. intro W.
  apply andb_true_iff in W. destruct W as [_ Le].
  apply dt_geb_prefix in Le. cbn [day_end year month] in Le.
  lia.
Qed.

Lemma daily_flow_loop_spec (now : datetime) (monthly : list Transaction.t)
    (indices : list nat) (date_of : nat -> datetime) :
  (forall i, In i indices -> minus_days now (29 - i) = Some (date_of i)) ->
  daily_flow_loop now monthly indices
  = Some (map (fun i => daily_flow_entry monthly (date_of i)) indices).
Proof.
  induction indices as [|i rest IH]; intro H; cbn [daily_flow_loop map].
  - reflexivity.
  - rewrite (H i (or_introl eq_refl)).
    rewrite IH by (intros j Hj; apply H; right; exact Hj).
    reflexivity.
Qed.

(** Going back at least as many days as the day of the month leads to an
    earlier month. *)
Lemma minus_days_leaves_month (now : datetime) (n : nat) :
  is_datetime now = true ->
  (2 <= year now)%Z ->
  (day now <= Z.of_nat n <= 29)%Z ->
  exists date,
    minus_days now n = Some date
    /\ (1 <= month date <= 12)%Z
    /\ (12 * year date + month date < 12 * year now + month now)%Z.
Proof.
  intros V Hy Hn. destruct now as [y m d h mi s us].
  unfold is_datetime in V. cbn [year month day hour minute second microsecond]
    in V, Hy, Hn |- *.
  repeat (apply andb_true_iff in V; destruct V as [V ?]).
  repeat match goal with
         | H : (_ <=? _)%Z = true |- _ => apply Z.leb_le in H
         end.
  unfold MINYEAR, MAXYEAR in *.
  pose proof (days_in_month_bounds y m) as Dm.
  replace n with ((Z.to_nat d - 1) + (1 + (n - Z.to_nat d)))%nat by lia.
  rewrite minus_days_add, (@minus_days_within (Z.to_nat d - 1)) by lia.
  replace (d - Z.of_nat (Z.to_nat d - 1))%Z with 1%Z by lia.
  rewrite minus_days_add. cbn [minus_days].
  destruct (@prev_day_step (mkDatetime y m 1 h mi s us))
    as (d1 & E & Y1 & M1 & D1 & P1 & L1 & _);
    cbn [year month day]; try lia.
  rewrite E.
  assert (Strict : (12 * year d1 + month d1 < 12 * y + m)%Z).
  { unfold prev_day in E.
    cbn [year month day hour minute second microsecond] in E.
    change (1 <? 1)%Z with false in E. cbv iota in E.
    destruct (Z.ltb_spec 1 m).
    - inversion E. cbn [year month]. lia.
    - destruct (Z.ltb_spec MINYEAR y); [|discriminate E].
      inversion E. cbn [year month]. lia. }
  cbn [year month day] in P1.
  destruct (@minus_days_bounds (n - Z.to_nat d) d1 Y1 M1 D1)
    as (date & Ed & Yd & Md & Ld); [lia|].
  exists date. split; [exact Ed|]. split; [exact Md|]. lia.
Qed.

(** X28: the dashboard's chart of the past 30 days is blind before the
    first of the month.  [get_dashboard_summary] fills the days from the
    transactions of the current month only, so on day [d] of a month the
    daily flow has 30 entries of which the first [30 - d] show an income
    and expenses of 0 whatever the ledger holds for those days; the
    remaining entries are days of the current month. *)
Theorem dashboard_flow_blind_before_month (db : Session) (now : datetime) :
  is_datetime now = true ->
  representable (year now) (month now) = true ->
  (2 <= year now)%Z ->
  exists daily_flow,
    dashboard_daily_flow db now = Ok daily_flow
    /\ List.length daily_flow = 30%nat
    /\ Forall (fun entry =>
                 flow_income entry = 0%Q /\ flow_expenses entry = 0%Q)
              (firstn (30 - Z.to_nat (day now)) daily_flow)
    /\ Forall (fun entry =>
                 exists k,
                   (1 <= k <= day now)%Z
                   /\ flow_date entry
                      = isoformat (year now) (month now) k)
              (skipn (30 - Z.to_nat (day now)) daily_flow).
Proof.
  intros V R Hy.
  assert (Vd : (1 <= day now <= 31)%Z /\ (1 <= month now <= 12)%Z).
  { pose proof V as V'. unfold is_datetime in V'.
    repeat (apply andb_true_iff in V'; destruct V' as [V' ?]).
    repeat match goal with
           | H : (_ <=? _)%Z = true |- _ => apply Z.leb_le in H
           end.
    pose proof (days_in_month_bounds (year now) (month now)). lia. }
  destruct Vd as [Hd Hm].
  unfold dashboard_daily_flow.
  rewrite (@calendar_range_representable _ _ R). cbn [bind].
  fold (month_transactions db (year now) (month now)).
  set (monthly := month_transactions db (year now) (month now)).
  (* the date of every index *)
  assert (Dates : forall i, (i < 30)%nat ->
            exists date,
              minus_days now (29 - i) = Some date
              /\ (((Z.of_nat (29 - i) < day now)%Z
                   /\ date = mkDatetime (year now) (month now)
                               (day now - Z.of_nat (29 - i)) (hour now)
                               (minute now) (second now) (microsecond now))
                  \/ ((day now <= Z.of_nat (29 - i))%Z
                      /\ (1 <= month date <= 12)%Z
                      /\ (12 * year date + month date
                          < 12 * year now + month now)%Z))).
  { intros i Hi. destruct (Z.lt_ge_cases (Z.of_nat (29 - i)) (day now)) as [L|G].
    - exists (mkDatetime (year now) (month now)
                (day now - Z.of_nat (29 - i)) (hour now)
                (minute now) (second now) (microsecond now)).
      split.
      + destruct now as [y m d h mi s us].
        cbn [year month day hour minute second microsecond] in L |- *.
        apply minus_days_within. exact L.
      + left. split; [exact L|reflexivity].
    - destruct (@minus_days_leaves_month now (29 - i) V Hy ltac:(lia))
        as (date & E & Md & Lt).
      exists date. split; [exact E|]. right. repeat split; try assumption;
        lia. }
  set (date_of := fun i => match minus_days now (29 - i) with
                           | Some date => date
                           | None => now
                           end).
  rewrite (@daily_flow_loop_spec now monthly (seq 0 30) date_of).
  2: { intros i Hi. apply in_seq in Hi.
       destruct (Dates i ltac:(lia)) as (date & E & _).
       unfold date_of. rewrite E. reflexivity. }
  cbn [or_500]. eexists. split; [reflexivity|].
  split; [rewrite length_map, length_seq; reflexivity|].
  set (cut := (30 - Z.to_nat (day now))%nat).
  assert (Hcut : (cut <= 30)%nat) by (unfold cut; lia).
  replace (seq 0 30) with (seq 0 cut ++ seq cut (30 - cut))
    by (rewrite <- seq_app; f_equal; lia).
  rewrite map_app.
  assert (Lc : List.length
                 (map (fun i => daily_flow_entry monthly (date_of i))
                      (seq 0 cut)) = cut)
    by (rewrite length_map, length_seq; reflexivity).
  split.
  - rewrite firstn_app, Lc, Nat.sub_diag, firstn_O, app_nil_r.
    rewrite firstn_all2 by (rewrite Lc; lia).
    apply Forall_forall. intros entry He.
    apply in_map_iff in He. destruct He as [i [E Hi]]. apply in_seq in Hi.
    destruct (Dates i ltac:(lia)) as (date & Ed & [[L _]|[G [Md Lt]]]).
    { exfalso. unfold cut in Hi. lia. }
    subst entry. unfold date_of. rewrite Ed.
    unfold daily_flow_entry, monthly.
    rewrite (@earlier_day_is_empty db (year now) (month now) date Hm Md Lt).
    split; reflexivity.
  - rewrite skipn_app, Lc, Nat.sub_diag, skipn_O.
    rewrite skipn_all2 by (rewrite Lc; lia). cbn [app].
    apply Forall_forall. intros entry He.
    apply in_map_iff in He. destruct He as [i [E Hi]]. apply in_seq in Hi.
    destruct (Dates i ltac:(lia)) as (date & Ed & [[L Eq]|[G _]]).
    2: { exfalso. unfold cut in Hi. lia. }
    subst entry date. unfold date_of. rewrite Ed.
    exists (day now - Z.of_nat (29 - i))%Z. split; [lia|reflexivity].
Qed.

Lemma dashboard_flow_blind_before_month_witness :
  exists daily_flow,
    dashboard_daily_flow ledger_two_categories (mkDatetime 2024 3 2 9 0 0 0)
    = Ok daily_flow
    /\ Forall (fun entry =>
                 flow_income entry = 0%Q /\ flow_expenses entry = 0%Q)
              (firstn 28 daily_flow).
Proof.
  destruct (@dashboard_flow_blind_before_month ledger_two_categories
              (mkDatetime 2024 3 2 9 0 0 0))
    as [flow [E [_ [Z0 _]]]].
  - reflexivity.
  - reflexivity.
  - cbn [year]. lia.
  - exists flow. split; [exact E|exact Z0].
Defined.
